(** * Expense tracker backend: record store, create/list/delete
      controllers and the dashboard aggregation

    A shallow embedding of the Express/Mongoose backend:
    - [models/Income.js], [models/Expense.js]           (the two schemas)
    - [controllers/incomeController.js]                  (addIncome, getAllIncome, deleteIncome)
    - [controllers/expenseController.js]                 (addExpense, getAllExpense, deleteExpense)
    - [controllers/dashboardController.js]               (getDashboardData)

    Conventions.
    - A JavaScript [Date] is its millisecond time value, a [Z]; an
      Invalid Date is [None] of [JSDate]. The parser behind
      [new Date(string)] is a parameter of the create controllers.
    - An [amount] is a JavaScript number with an integer value. Numbers
      add exactly while the sums stay within [Number.MAX_SAFE_INTEGER];
      every statement that depends on the value of a sum assumes that
      bound, and amounts with a fraction are outside this model.
    - An [ObjectId] is a number. The id in the path of a request is the
      text of an ObjectId or any other text, see [IdParam].
    - Where the source shows the [try] of a controller and not its
      [catch], an error raised in the body is left as the outcome
      [Thrown]: nothing is said about what the handler makes of it.
    - A collection is the list of its documents in insertion order.
    - A controller is a computation over the [World] (the two
      collections, the wall clock and the id generator) that returns the
      HTTP response it sends. *)

From stdpp Require Import base list numbers strings sorting.
From Stdlib Require Import ZArith QArith Ascii Lia.
From Stdlib Require DecimalString DecimalPos.

Local Open Scope string_scope.
Local Open Scope list_scope.
Local Open Scope Z_scope.

(** ** Documents *)

Abbreviation ObjectId := N (only parsing).

(** The [:id] segment of a request path, [req.params.id]: the text of an
    ObjectId, which Mongoose casts to that ObjectId, or any other text,
    on which the cast throws a CastError. *)
Inductive IdParam :=
  | IsObjectId (id : ObjectId)
  | NotObjectId (segment : string).

(** [models/Income.js]: userId, icon, source, amount, date, and the two
    fields that [timestamps: true] adds. The [amount] is the integer
    value of the stored number. *)
Module Income.
Record t := mk {
  _id : ObjectId;
  userId : ObjectId;
  icon : option string;
  source : string;
  amount : Z;
  date : Z;
  createdAt : Z;
  updatedAt : Z;
}.
End Income.

(** [models/Expense.js]: the same shape, with [category] for [source]. *)
Module Expense.
Record t := mk {
  _id : ObjectId;
  userId : ObjectId;
  icon : option string;
  category : string;
  amount : Z;
  date : Z;
  createdAt : Z;
  updatedAt : Z;
}.
End Expense.

(** ** The world a request runs in *)

Record World := {
  incomes : list Income.t;
  expenses : list Expense.t;
  clock : Z;          (* what [Date.now()] returns *)
  nextId : ObjectId;  (* the next [_id] Mongoose hands out *)
}.

(** What the query layer needs from a Mongoose model: the fields it
    filters, sorts and sums on, and the collection behind it. *)
Class Model (D : Type) := {
  _id : D → ObjectId;
  userId : D → ObjectId;
  amount : D → Z;
  date : D → Z;
  collection : World → list D;
  set_collection : list D → World → World;
  (* the stored document: _id, userId, icon, source/category, amount,
     date, and the time [timestamps: true] stamps it with *)
  document : ObjectId → ObjectId → option string → string → Z → Z → Z → D;
}.

#[global] Instance IncomeModel : Model Income.t := {|
  _id := Income._id;
  userId := Income.userId;
  amount := Income.amount;
  date := Income.date;
  collection := incomes;
  set_collection l w :=
    {| incomes := l; expenses := expenses w; clock := clock w; nextId := nextId w |};
  document i u ic l a d ts := Income.mk i u ic l a d ts ts;
|}.

#[global] Instance ExpenseModel : Model Expense.t := {|
  _id := Expense._id;
  userId := Expense.userId;
  amount := Expense.amount;
  date := Expense.date;
  collection := expenses;
  set_collection l w :=
    {| incomes := incomes w; expenses := l; clock := clock w; nextId := nextId w |};
  document i u ic l a d ts := Expense.mk i u ic l a d ts ts;
|}.

(** ** Controllers as computations: state and exceptions *)

Inductive Outcome (A : Type) :=
  | Returned (a : A)
  | Thrown (error : string).
Arguments Returned {A} a.
Arguments Thrown {A} error.

Definition M (A : Type) : Type := World → Outcome A * World.

Definition ret {A} (a : A) : M A := λ w, (Returned a, w).

Definition bind {A B} (m : M A) (k : A → M B) : M B :=
  λ w, match m w with
       | (Returned a, w') => k a w'
       | (Thrown e, w') => (Thrown e, w')
       end.

Definition throw {A} (e : string) : M A := λ w, (Thrown e, w).

(** [try { body } catch (error) { handler }] *)
Definition try_catch {A} (body : M A) (handler : string → M A) : M A :=
  λ w, match body w with
       | (Returned a, w') => (Returned a, w')
       | (Thrown e, w') => handler e w'
       end.

(** [try { body } catch ...] of a controller whose [catch] block is not
    part of the source: an error raised in the body is left as the
    outcome, whatever the handler the source leaves out makes of it. *)
Definition try_ {A} (body : M A) : M A := body.

Notation "'await' x ':=' m 'in' k" := (bind m (λ x, k))
  (at level 10, x name, m at level 100, k at level 200).

(** [Date.now()] *)
Definition Date_now : M Z := λ w, (Returned (clock w), w).

(** ** Arrays *)

Section Arrays.
Context {A : Type}.

(** One step of a stable insertion: [x] stood before every element
    of [l] and moves behind those the comparator puts strictly first. *)
Fixpoint sort_insert (cmp : A → A → Z) (x : A) (l : list A) : list A :=
  match l with
  | [] => [x]
  | y :: l' => if cmp x y <=? 0 then x :: y :: l' else y :: sort_insert cmp x l'
  end.

(** [Array.prototype.sort(cmp)]: a stable sort (ECMAScript 2019);
    [cmp a b < 0] puts [a] first, [cmp a b = 0] keeps the order. *)
Definition Array_sort (cmp : A → A → Z) (l : list A) : list A :=
  foldr (sort_insert cmp) [] l.

(** [Array.prototype.reduce(f, init)] *)
Definition Array_reduce {B} (f : B → A → B) (init : B) (l : list A) : B :=
  foldl f init l.

(** Newest first: the order [sort((a, b) => key b - key a)] leaves. *)
Definition newest_first (key : A → Z) : list A → Prop :=
  StronglySorted (λ a b, key b ≤ key a).
End Arrays.

(** ** The Mongoose query layer *)

Section Queries.
Context `{Model D}.

(** [.sort({ date: -1 })]: newest first. *)
Definition sort_date_desc (l : list D) : list D :=
  Array_sort (λ a b, date b - date a) l.

(** [.limit(n)] *)
Definition limit (n : nat) (l : list D) : list D := take n l.

(** The filter [{ userId }]. *)
Definition by_user (uid : ObjectId) (l : list D) : list D :=
  filter (λ d, userId d = uid) l.

(** The filter [{ userId, date: { $gte: cutoff } }]. *)
Definition by_user_since (uid : ObjectId) (cutoff : Z) (l : list D) : list D :=
  filter (λ d, userId d = uid ∧ cutoff ≤ date d) l.

(** [await Model.find(...)...]: run a query on the collection. *)
Definition exec (q : list D → list D) : M (list D) :=
  λ w, (Returned (q (collection w)), w).

(** The stage [{ $group: { _id: null, total: { $sum: "$amount" } } }]:
    one group document when something came in, none otherwise. *)
Definition group_total (matched : list D) : list Z :=
  match matched with
  | [] => []
  | _ :: _ => [foldl (λ s x, s + amount x) 0 matched]
  end.

(** [await Model.aggregate([{ $match: { userId } }, { $group: ... }])] *)
Definition aggregate_total (uid : ObjectId) : M (list Z) :=
  λ w, (Returned (group_total (by_user uid (collection w))), w).

(** [docs] without the first document whose [_id] is [id]. *)
Fixpoint remove_by_id (id : ObjectId) (docs : list D) : list D :=
  match docs with
  | [] => []
  | d :: l => if decide (_id d = id) then l else d :: remove_by_id id l
  end.

(** [Model.findByIdAndDelete(id)]: the deleted document, or [null];
    an id that is no ObjectId does not cast, and the query throws. *)
Definition findByIdAndDelete (id : IdParam) : M (option D) :=
  match id with
  | IsObjectId id =>
      λ w, (Returned (list_find (λ d, _id d = id) (collection w) ≫= (λ p, Some p.2)),
            set_collection (remove_by_id id (collection w)) w)
  | NotObjectId _ => throw "CastError"
  end.
End Queries.

(** ** Requests, responses and JavaScript truthiness *)

(** What a controller reads of [req]: [req.user.id] (set by the
    [protect] middleware), [req.params.id] and [req.body]. *)
Record Request (B : Type) := {
  user_id : ObjectId;
  params_id : IdParam;
  body : B;
}.
Arguments user_id {B} _.
Arguments params_id {B} _.
Arguments body {B} _.

Inductive Payload (A : Type) :=
  | Json (a : A)
  | Message (message : string).
Arguments Json {A} a.
Arguments Message {A} message.

(** [res.status(status).json(payload)]; [res.json] alone sends 200. *)
Record Response (A : Type) := {
  status : nat;
  payload : Payload A;
}.
Arguments status {A} _.
Arguments payload {A} _.

Definition res_json {A} (st : nat) (a : A) : Response A :=
  {| status := st; payload := Json a |}.
Definition res_message {A} (st : nat) (m : string) : Response A :=
  {| status := st; payload := Message m |}.

(** A field of a JSON body is absent ([undefined], [None]) or holds a
    value: a text for the label and the date, a number or a text for
    the amount. The falsy values are [undefined], the empty string and
    the number 0. *)
Class Truthy (A : Type) := truthy : A → bool.

#[global] Instance string_truthy : Truthy string := λ s, negb (String.eqb s "").
#[global] Instance number_truthy : Truthy Z := λ n, negb (n =? 0).

(** The value of the key [amount]: a JSON number, or a JSON string (the
    forms post the text of their input). *)
Inductive JsonAmount :=
  | AmountNumber (n : Z)
  | AmountText (text : string).

#[global] Instance amount_truthy : Truthy JsonAmount :=
  λ a, match a with
       | AmountNumber n => truthy n
       | AmountText text => truthy text
       end.
#[global] Instance optional_truthy `{Truthy A} : Truthy (option A) :=
  λ v, match v with Some x => truthy x | None => false end.

(** [v || d] *)
Definition js_or `{Truthy A} (v : option A) (d : A) : A :=
  match v with
  | Some x => if truthy x then x else d
  | None => d
  end.

(** ** Building and saving a document *)

(** A [Date] object: its time value, or [None] for an Invalid Date. *)
Definition JSDate : Type := option Z.

(** A document built by [new Model({...})] and not saved yet. [label] is
    the path [source] of an Income and [category] of an Expense. *)
Record Draft := {
  draft_id : ObjectId;
  draft_userId : ObjectId;
  draft_icon : option string;
  draft_label : option string;
  draft_amount : option Z;
  draft_date : JSDate;
}.

Section Mongoose.
(** Mongoose's cast of a text to the schema type Number: the number the
    text converts to, or [None] where it converts to none. Like the
    amounts themselves, the numbers it gives are integers. *)
Variable castNumber : string → option Z.

(** The cast of the path [amount: { type: Number }]: a number is kept
    and a text is converted; a value that does not cast leaves the path
    unset, and [save] reports it. *)
Definition cast_amount (amount : JsonAmount) : option Z :=
  match amount with
  | AmountNumber n => Some n
  | AmountText text => castNumber text
  end.

(** [new Model({ userId, icon, source|category, amount, date })]. The
    schema path [date: { type: Date, default: Date.now }] takes the
    clock when no [date] is given. *)
Definition new_Model (userId : ObjectId) (icon label : option string)
    (amount : option JsonAmount) (date : option JSDate) : M Draft :=
  λ w,
    (Returned {| draft_id := nextId w;
                 draft_userId := userId;
                 draft_icon := icon;
                 draft_label := label;
                 draft_amount := amount ≫= cast_amount;
                 draft_date := match date with Some d => d | None => Some (clock w) end |},
     {| incomes := incomes w; expenses := expenses w; clock := clock w;
        nextId := N.succ (nextId w) |}).
End Mongoose.

(** [doc.save()]: validation first ([required: true] on the label and
    the amount, a date that is a date, no path that failed to cast),
    then the insert. *)
Definition save `{Model D} (doc : Draft) : M D :=
  λ w,
    match draft_label doc, draft_amount doc, draft_date doc with
    | Some l, Some a, Some d =>
        if truthy l then
          let stored :=
            document (draft_id doc) (draft_userId doc) (draft_icon doc) l a d (clock w) in
          (Returned stored, set_collection (collection w ++ [stored]) w)
        else throw "ValidationError" w
    | _, _, _ => throw "ValidationError" w
    end.

(** ** controllers/incomeController.js and controllers/expenseController.js *)

Module IncomeBody.
Record t := mk {
  icon : option string;
  source : option string;
  amount : option JsonAmount;
  date : option string;
}.
End IncomeBody.

Module ExpenseBody.
Record t := mk {
  icon : option string;
  category : option string;
  amount : option JsonAmount;
  date : option string;
}.
End ExpenseBody.

Section Create.
(** [new Date(s)] for a string [s]: the platform's date parser. *)
Variable Date_parse : string → JSDate.
(** Mongoose's cast of a text to a Number. *)
Variable castNumber : string → option Z.

(** [new Date(v)]; [new Date(undefined)] is an Invalid Date. *)
Definition new_Date (v : option string) : JSDate :=
  match v with
  | Some s => Date_parse s
  | None => None
  end.

Definition addIncome (req : Request IncomeBody.t) : M (Response Income.t) :=
  let userId := user_id req in
  try_
    (let '(IncomeBody.mk icon source amount date) := body req in
     (* Validation: Check for missing fields *)
     if negb (truthy source) || negb (truthy amount) || negb (truthy date) then
       ret (res_message 400 "All fields are required")
     else
       await newIncome :=
         new_Model castNumber userId icon source amount (Some (new_Date date)) in
       await saved := save newIncome in
       ret (res_json 200 saved)).

Definition addExpense (req : Request ExpenseBody.t) : M (Response Expense.t) :=
  let userId := user_id req in
  try_catch
    (let '(ExpenseBody.mk icon category amount date) := body req in
     (* Validation: Check for missing fields *)
     if negb (truthy category) || negb (truthy amount) || negb (truthy date) then
       ret (res_message 400 "All fields are required")
     else
       await newExpense :=
         new_Model castNumber userId icon category amount (Some (new_Date date)) in
       await saved := save newExpense in
       ret (res_json 200 saved))
    (λ error, ret (res_message 500 "Server Error")).
End Create.

Definition getAllIncome (req : Request unit) : M (Response (list Income.t)) :=
  let userId := user_id req in
  try_
    (await income := exec (λ c, sort_date_desc (by_user userId c)) in
     ret (res_json 200 income)).

Definition getAllExpense (req : Request unit) : M (Response (list Expense.t)) :=
  let userId := user_id req in
  try_
    (await expense := exec (λ c, sort_date_desc (by_user userId c)) in
     ret (res_json 200 expense)).

Definition deleteIncome (req : Request unit) : M (Response unit) :=
  try_
    (await deleted := findByIdAndDelete (D:=Income.t) (params_id req) in
     ret (res_message 200 "Income deleted successfully")).

Definition deleteExpense (req : Request unit) : M (Response unit) :=
  try_
    (await deleted := findByIdAndDelete (D:=Expense.t) (params_id req) in
     ret (res_message 200 "Expense deleted successfully")).

(** ** controllers/dashboardController.js *)

(** An entry of [recentTransactions]: [{ ...txn.toObject(), type }]. *)
Inductive Transaction :=
  | IncomeTxn (txn : Income.t)
  | ExpenseTxn (txn : Expense.t).

Definition type (t : Transaction) : string :=
  match t with
  | IncomeTxn _ => "income"
  | ExpenseTxn _ => "expense"
  end.

Definition is_income (t : Transaction) : Prop := type t = "income".
Definition is_expense (t : Transaction) : Prop := type t = "expense".

Definition txn_date (t : Transaction) : Z :=
  match t with
  | IncomeTxn txn => date txn
  | ExpenseTxn txn => date txn
  end.

Record Window (D : Type) := {
  total : Z;
  transactions : list D;
}.
Arguments total {D} _.
Arguments transactions {D} _.

Record Summary := {
  totalBalance : Z;
  totalIncome : Z;
  totalExpenses : Z;
  last30DaysExpenses : Window Expense.t;
  last60DaysIncome : Window Income.t;
  recentTransactions : list Transaction;
}.

Definition getDashboardData (req : Request unit) : M (Response Summary) :=
  try_catch
    (let userId := user_id req in
     let userObjectId := userId in  (* new Types.ObjectId(String(userId)) *)
     await totalIncome := aggregate_total (D:=Income.t) userObjectId in
     await totalExpense := aggregate_total (D:=Expense.t) userObjectId in
     await now60 := Date_now in
     await last60DaysIncomeTransactions :=
       exec (λ c, sort_date_desc
                    (by_user_since userId (now60 - 60 * 24 * 60 * 60 * 1000) c)) in
     let incomeLast60Days :=
       Array_reduce (λ sum transaction, sum + amount transaction) 0
         last60DaysIncomeTransactions in
     await now30 := Date_now in
     await last30DaysExpenseTransactions :=
       exec (λ c, sort_date_desc
                    (by_user_since userId (now30 - 30 * 24 * 60 * 60 * 1000) c)) in
     let expensesLast30Days :=
       Array_reduce (λ sum transaction, sum + amount transaction) 0
         last30DaysExpenseTransactions in
     await recentIncome := exec (λ c, limit 5 (sort_date_desc (by_user userId c))) in
     await recentExpense := exec (λ c, limit 5 (sort_date_desc (by_user userId c))) in
     let lastTransactions :=
       Array_sort (λ a b, txn_date b - txn_date a)
         (map IncomeTxn recentIncome ++ map ExpenseTxn recentExpense) in
     ret (res_json 200
            {| totalBalance := js_or (head totalIncome) 0 - js_or (head totalExpense) 0;
               totalIncome := js_or (head totalIncome) 0;
               totalExpenses := js_or (head totalExpense) 0;
               last30DaysExpenses :=
                 {| total := expensesLast30Days;
                    transactions := last30DaysExpenseTransactions |};
               last60DaysIncome :=
                 {| total := incomeLast60Days;
                    transactions := last60DaysIncomeTransactions |};
               recentTransactions := lastTransactions |}))
    (λ error, ret (res_message 500 "Server Error")).

(** The summary a response carries, when it carries one. *)
Definition summary_of (r : Response Summary) : option Summary :=
  match payload r with
  | Json s => Some s
  | Message _ => None
  end.

(** ** Vocabulary of the properties *)

(** The number of documents of a collection that [uid] owns. *)
Definition count_of (D : Type) `{Model D} (uid : ObjectId) (w : World) : nat :=
  length (by_user uid (collection (D:=D) w)).

(** Thirty and sixty days, in milliseconds. *)
Definition days (n : Z) : Z := n * 24 * 60 * 60 * 1000.

(** A GET request of user [uid]; its route has no [:id], and the
    controllers behind it read none. *)
Definition get_as (uid : ObjectId) : Request unit :=
  {| user_id := uid; params_id := NotObjectId ""; body := tt |}.

(** A DELETE request of user [uid] for the document [id]. *)
Definition delete_as (uid id : ObjectId) : Request unit :=
  {| user_id := uid; params_id := IsObjectId id; body := tt |}.

(** A DELETE request of user [uid] whose path ends in a text that is no
    ObjectId. *)
Definition delete_segment (uid : ObjectId) (segment : string) : Request unit :=
  {| user_id := uid; params_id := NotObjectId segment; body := tt |}.

(** ** Sample data *)

Definition alice : ObjectId := 7%N.
Definition bob : ObjectId := 8%N.

(** An income and an expense of [uid], [d] days after the epoch. *)
Definition income_on (id uid : ObjectId) (label : string) (amt d : Z) : Income.t :=
  Income.mk id uid None label amt (days d) (days d) (days d).
Definition expense_on (id uid : ObjectId) (label : string) (amt d : Z) : Expense.t :=
  Expense.mk id uid None label amt (days d) (days d) (days d).

(** Nobody has recorded anything. *)
Definition empty_world : World :=
  {| incomes := []; expenses := []; clock := days 100; nextId := 1%N |}.

(** Alice has six incomes and no expense. *)
Definition six_incomes : World :=
  {| incomes := [income_on 1 alice "Salary" 5000 10; income_on 2 alice "Salary" 5000 40;
                 income_on 3 alice "Bonus" 700 41; income_on 4 alice "Salary" 5000 70;
                 income_on 5 alice "Freelance" 1500 80; income_on 6 alice "Salary" 5000 99];
     expenses := [];
     clock := days 100;
     nextId := 7%N |}.

(** Alice's books of the end-to-end scenario, read on day 100, with an
    expense dated the very millisecond the 30-day window opens. *)
Definition alice_books : World :=
  {| incomes := [income_on 1 alice "Salary" 5000 99; income_on 2 alice "Freelance" 1500 80];
     expenses := [expense_on 3 alice "Rent" 1200 98; expense_on 4 alice "Food" 300 65;
                  expense_on 5 alice "Gym" 40 70];
     clock := days 100;
     nextId := 6%N |}.

(** The same books after Bob recorded an income and an expense. *)
Definition alice_and_bob_books : World :=
  {| incomes := income_on 6 bob "Salary" 4000 99 :: incomes alice_books;
     expenses := expenses alice_books ++ [expense_on 7 bob "Rent" 900 98];
     clock := days 100;
     nextId := 8%N |}.

(** The date parser on the one string the samples send. *)
Definition sample_parse (s : string) : JSDate :=
  if String.eqb s "2025-01-15" then Some 1736899200000 else None.

(** The cast to a Number on the texts the samples send. *)
Definition sample_cast (text : string) : option Z :=
  if String.eqb text "0" then Some 0
  else if String.eqb text "700" then Some 700
  else None.

(** Alice posts an income without a date. *)
Definition income_without_date : Request IncomeBody.t :=
  {| user_id := alice; params_id := NotObjectId "";
     body := IncomeBody.mk None (Some "Salary") (Some (AmountNumber 5000)) None |}.

(** Alice posts an expense without a date. *)
Definition expense_without_date : Request ExpenseBody.t :=
  {| user_id := alice; params_id := NotObjectId "";
     body := ExpenseBody.mk None (Some "Rent") (Some (AmountNumber 1200)) None |}.

(** Alice has an income and an expense both dated day 90, and an
    older income. *)
Definition same_day_books : World :=
  {| incomes := [income_on 1 alice "Salary" 5000 80; income_on 2 alice "Bonus" 700 90];
     expenses := [expense_on 3 alice "Rent" 1200 90; expense_on 4 alice "Food" 300 95];
     clock := days 100;
     nextId := 5%N |}.

(** ** Excel export *)

(** A row of the exported sheet: the keys become the column headers.
    Both controllers name the first column [Source]. *)
Record Row := {
  Source : string;
  Amount : Z;
  Date : Z;
}.

(** The workbook [res.download] sends: one sheet and its rows. *)
Record Workbook := {
  sheet_name : string;
  sheet_rows : list Row;
}.

Definition downloadIncomeExcel (req : Request unit) : M (Response Workbook) :=
  let userId := user_id req in
  try_
    (await income := exec (λ c, sort_date_desc (by_user userId c)) in
     (* Prepare data for Excel *)
     let data :=
       map (λ item, {| Source := Income.source item;
                       Amount := Income.amount item;
                       Date := Income.date item |}) income in
     (* book_new, json_to_sheet(data), book_append_sheet(wb, ws, "Income") *)
     let wb := {| sheet_name := "Income"; sheet_rows := data |} in
     ret (res_json 200 wb)).

Definition downloadExpenseExcel (req : Request unit) : M (Response Workbook) :=
  let userId := user_id req in
  try_
    (await expense := exec (λ c, sort_date_desc (by_user userId c)) in
     (* Prepare data for Excel *)
     let data :=
       map (λ item, {| Source := Expense.category item;
                       Amount := Expense.amount item;
                       Date := Expense.date item |}) expense in
     (* book_new, json_to_sheet(data), book_append_sheet(wb, ws, "expense") *)
     let wb := {| sheet_name := "expense"; sheet_rows := data |} in
     ret (res_json 200 wb)).

(** ** The API as a state machine *)

(** One request to one of the routes, or the clock moving on. *)
Inductive Call :=
  | PostIncome (req : Request IncomeBody.t)
  | PostExpense (req : Request ExpenseBody.t)
  | GetIncome (req : Request unit)
  | GetExpense (req : Request unit)
  | DeleteIncome (req : Request unit)
  | DeleteExpense (req : Request unit)
  | DownloadIncome (req : Request unit)
  | DownloadExpense (req : Request unit)
  | GetDashboard (req : Request unit)
  | Tick (now : Z).

(** The world a call leaves behind. *)
Definition after (Date_parse : string → JSDate) (castNumber : string → option Z)
    (c : Call) (w : World) : World :=
  match c with
  | PostIncome req => snd (addIncome Date_parse castNumber req w)
  | PostExpense req => snd (addExpense Date_parse castNumber req w)
  | GetIncome req => snd (getAllIncome req w)
  | GetExpense req => snd (getAllExpense req w)
  | DeleteIncome req => snd (deleteIncome req w)
  | DeleteExpense req => snd (deleteExpense req w)
  | DownloadIncome req => snd (downloadIncomeExcel req w)
  | DownloadExpense req => snd (downloadExpenseExcel req w)
  | GetDashboard req => snd (getDashboardData req w)
  | Tick now =>
      {| incomes := incomes w; expenses := expenses w; clock := now; nextId := nextId w |}
  end.

(** The world after a sequence of calls, served one after the other. *)
Definition serve (Date_parse : string → JSDate) (castNumber : string → option Z)
    (calls : list Call) (w : World) : World :=
  foldl (λ w c, after Date_parse castNumber c w) w calls.

(** The empty store the server starts from. *)
Definition fresh_world (now : Z) : World :=
  {| incomes := []; expenses := []; clock := now; nextId := 0%N |}.

(** What every store reached through the API satisfies: ids are unique
    in each collection and were all handed out by the generator, and no
    record has an empty label. *)
Record consistent (w : World) : Prop := {
  income_ids_unique : NoDup (_id <$> incomes w);
  expense_ids_unique : NoDup (_id <$> expenses w);
  income_ids_issued : ∀ d, d ∈ incomes w → (Income._id d < nextId w)%N;
  expense_ids_issued : ∀ d, d ∈ expenses w → (Expense._id d < nextId w)%N;
  income_fields : ∀ d, d ∈ incomes w → Income.source d ≠ "";
  expense_fields : ∀ d, d ∈ expenses w → Expense.category d ≠ "";
}.

(** The sum of the amounts of some documents, in any order. *)
Definition sum_amounts `{Model D} (l : list D) : Z :=
  foldr (λ d s, amount d + s) 0 l.

(** [Number.MAX_SAFE_INTEGER], 2^53 - 1: JavaScript numbers and the
    database add and subtract integers exactly as long as the operands
    and the result are within it. *)
Definition MAX_SAFE_INTEGER : Z := 9007199254740991.

(** The sum of the absolute values of the amounts of some documents: a
    bound on every sum over any of them, taken in any order. *)
Definition abs_sum `{Model D} (l : list D) : Z :=
  foldr (λ d s, Z.abs (amount d) + s) 0 l.

(** The books of [uid] are safe when the absolute values of all the
    amounts of [uid], incomes and expenses together, add up to at most
    [Number.MAX_SAFE_INTEGER]: every sum and difference the dashboard
    forms over them is then computed exactly. *)
Definition safe_books (uid : ObjectId) (w : World) : Prop :=
  abs_sum (by_user uid (incomes w)) + abs_sum (by_user uid (expenses w))
  ≤ MAX_SAFE_INTEGER.

(** A complete income request of [uid]. *)
Definition post_income (uid : ObjectId) (icon : option string) (s : string) (a : Z)
    (d : string) : Request IncomeBody.t :=
  {| user_id := uid; params_id := NotObjectId "";
     body := IncomeBody.mk icon (Some s) (Some (AmountNumber a)) (Some d) |}.

(** A complete expense request of [uid]. *)
Definition post_expense (uid : ObjectId) (icon : option string) (s : string) (a : Z)
    (d : string) : Request ExpenseBody.t :=
  {| user_id := uid; params_id := NotObjectId "";
     body := ExpenseBody.mk icon (Some s) (Some (AmountNumber a)) (Some d) |}.

(** The world once the generator has handed out one more [_id]. *)
Definition issue_id (w : World) : World :=
  {| incomes := incomes w; expenses := expenses w; clock := clock w;
     nextId := N.succ (nextId w) |}.

(** Requests whose date is a text that is no date. *)
Definition expense_dated_tomorrow : Request ExpenseBody.t :=
  post_expense alice None "Rent" 1200 "tomorrow".
Definition refund_dated_tomorrow : Request ExpenseBody.t :=
  post_expense alice None "Refund" (-250) "tomorrow".
Definition income_refund_dated_tomorrow : Request IncomeBody.t :=
  post_income alice None "Refund" (-250) "tomorrow".

(** ** services/aiService.js and the route /ai-categorize *)

(** Define expense categories *)
Definition EXPENSE_CATEGORIES : list string :=
  ["Food & Dining"; "Transportation"; "Shopping"; "Entertainment";
   "Bills & Utilities"; "Healthcare"; "Education"; "Travel";
   "Personal Care"; "Other"].

(** One [{ label, score }] of the classifier. A score is the rational
    number the JavaScript number stands for. *)
Record Prediction := {
  label : string;
  score : Q;
}.

(** What [hf.zeroShotClassification] resolves to: an array of
    predictions, the old object of two arrays, or an object that is
    neither. A rejected call is [Thrown] with the message of its
    error. *)
Inductive HfResult :=
  | HfArray (predictions : list Prediction)
  | HfLegacy (labels : list string) (scores : list Q)
  | HfOther.

(** An entry of [allPredictions]. *)
Module Alternative.
Record t := mk {
  category : string;
  confidence : option Q;
}.
End Alternative.

(** What [categorizeExpense] returns; a key that is not set, or set to
    [undefined], is [None]. *)
Record Categorization := {
  category : option string;
  confidence : option Q;
  allPredictions : option (list Alternative.t);
  error : option string;
}.

Section AiService.
(** The Hugging Face client: inputs and candidate labels to the
    outcome of the call. *)
Variable hf : string → list string → Outcome HfResult.

Definition zeroShotClassification (inputs : string) (candidate_labels : list string)
  : M HfResult :=
  λ w, (hf inputs candidate_labels, w).

Definition categorizeExpense (description : string) : M Categorization :=
  try_catch
    (await result := zeroShotClassification description EXPENSE_CATEGORIES in
     match result with
     | HfArray (first :: rest) =>
         (* Array.isArray(result) && result.length > 0 && result[0].label *)
         if truthy (label first) then
           ret {| category := Some (label first);
                  confidence := Some (score first);
                  allPredictions :=
                    Some (map (λ r, Alternative.mk (label r) (Some (score r)))
                            (take 3 (first :: rest)));
                  error := None |}
         else throw "Unexpected AI response structure"
     | HfArray [] => throw "Unexpected AI response structure"
     | HfLegacy labels scores =>
         (* result.labels && result.scores: arrays are truthy *)
         ret {| category := head labels;
                confidence := head scores;
                allPredictions :=
                  Some (imap (λ i label, Alternative.mk label (scores !! i))
                          (take 3 labels));
                error := None |}
     | HfOther => throw "Unexpected AI response structure"
     end)
    (λ error,
       ret {| category := Some "Other";
              confidence := Some 0%Q;
              allPredictions := None;
              error := Some error |}).

(** AI categorization route *)
Definition ai_categorize (req : Request (option string)) : M (Response Categorization) :=
  try_catch
    (let description := body req in
     if negb (truthy description) then
       ret (res_message 400 "Description required")
     else
       await result := categorizeExpense (default "" description) in
       ret (res_json 200 result))
    (λ error, ret (res_message 500 "Categorization failed")).
End AiService.

(** A POST of user [uid] to /ai-categorize with [{ description }]. *)
Definition categorize_as (uid : ObjectId) (description : option string)
  : Request (option string) :=
  {| user_id := uid; params_id := NotObjectId ""; body := description |}.

(** A classifier that is sure of coffee and fails on anything else. *)
Definition sample_hf (inputs : string) (candidate_labels : list string) : Outcome HfResult :=
  if String.eqb inputs "Bought coffee at Starbucks" then
    Returned (HfArray [{| label := "Food & Dining"; score := 89 # 100 |};
                       {| label := "Shopping"; score := 6 # 100 |};
                       {| label := "Entertainment"; score := 3 # 100 |};
                       {| label := "Travel"; score := 2 # 100 |}])
  else Thrown "Service Unavailable".

(** ** hooks/useAICategorization.jsx and components/Expense/AddExpenseForm.jsx *)

(** A JavaScript string is the Rocq string of its UTF-16 code units;
    this covers the strings whose code units are below 256. Of those,
    the white space and line terminators [trim] strips are TAB, LF, VT,
    FF, CR, SP and NBSP. *)
Definition is_white_space (c : ascii) : bool :=
  let n := nat_of_ascii c in
  ((9 <=? n) && (n <=? 13) || (n =? 32) || (n =? 160))%nat.

Fixpoint drop_while {A} (p : A → bool) (l : list A) : list A :=
  match l with
  | [] => []
  | x :: l' => if p x then drop_while p l' else l
  end.

(** [String.prototype.trim] *)
Definition trim (s : string) : string :=
  String.string_of_list_ascii
    (reverse (drop_while is_white_space
                (reverse (drop_while is_white_space (String.list_ascii_of_string s))))).

(** The state of the hook: [loading] and [error]. *)
Module Hook.
Record state := mk {
  loading : bool;
  error : option string;
}.
End Hook.

(** [axiosInstance.post(API_PATHS.EXPENSE.AI_CATEGORIZE, { description })]
    resolves with a response of status 2xx, and rejects with any other
    response or, when no response came ([None]), without one. An error
    response carries [{ message }]. *)
Definition resolves {A} (reply : option (Response A)) : option (Payload A) :=
  match reply with
  | Some r => if ((200 <=? status r) && (status r <? 300))%nat then Some (payload r) else None
  | None => None
  end.

(** [err.response?.data?.message] *)
Definition response_message {A} (reply : option (Response A)) : option string :=
  match reply with
  | Some {| payload := Message m |} => Some m
  | _ => None
  end.

(** The object a 2xx body parses to, seen as a categorization: a body
    that is only a message has none of its keys. *)
Definition response_data (p : Payload Categorization) : Categorization :=
  match p with
  | Json data => data
  | Message _ =>
      {| category := None; confidence := None; allPredictions := None; error := None |}
  end.

Section ExpenseFormModel.
(** The server behind the POST. *)
Variable post : string → option (Response Categorization).

(** The [categorizeExpense] the hook returns. *)
Definition hook_categorizeExpense (description : string) (st : Hook.state)
  : option Categorization * Hook.state :=
  (* Don't categorize empty or very short descriptions *)
  if negb (truthy description) || (String.length (trim description) <? 3)%nat then
    (None, st)
  else
    (* setLoading(true); setError(null); ... finally setLoading(false) *)
    match resolves (post description) with
    | Some p => (Some (response_data p), Hook.mk false None)
    | None =>
        let errorMsg :=
          js_or (response_message (post description)) "Categorization failed" in
        (None, Hook.mk false (Some errorMsg))
    end.
End ExpenseFormModel.

(** The [expense] state of the form. *)
Module ExpenseForm.
Record t := mk {
  category : string;
  amount : string;
  date : string;
  icon : string;
  description : string;
}.
End ExpenseForm.

(** The state of the component: [expense], [suggestedCategory] and the
    state of the hook. *)
Record FormState := {
  expense : ExpenseForm.t;
  suggestedCategory : string;
  hook : Hook.state;
}.

Definition setExpense (v : ExpenseForm.t) (st : FormState) : FormState :=
  {| expense := v; suggestedCategory := suggestedCategory st; hook := hook st |}.

Definition setSuggestedCategory (v : string) (st : FormState) : FormState :=
  {| expense := expense st; suggestedCategory := v; hook := hook st |}.

(** The hook updating its own state. *)
Definition set_hook (v : Hook.state) (st : FormState) : FormState :=
  {| expense := expense st; suggestedCategory := suggestedCategory st; hook := v |}.

Section ExpenseFormHandlers.
Variable post : string → option (Response Categorization).

(** [handleDescriptionChange] as one render defined it: [rendered] is the
    state of that render, whose [expense] the handler and its
    [handleChange] close over. The state after the handler is the
    result of its state updates, in the order they are made. *)
Definition handleDescriptionChange (rendered : FormState) (value : string) : FormState :=
  let expense := expense rendered in
  let description := value in
  (* handleChange("description", description) *)
  let st :=
    setExpense
      (ExpenseForm.mk (ExpenseForm.category expense) (ExpenseForm.amount expense)
         (ExpenseForm.date expense) (ExpenseForm.icon expense) description)
      rendered in
  (* Trigger AI categorization if description is long enough *)
  if (5 <? String.length description)%nat then
    let '(result, hook') := hook_categorizeExpense post description (hook st) in
    let st := set_hook hook' st in
    match result with
    | Some result =>
        if truthy (category result) then
          let st := setSuggestedCategory (default "" (category result)) st in
          (* Auto-fill category if confidence is high *)
          match confidence result with
          | Some c =>
              if Qlt_le_dec (7 # 10) c then
                (* handleChange("category", result.category) *)
                setExpense
                  (ExpenseForm.mk (default "" (category result))
                     (ExpenseForm.amount expense) (ExpenseForm.date expense)
                     (ExpenseForm.icon expense) (ExpenseForm.description expense))
                  st
              else st
          | None => st
          end
        else st
    | None => st
    end
  else setSuggestedCategory "" st.
End ExpenseFormHandlers.

(** The POST of the form answered by the route of this backend, for
    the signed-in user [uid]. *)
Definition server_post (hf : string → list string → Outcome HfResult) (w : World)
    (uid : ObjectId) (description : string) : option (Response Categorization) :=
  match fst (ai_categorize hf (categorize_as uid (Some description)) w) with
  | Returned r => Some r
  | Thrown _ => None
  end.

(** The form as it is first rendered. *)
Definition empty_form : FormState :=
  {| expense := ExpenseForm.mk "" "" "" "" "";
     suggestedCategory := "";
     hook := Hook.mk false None |}.

(** The form of a user who typed all but the last letter. *)
Definition typing_coffee : FormState :=
  {| expense := ExpenseForm.mk "" "" "" "" "Bought coffee at Starbuck";
     suggestedCategory := "";
     hook := Hook.mk false None |}.

(** ** models/User.js and controllers/authController.js *)

(** [models/User.js]: fullName, email (unique), password (the bcrypt
    hash once saved), profileImageUrl (default null), and timestamps. *)
Module User.
Record t := mk {
  _id : ObjectId;
  fullName : string;
  email : string;
  password : string;
  profileImageUrl : option string;
  createdAt : Z;
  updatedAt : Z;
}.
End User.

(** The users collection with what creating a user draws on: the id
    generator, the clock and the salt bcrypt draws next. *)
Record Accounts := {
  users : list User.t;
  nextUserId : ObjectId;
  accounts_clock : Z;
  nextSalt : N;
}.

Module RegisterBody.
Record t := mk {
  fullName : option string;
  email : option string;
  password : option string;
  profileImageUrl : option string;
}.
End RegisterBody.

(** A login body that has both of its keys. *)
Module LoginBody.
Record t := mk {
  email : string;
  password : string;
}.
End LoginBody.

(** [{ id, user, token }] *)
Module Session.
Record t := mk {
  id : ObjectId;
  user : User.t;
  token : string;
}.
End Session.

Section Auth.
(** [bcrypt.hash(password, 10)] with the salt it drew and
    [bcrypt.compare(candidate, hash)]. *)
Variable bcrypt_hash : N → string → string.
Variable bcrypt_compare : string → string → bool.
(** [generateToken(id)]: the helper is not part of the source. It signs
    a token for the id at the time of the call, so a token issued later
    for the same id need not be the same token. *)
Variable generateToken : ObjectId → Z → string.

(** [User.findOne({ email })] *)
Definition User_findOne (email : string) (a : Accounts) : option User.t :=
  snd <$> list_find (λ u, User.email u = email) (users a).

(** [User.create({...})]: the pre-save hook hashes the password, then
    the document is inserted. *)
Definition User_create (fullName email password : string)
    (profileImageUrl : option string) (a : Accounts) : User.t * Accounts :=
  let user :=
    User.mk (nextUserId a) fullName email (bcrypt_hash (nextSalt a) password)
      profileImageUrl (accounts_clock a) (accounts_clock a) in
  (user,
   {| users := users a ++ [user];
      nextUserId := N.succ (nextUserId a);
      accounts_clock := accounts_clock a;
      nextSalt := N.succ (nextSalt a) |}).

(** [user.comparePassword(candidatePassword)] *)
Definition comparePassword (user : User.t) (candidatePassword : string) : bool :=
  bcrypt_compare candidatePassword (User.password user).

Definition registerUser (body : RegisterBody.t) (a : Accounts)
  : Response Session.t * Accounts :=
  let '(RegisterBody.mk fullName email password profileImageUrl) := body in
  if negb (truthy fullName) || negb (truthy email) || negb (truthy password) then
    (res_message 400 "All fields are required", a)
  else
    match User_findOne (default "" email) a with
    | Some existingUser => (res_message 400 "Email already in use", a)
    | None =>
        let '(user, a') :=
          User_create (default "" fullName) (default "" email) (default "" password)
            profileImageUrl a in
        (res_json 201
           (Session.mk (User._id user) user
              (generateToken (User._id user) (accounts_clock a))),
         a')
    end.

Definition loginUser (body : LoginBody.t) (a : Accounts)
  : Response Session.t * Accounts :=
  let '(LoginBody.mk email password) := body in
  match User_findOne email a with
  | Some user =>
      if negb (comparePassword user password) then
        (res_message 400 "Invalid credentials", a)
      else
        (res_json 200
           (Session.mk (User._id user) user
              (generateToken (User._id user) (accounts_clock a))),
         a)
  | None => (res_message 400 "Invalid credentials", a)
  end.
End Auth.

(** A call to one of the two routes. *)
Inductive AuthCall :=
  | Register (body : RegisterBody.t)
  | Login (body : LoginBody.t).

Definition auth_after (bcrypt_hash : N → string → string)
    (bcrypt_compare : string → string → bool) (generateToken : ObjectId → Z → string)
    (c : AuthCall) (a : Accounts) : Accounts :=
  match c with
  | Register body => snd (registerUser bcrypt_hash generateToken body a)
  | Login body => snd (loginUser bcrypt_compare generateToken body a)
  end.

(** No user yet. *)
Definition no_accounts (now : Z) : Accounts :=
  {| users := []; nextUserId := 0%N; accounts_clock := now; nextSalt := 0%N |}.

(** A stand-in for bcrypt that keeps the salt in front of the password,
    and a token that spells the id and the time. *)
Definition sample_hash (salt : N) (password : string) : string :=
  String (ascii_of_N salt) password.
Definition sample_compare (candidate hash : string) : bool :=
  match hash with
  | String _ rest => String.eqb candidate rest
  | EmptyString => false
  end.
Definition sample_token (id : ObjectId) (now : Z) : string :=
  String (ascii_of_N id) (String (ascii_of_N (Z.to_N now)) "").


Definition mahir : RegisterBody.t :=
  RegisterBody.mk (Some "Mahir Islam") (Some "mahir@timetoprogram.com") (Some "test@321")
    (Some "").

(** The accounts after a sequence of calls to the two routes. *)
Definition auth_serve (bcrypt_hash : N → string → string)
    (bcrypt_compare : string → string → bool) (generateToken : ObjectId → Z → string)
    (calls : list AuthCall) (a : Accounts) : Accounts :=
  foldl (λ a c, auth_after bcrypt_hash bcrypt_compare generateToken c a) a calls.

(** What the users collection always satisfies: no two users share an
    email or an id, ids come from the generator, and every user has a
    name, an email and a password hash of a password that was given. *)
Record accounts_ok (a : Accounts) : Prop := {
  emails_unique : NoDup (User.email <$> users a);
  user_ids_unique : NoDup (User._id <$> users a);
  user_ids_issued : ∀ u, u ∈ users a → (User._id u < nextUserId a)%N;
  user_fields : ∀ u, u ∈ users a → User.fullName u ≠ "" ∧ User.email u ≠ "";
}.

(** ** pages/Dashboard/Income.jsx and Expense.jsx: the add handlers *)

(** What the add form hands to the handler: the text of each input. *)
Module IncomeForm.
Record t := mk {
  source : string;
  amount : string;
  date : string;
  icon : string;
}.
End IncomeForm.

Module ExpenseFormFields.
Record t := mk {
  category : string;
  amount : string;
  date : string;
  icon : string;
}.
End ExpenseFormFields.

(** What a handler does, in order. *)
Inductive Effect (B : Type) :=
  | ToastError (message : string)
  | ToastSuccess (message : string)
  | Post (body : B)
  | CloseModal
  | Refetch
  | ConsoleError.
Arguments ToastError {B} message.
Arguments ToastSuccess {B} message.
Arguments Post {B} body.
Arguments CloseModal {B}.
Arguments Refetch {B}.
Arguments ConsoleError {B}.

Section AddHandlers.
(** [Number(text)]: the number a text converts to, [None] for NaN. *)
Variable Number_ : string → option Q.

(** [!amount || isNaN(amount) || Number(amount) <= 0] *)
Definition amount_refused (amount : string) : bool :=
  negb (truthy amount)
  || match Number_ amount with
     | None => true
     | Some q => Qle_bool q 0
     end.

Section IncomeHandler.
(** Whether the POST resolves (a 2xx answer) or rejects. *)
Variable post : IncomeForm.t → bool.

Definition handleAddIncome (income : IncomeForm.t) : list (Effect IncomeForm.t) :=
  let '(IncomeForm.mk source amount date icon) := income in
  (* Validation *)
  if negb (truthy (trim source)) then
    [ToastError "Source is required."]
  else if amount_refused amount then
    [ToastError "Amount should be a valid number greater than 0."]
  else
    (if negb (truthy date) then [ToastError "Date is required."] else [])
    ++ Post (IncomeForm.mk source amount date icon)
       :: (if post (IncomeForm.mk source amount date icon) then
             [CloseModal; ToastSuccess "Income added successfully"; Refetch]
           else [ConsoleError]).
End IncomeHandler.

Section ExpenseHandler.
Variable post : ExpenseFormFields.t → bool.

Definition handleAddExpense (expense : ExpenseFormFields.t)
  : list (Effect ExpenseFormFields.t) :=
  let '(ExpenseFormFields.mk category amount date icon) := expense in
  if negb (truthy (trim category)) then
    [ToastError "Category is required."]
  else if amount_refused amount then
    [ToastError "Amount should be a valid number greater than 0."]
  else
    (if negb (truthy date) then [ToastError "Date is required."] else [])
    ++ Post (ExpenseFormFields.mk category amount date icon)
       :: (if post (ExpenseFormFields.mk category amount date icon) then
             [CloseModal; ToastSuccess "Expense added successfully"; Refetch]
           else [ConsoleError]).
End ExpenseHandler.
End AddHandlers.

(** [Number] on the two texts the samples type. *)
Definition sample_Number (text : string) : option Q :=
  if String.eqb text "5000" then Some (5000 # 1)
  else if String.eqb text "0" then Some 0%Q
  else None.

(** ** utils/helper.js: the data of the charts *)

Module IncomePoint.
Record t := mk {
  month : string;
  amount : Z;
  source : string;
}.
End IncomePoint.

Module ExpensePoint.
Record t := mk {
  month : string;
  amount : Z;
  category : string;
}.
End ExpensePoint.

Section Charts.
(** [moment(date).format("Do MMM")] *)
Variable format_Do_MMM : Z → string.

Definition prepareIncomeBarChartData (data : list Income.t) : list IncomePoint.t :=
  let sortedData := Array_sort (λ a b, Income.date a - Income.date b) data in
  let chartData :=
    map (λ item, IncomePoint.mk (format_Do_MMM (Income.date item)) (Income.amount item)
                   (Income.source item)) sortedData in
  chartData.

Definition prepareExpenseLineChartData (data : list Expense.t) : list ExpensePoint.t :=
  let sortedData := Array_sort (λ a b, Expense.date a - Expense.date b) data in
  let chartData :=
    map (λ item, ExpensePoint.mk (format_Do_MMM (Expense.date item)) (Expense.amount item)
                   (Expense.category item)) sortedData in
  chartData.
End Charts.

(** Oldest first: the order [sort((a, b) => key a - key b)] leaves. *)
Definition oldest_first {A} (key : A → Z) : list A → Prop :=
  StronglySorted (λ a b, key a ≤ key b).

(** ** utils/helper.js: getInitials *)

(** [String.prototype.split(sep)] with a separator of one character *)
Fixpoint String_split (sep : ascii) (s : string) : list string :=
  match s with
  | EmptyString => [""]
  | String c s' =>
      if Ascii.eqb c sep then "" :: String_split sep s'
      else match String_split sep s' with
           | w :: ws => String c w :: ws
           | [] => [String c ""]
           end
  end.

(** [String.prototype.toUpperCase] on ASCII text: a to z become A to Z.
    Code units from 128 on are outside what this definition describes
    (JavaScript maps some of them to other or to several code units); the
    statements about it keep to code units below 128. *)
Definition upper_ascii (c : ascii) : ascii :=
  let n := nat_of_ascii c in
  if ((97 <=? n) && (n <=? 122))%nat then ascii_of_nat (n - 32) else c.

Fixpoint toUpperCase (s : string) : string :=
  match s with
  | EmptyString => ""
  | String c s' => String (upper_ascii c) (toUpperCase s')
  end.

(** [initials += word[0]]: the first character, or the text
    "undefined" when the word is empty. *)
Definition append_first (initials word : string) : string :=
  match word with
  | EmptyString => initials +:+ "undefined"
  | String c _ => initials +:+ String c ""
  end.

Definition getInitials (name : string) : string :=
  if negb (truthy name) then ""
  else
    let words := String_split " " name in
    (* for (let i = 0; i < Math.min(words.length, 2); i++) *)
    let initials := foldl append_first "" (take (length words `min` 2) words) in
    toUpperCase initials.

(** No character of [s] is [sep]. *)
Fixpoint free_of (sep : ascii) (s : string) : bool :=
  match s with
  | EmptyString => true
  | String c s' => negb (Ascii.eqb c sep) && free_of sep s'
  end.

(** A word: no space in it. *)
Definition no_space (s : string) : bool := free_of " " s.

(** ** utils/helper.js: addThousandsSeparator *)

(** [\d] *)
Definition is_digit (c : ascii) : bool :=
  let n := nat_of_ascii c in ((48 <=? n) && (n <=? 57))%nat.

(** [\w] *)
Definition is_word (c : ascii) : bool :=
  let n := nat_of_ascii c in
  (is_digit c || ((65 <=? n) && (n <=? 90)) || ((97 <=? n) && (n <=? 122))
   || (n =? 95))%nat.

Definition first_char (s : string) : option ascii :=
  match s with
  | EmptyString => None
  | String c _ => Some c
  end.

(** [(?=(\d{3})+(?!\d))] at the start of [s]: three digits, and then
    either no digit or three digits again, and so on. *)
Fixpoint threes_follow (s : string) : bool :=
  match s with
  | String a (String b (String c rest)) =>
      is_digit a && is_digit b && is_digit c
      && (negb (from_option is_digit false (first_char rest)) || threes_follow rest)
  | _ => false
  end.

(** [\B] between the character [prev] and the character [next], where
    [None] is the start or the end of the text. *)
Definition not_word_boundary (prev next : option ascii) : bool :=
  Bool.eqb (from_option is_word false prev) (from_option is_word false next).

(** [text.replace(/\B(?=(\d{3})+(?!\d))/g, ",")]. The pattern matches
    the empty text only, so a comma goes in at every position where it
    matches; [prev] is the character in front of the position and [s]
    the text from it on. *)
Fixpoint replace_from (prev : option ascii) (s : string) : string :=
  let rest :=
    match s with
    | EmptyString => ""
    | String c s' => String c (replace_from (Some c) s')
    end in
  if not_word_boundary prev (first_char s) && threes_follow s
  then String "," rest else rest.

Definition insert_commas (s : string) : string := replace_from None s.

(** The argument is [None] for null or undefined and a number otherwise;
    [isNaN] and [Number.prototype.toString] are those of the numbers. *)
Section Separator.
Context {Num : Type} (isNaN : Num → bool) (Number_toString : Num → string).

Definition addThousandsSeparator (num : option Num) : string :=
  match num with
  | None => ""
  | Some n =>
      if isNaN n then ""
      else
        (* const [integerPart, fractionalPart] = num.toString().split(".") *)
        match String_split "." (Number_toString n) with
        | [] => ""
        | integerPart :: rest =>
            let fractionalPart := head rest in
            let formattedInteger := insert_commas integerPart in
            if truthy fractionalPart
            then formattedInteger +:+ "." +:+ default "" fractionalPart
            else formattedInteger
        end
  end.
End Separator.

(** [Number.prototype.toString] of a number with an integer value up to
    [Number.MAX_SAFE_INTEGER]: its decimal digits, after a minus sign
    when it is negative. *)
Definition Integer_toString (n : Z) : string :=
  DecimalString.NilZero.string_of_int (Z.to_int n).

Fixpoint all_digits (s : string) : bool :=
  match s with
  | EmptyString => true
  | String c s' => is_digit c && all_digits s'
  end.

(** The text of a number in fixed notation: a sign, the digits of the
    whole part and, unless there are none, a point and the digits of the
    fraction. *)
Definition fixed_text (negative : bool) (whole frac : string) : string :=
  (if negative then "-" else "") +:+ whole
  +:+ (if String.eqb frac "" then "" else "." +:+ frac).

(** [grouped s shown]: [shown] is [s] with a comma in front of every
    group of three characters counted from the right, the first group
    having one to three characters. *)
Inductive grouped : string → string → Prop :=
  | grouped_first (s : string) :
      (1 ≤ String.length s ≤ 3)%nat → grouped s s
  | grouped_next (s shown : string) (a b c : ascii) :
      grouped s shown →
      grouped (s +:+ String a (String b (String c "")))
              (shown +:+ "," +:+ String a (String b (String c ""))).

(** ** utils/helper.js: validateEmail *)

(** The patterns the regular expression is made of: one character of a
    class, one or more characters of a class, and one pattern after
    another. *)
Inductive Pattern :=
  | One (class : ascii → bool)
  | OneOrMore (class : ascii → bool)
  | Then (first second : Pattern).

(** The backtracking matcher: [matcher p s k] tries [p] at the start of
    [s] and hands what is left of [s] to the continuation [k]. The greedy
    [+] takes as many characters as it can, and gives them back one at a
    time while the continuation fails. *)
Fixpoint repeat_class (class : ascii → bool) (k : string → bool) (s : string) : bool :=
  match s with
  | EmptyString => false
  | String c s' => class c && (repeat_class class k s' || k s')
  end.

Fixpoint matcher (p : Pattern) (s : string) (k : string → bool) : bool :=
  match p with
  | One class =>
      match s with
      | EmptyString => false
      | String c s' => class c && k s'
      end
  | OneOrMore class => repeat_class class k s
  | Then p1 p2 => matcher p1 s (λ rest, matcher p2 rest k)
  end.

(** [regex.test(text)] for a pattern written between [^] and [$] *)
Definition test_anchored (p : Pattern) (text : string) : bool :=
  matcher p text (λ rest, String.eqb rest "").

(** [[^\s@]] *)
Definition not_space_or_at (c : ascii) : bool :=
  negb (is_white_space c || Ascii.eqb c "@").

(** [/^[^\s@]+@[^\s@]+\.[^\s@]+$/] *)
Definition email_regex : Pattern :=
  Then (OneOrMore not_space_or_at)
    (Then (One (Ascii.eqb "@"))
       (Then (OneOrMore not_space_or_at)
          (Then (One (Ascii.eqb ".")) (OneOrMore not_space_or_at)))).

Definition validateEmail (email : string) : bool := test_anchored email_regex email.

(** Every character of [s] is in the class. *)
Fixpoint all_in (class : ascii → bool) (s : string) : bool :=
  match s with
  | EmptyString => true
  | String c s' => class c && all_in class s'
  end.

(** How often [c] occurs in [s]. *)
Fixpoint occurrences (c : ascii) (s : string) : nat :=
  match s with
  | EmptyString => 0
  | String c' s' => (if Ascii.eqb c' c then 1 else 0) + occurrences c s'
  end.

(** ** pages/Auth/Login.jsx: handleLogin *)

(** What the handler does, in order, after [e.preventDefault()]. *)
Inductive LoginEffect :=
  | SetError (message : string)
  | PostLogin (body : LoginBody.t)
  | StoreToken (token : string)
  | UpdateUser (user : User.t)
  | Navigate (path : string).

Section LoginForm.
(** The server behind the POST: its response, if one came. *)
Variable post : LoginBody.t → option (Response Session.t).

Definition handleLogin (email password : string) : list LoginEffect :=
  if negb (validateEmail email) then
    [SetError "Please enter a valid email address."]
  else if negb (truthy password) then
    [SetError "Please enter the password"]
  else
    let body := LoginBody.mk email password in
    SetError "" :: PostLogin body ::
      match resolves (post body) with
      | Some (Json data) =>
          (* const { token, user } = response.data; if (token) { ... } *)
          if truthy (Session.token data) then
            [StoreToken (Session.token data); UpdateUser (Session.user data);
             Navigate "/dashboard"]
          else []
      | Some (Message _) => []
      | None =>
          [SetError (js_or (response_message (post body))
                       "Something went wrong. Please try again.")]
      end.
End LoginForm.

(** The login route of the backend as the server of the form. *)
Definition login_route (bcrypt_compare : string → string → bool)
    (generateToken : ObjectId → Z → string) (a : Accounts) (body : LoginBody.t)
  : option (Response Session.t) :=
  Some (fst (loginUser bcrypt_compare generateToken body a)).

(** * Properties *)

(** ** Arrays: the stable sort *)

Section ArrayFacts.
Context {A : Type}.
Implicit Types (cmp : A → A → Z) (key : A → Z) (l : list A).

Lemma sort_insert_Permutation cmp x l : sort_insert cmp x l ≡ₚ x :: l.
Proof.
  induction l as [|y l IH]; simpl; [done|].
  destruct (cmp x y <=? 0); [done|].
  rewrite IH. apply Permutation_swap.
Qed.

Lemma Array_sort_Permutation cmp l : Array_sort cmp l ≡ₚ l.
Proof.
  induction l as [|x l IH]; simpl; [done|].
  fold (Array_sort cmp l). by rewrite sort_insert_Permutation, IH.
Qed.

Lemma length_Array_sort cmp l : length (Array_sort cmp l) = length l.
Proof. by rewrite Array_sort_Permutation. Qed.

Lemma list_elem_of_Array_sort cmp l x : x ∈ Array_sort cmp l ↔ x ∈ l.
Proof. by rewrite Array_sort_Permutation. Qed.

Lemma sort_insert_newest_first key x l :
  newest_first key l → newest_first key (sort_insert (λ a b, key b - key a) x l).
Proof.
  unfold newest_first. induction 1 as [|y l Hl IH Hy]; simpl.
  - repeat constructor.
  - destruct (Z.leb_spec (key y - key x) 0) as [Hle|Hgt].
    + constructor; [by constructor|].
      constructor; [lia|].
      eapply Forall_impl; [exact Hy|]. simpl. intros; lia.
    + constructor; [exact IH|].
      rewrite sort_insert_Permutation. constructor; [lia | exact Hy].
Qed.

Lemma Array_sort_newest_first key l :
  newest_first key (Array_sort (λ a b, key b - key a) l).
Proof.
  induction l as [|x l IH]; simpl; [constructor|].
  by apply sort_insert_newest_first.
Qed.

(** Stability: the elements of one key keep their relative order. *)
Lemma sort_insert_filter_key key (k : Z) x l :
  filter (λ a, key a = k) (sort_insert (λ a b, key b - key a) x l)
  = filter (λ a, key a = k) (x :: l).
Proof.
  induction l as [|y l IH]; simpl; [done|].
  destruct (Z.leb_spec (key y - key x) 0) as [Hle|Hgt]; [done|].
  rewrite (filter_cons _ y), IH, !filter_cons.
  repeat case_decide; try done; lia.
Qed.

Lemma Array_sort_filter_key key (k : Z) l :
  filter (λ a, key a = k) (Array_sort (λ a b, key b - key a) l)
  = filter (λ a, key a = k) l.
Proof.
  induction l as [|x l IH]; simpl; [done|].
  fold (Array_sort (λ a b, key b - key a) l).
  by rewrite sort_insert_filter_key, !filter_cons, IH.
Qed.

Lemma foldl_sum_shift (f : A → Z) (z : Z) l :
  foldl (λ s x, s + f x) z l = z + foldl (λ s x, s + f x) 0 l.
Proof.
  revert z. induction l as [|x l IH]; intros z; simpl; [lia|].
  rewrite (IH (z + f x)), (IH (0 + f x)). lia.
Qed.
End ArrayFacts.

(** ** The query layer *)

Section QueryFacts.
Context `{Model D}.
Implicit Types (l : list D) (uid : ObjectId).

Lemma by_user_since_by_user uid cutoff l :
  by_user_since uid cutoff l = filter (λ d, cutoff ≤ date d) (by_user uid l).
Proof.
  unfold by_user_since, by_user. rewrite list_filter_filter.
  apply list_filter_iff. intros d. tauto.
Qed.

Lemma length_sort_date_desc l : length (sort_date_desc l) = length l.
Proof. apply length_Array_sort. Qed.

Lemma length_recent uid l :
  length (limit 5 (sort_date_desc (by_user uid l)))
  = (5 `min` length (by_user uid l))%nat.
Proof. unfold limit. by rewrite length_take, length_sort_date_desc. Qed.

(** [x?.total || 0] of the aggregate is the plain sum, 0 for nothing. *)
Lemma js_or_group_total l :
  js_or (head (group_total l)) 0 = foldl (λ s x, s + amount x) 0 l.
Proof.
  destruct l as [|d l]; [done|].
  unfold group_total, js_or, truthy, number_truthy. simpl head.
  generalize (foldl (λ s x, s + amount x) 0 (d :: l)). intros t. simpl.
  by destruct (Z.eqb_spec t 0) as [->|].
Qed.

Lemma remove_by_id_absent id l :
  (∀ d, d ∈ l → _id d ≠ id) → remove_by_id id l = l.
Proof.
  induction l as [|d l IH]; intros Hl; simpl; [done|].
  case_decide as Hd.
  - exfalso. by apply (Hl d); [left|].
  - f_equal. apply IH. intros d' Hd'. apply Hl. by right.
Qed.

Lemma list_elem_of_remove_by_id id l d :
  NoDup (_id <$> l) → d ∈ remove_by_id id l ↔ d ∈ l ∧ _id d ≠ id.
Proof.
  induction l as [|x l IH]; simpl; intros Hnd.
  - rewrite elem_of_nil. tauto.
  - apply NoDup_cons in Hnd as [Hx Hnd]. case_decide as Hd.
    + rewrite elem_of_cons. split.
      * intros Hin. split; [by right|]. intros Heq. apply Hx.
        rewrite Hd, <- Heq. by apply list_elem_of_fmap_2.
      * intros [[->|Hin] Hne]; done.
    + rewrite !elem_of_cons, IH by done. split.
      * intros [->|[Hin Hne]]; auto.
      * intros [[->|Hin] Hne]; auto.
Qed.
End QueryFacts.

(** ** The dashboard, run *)

(** The controller reads, never writes, and always answers 200. *)
Lemma getDashboardData_run (req : Request unit) (w : World) :
  let uid := user_id req in
  let income60 := sort_date_desc (by_user_since uid (clock w - days 60) (incomes w)) in
  let expense30 := sort_date_desc (by_user_since uid (clock w - days 30) (expenses w)) in
  getDashboardData req w =
  (Returned (res_json 200
     {| totalBalance :=
          js_or (head (group_total (by_user uid (incomes w)))) 0
          - js_or (head (group_total (by_user uid (expenses w)))) 0;
        totalIncome := js_or (head (group_total (by_user uid (incomes w)))) 0;
        totalExpenses := js_or (head (group_total (by_user uid (expenses w)))) 0;
        last30DaysExpenses :=
          {| total := foldl (λ s x, s + amount x) 0 expense30;
             transactions := expense30 |};
        last60DaysIncome :=
          {| total := foldl (λ s x, s + amount x) 0 income60;
             transactions := income60 |};
        recentTransactions :=
          Array_sort (λ a b, txn_date b - txn_date a)
            (map IncomeTxn (limit 5 (sort_date_desc (by_user uid (incomes w))))
             ++ map ExpenseTxn (limit 5 (sort_date_desc (by_user uid (expenses w))))) |}),
   w).
Proof. reflexivity. Qed.

(** The end-to-end scenario: incomes on day -1 and -20, expenses on day
    -2, -35 and, on the boundary, day -30. *)
Example dashboard_of_alice_books :
  (summary_of <$> match fst (getDashboardData (get_as alice) alice_books) with
                  | Returned r => Some r
                  | Thrown _ => None
                  end)
  = Some (Some
      {| totalBalance := 4960;
         totalIncome := 6500;
         totalExpenses := 1540;
         last30DaysExpenses :=
           {| total := 1240;
              transactions := [expense_on 3 alice "Rent" 1200 98;
                               expense_on 5 alice "Gym" 40 70] |};
         last60DaysIncome :=
           {| total := 6500;
              transactions := [income_on 1 alice "Salary" 5000 99;
                               income_on 2 alice "Freelance" 1500 80] |};
         recentTransactions :=
           [IncomeTxn (income_on 1 alice "Salary" 5000 99);
            ExpenseTxn (expense_on 3 alice "Rent" 1200 98);
            IncomeTxn (income_on 2 alice "Freelance" 1500 80);
            ExpenseTxn (expense_on 5 alice "Gym" 40 70);
            ExpenseTxn (expense_on 4 alice "Food" 300 65)] |}).
Proof. reflexivity. Qed.

(** On a shared date the income is listed before the expense. *)
Example recent_of_same_day_books :
  (recentTransactions <$> (match fst (getDashboardData (get_as alice) same_day_books) with
                           | Returned r => summary_of r
                           | Thrown _ => None
                           end))
  = Some [ExpenseTxn (expense_on 4 alice "Food" 300 95);
          IncomeTxn (income_on 2 alice "Bonus" 700 90);
          ExpenseTxn (expense_on 3 alice "Rent" 1200 90);
          IncomeTxn (income_on 1 alice "Salary" 5000 80)].
Proof. reflexivity. Qed.

(** ** Totals *)


(** Both totals are the plain sums of the owner's amounts. *)
Lemma dashboard_totals_are_sums (req : Request unit) (w : World) :
  ∃ s, getDashboardData req w = (Returned (res_json 200 s), w)
       ∧ totalIncome s = foldl (λ t x, t + amount x) 0 (by_user (user_id req) (incomes w))
       ∧ totalExpenses s = foldl (λ t x, t + amount x) 0 (by_user (user_id req) (expenses w)).
Proof.
  eexists. split; [apply getDashboardData_run|].
  split; [apply (js_or_group_total (D:=Income.t)) | apply (js_or_group_total (D:=Expense.t))].
Qed.

Lemma count_of_0 `{Model D} (uid : ObjectId) (w : World) :
  count_of D uid w = 0%nat → by_user uid (collection w) = [].
Proof. unfold count_of. by destruct (by_user uid (collection w)). Qed.

Lemma by_user_since_nil `{Model D} (uid : ObjectId) (cutoff : Z) (l : list D) :
  by_user uid l = [] → by_user_since uid cutoff l = [].
Proof. intros Hl. by rewrite by_user_since_by_user, Hl. Qed.

(** C4: an owner with no record of a kind gets the total 0 for that
    kind, an empty window and no entry of that kind in the recent
    activity, and the summary is computed all the same (status 200). *)
Theorem C4_no_records_give_zero (req : Request unit) (w : World) :
  ∃ s, getDashboardData req w = (Returned (res_json 200 s), w)
       ∧ (count_of Income.t (user_id req) w = 0%nat →
            fst (aggregate_total (D:=Income.t) (user_id req) w) = Returned []
            ∧ totalIncome s = 0
            ∧ last60DaysIncome s = {| total := 0; transactions := [] |}
            ∧ Forall (λ t, type t = "expense") (recentTransactions s))
       ∧ (count_of Expense.t (user_id req) w = 0%nat →
            fst (aggregate_total (D:=Expense.t) (user_id req) w) = Returned []
            ∧ totalExpenses s = 0
            ∧ last30DaysExpenses s = {| total := 0; transactions := [] |}
            ∧ Forall (λ t, type t = "income") (recentTransactions s)).
Proof.
  eexists. split; [apply getDashboardData_run|]. simpl.
  split; intros Hc; apply count_of_0 in Hc; simpl in Hc.
  - unfold aggregate_total. simpl. rewrite Hc, (by_user_since_nil _ _ _ Hc). simpl.
    repeat split; try done.
    rewrite Forall_forall. intros t. rewrite list_elem_of_Array_sort.
    rewrite list_elem_of_fmap. by intros (e & -> & _).
  - unfold aggregate_total. simpl. rewrite Hc, (by_user_since_nil _ _ _ Hc). simpl.
    repeat split; try done.
    rewrite Forall_forall. intros t. rewrite list_elem_of_Array_sort.
    rewrite app_nil_r, list_elem_of_fmap. by intros (e & -> & _).
Qed.

Lemma C4_no_records_give_zero_witness :
  ∃ s, getDashboardData (get_as alice) empty_world = (Returned (res_json 200 s), empty_world)
       ∧ totalIncome s = 0 ∧ totalExpenses s = 0
       ∧ last60DaysIncome s = {| total := 0; transactions := [] |}
       ∧ last30DaysExpenses s = {| total := 0; transactions := [] |}.
Proof.
  destruct (C4_no_records_give_zero (get_as alice) empty_world) as (s & Hrun & Hi & He).
  assert (count_of Income.t alice empty_world = 0%nat) as Hci by reflexivity.
  assert (count_of Expense.t alice empty_world = 0%nat) as Hce by reflexivity.
  destruct (Hi Hci) as (_ & Hti & Hwi & _).
  destruct (He Hce) as (_ & Hte & Hwe & _).
  exists s. repeat split; assumption.
Defined.

(** ** Recent activity *)

(** C1, as the code has it: each kind is fetched with [limit(5)], so the
    recent activity holds [min(5, incomeCount) + min(5, expenseCount)]
    entries, which never exceeds [min(10, incomeCount + expenseCount)]. *)
Theorem C1_recent_length (req : Request unit) (w : World) :
  ∃ s, getDashboardData req w = (Returned (res_json 200 s), w)
       ∧ length (recentTransactions s)
         = (5 `min` count_of Income.t (user_id req) w
            + 5 `min` count_of Expense.t (user_id req) w)%nat
       ∧ (length (recentTransactions s)
          ≤ 10 `min` (count_of Income.t (user_id req) w
                      + count_of Expense.t (user_id req) w))%nat.
Proof.
  eexists. split; [apply getDashboardData_run|]. cbn [recentTransactions].
  rewrite length_Array_sort, length_app, !length_map.
  rewrite (length_recent (D:=Income.t)), (length_recent (D:=Expense.t)).
  unfold count_of. cbn [collection IncomeModel ExpenseModel]. split; [done | lia].
Qed.

(** C1, as stated, fails: six incomes and no expense give five entries,
    not [min(10, 6 + 0) = 6]. *)
Lemma C1_recent_length_counterexample :
  ∃ s, getDashboardData (get_as alice) six_incomes = (Returned (res_json 200 s), six_incomes)
       ∧ count_of Income.t alice six_incomes = 6%nat
       ∧ count_of Expense.t alice six_incomes = 0%nat
       ∧ length (recentTransactions s) = 5%nat
       ∧ length (recentTransactions s)
         ≠ (10 `min` (count_of Income.t alice six_incomes
                      + count_of Expense.t alice six_incomes))%nat.
Proof.
  eexists. split; [apply getDashboardData_run|].
  repeat split; try reflexivity. by vm_compute.
Qed.

(** In incomes followed by expenses no expense stands before an income. *)
Lemma no_expense_before_income (A B X Y T : list Transaction) e inc :
  Forall is_income A → Forall is_expense B →
  A ++ B = X ++ ExpenseTxn e :: Y ++ IncomeTxn inc :: T → False.
Proof.
  intros HA HB. revert X. induction HA as [|a A Ha HA IH]; intros X Heq.
  - simpl in Heq. rewrite Heq in HB.
    apply Forall_app in HB as [_ HB]. apply Forall_cons in HB as [_ HB].
    apply Forall_app in HB as [_ HB]. apply Forall_cons in HB as [HB _].
    discriminate HB.
  - destruct X as [|x X]; simpl in Heq; injection Heq as -> Heq.
    + discriminate Ha.
    + by apply (IH X).
Qed.

Lemma filter_fmap_IncomeTxn (P : Transaction → Prop) `{∀ t, Decision (P t)} l :
  Forall is_income (filter P (IncomeTxn <$> l)).
Proof.
  apply Forall_forall. intros t [_ Ht]%list_elem_of_filter.
  by apply list_elem_of_fmap in Ht as (i & -> & _).
Qed.

Lemma filter_fmap_ExpenseTxn (P : Transaction → Prop) `{∀ t, Decision (P t)} l :
  Forall is_expense (filter P (ExpenseTxn <$> l)).
Proof.
  apply Forall_forall. intros t [_ Ht]%list_elem_of_filter.
  by apply list_elem_of_fmap in Ht as (i & -> & _).
Qed.

(** The merge step of the dashboard on any two fetched lists. *)
Lemma merged_ties_keep_income_first (ri : list Income.t) (re : list Expense.t)
    (i j : nat) e inc :
  let recent := Array_sort (λ a b, txn_date b - txn_date a)
                  (map IncomeTxn ri ++ map ExpenseTxn re) in
  recent !! i = Some (ExpenseTxn e) → recent !! j = Some (IncomeTxn inc) →
  date e = date inc → (j < i)%nat.
Proof.
  intros recent Hi Hj Hd.
  destruct (decide (j < i)%nat) as [|Hge]; [done|exfalso].
  assert (i ≠ j) as Hne by (intros ->; congruence).
  assert (i < j)%nat as Hlt by lia.
  pose proof (take_drop_middle _ _ _ Hi) as Hsplit.
  assert (drop (S i) recent !! (j - S i)%nat = Some (IncomeTxn inc)) as Hj'.
  { rewrite lookup_drop. by replace (S i + (j - S i))%nat with j by lia. }
  pose proof (take_drop_middle _ _ _ Hj') as Hsplit'.
  rewrite <- Hsplit' in Hsplit.
  pose proof (Array_sort_filter_key txn_date (date inc)
                (map IncomeTxn ri ++ map ExpenseTxn re)) as Hst.
  fold recent in Hst. rewrite <- Hsplit in Hst.
  rewrite !filter_app, filter_cons_True in Hst by exact Hd.
  rewrite filter_app, filter_cons_True in Hst by done.
  symmetry in Hst.
  eapply no_expense_before_income; [| |exact Hst].
  - apply filter_fmap_IncomeTxn.
  - apply filter_fmap_ExpenseTxn.
Qed.

(** C2: the recent activity is sorted newest first, and of an expense
    and an income with the same date the income comes first. *)
Theorem C2_recent_sorted_income_first_on_ties (req : Request unit) (w : World) :
  ∃ s, getDashboardData req w = (Returned (res_json 200 s), w)
       ∧ newest_first txn_date (recentTransactions s)
       ∧ ∀ (i j : nat) e inc,
           recentTransactions s !! i = Some (ExpenseTxn e) →
           recentTransactions s !! j = Some (IncomeTxn inc) →
           date e = date inc → (j < i)%nat.
Proof.
  eexists. split; [apply getDashboardData_run|]. simpl. split.
  - apply Array_sort_newest_first.
  - apply merged_ties_keep_income_first.
Qed.

(** ** The 30-day window *)

(** C5: the window of the last 30 days holds exactly the owner's
    expenses dated [now - 30 days] (2 592 000 000 ms) or later: a record
    dated on the boundary is in, one dated a millisecond earlier is out. *)
Theorem C5_last30_window (req : Request unit) (w : World) :
  ∃ s, getDashboardData req w = (Returned (res_json 200 s), w)
       ∧ transactions (last30DaysExpenses s)
         ≡ₚ filter (λ e, userId e = user_id req ∧ clock w - 2592000000 ≤ date e)
              (expenses w)
       ∧ (∀ e, e ∈ transactions (last30DaysExpenses s)
               ↔ e ∈ expenses w ∧ userId e = user_id req
                 ∧ clock w - 2592000000 ≤ date e)
       ∧ (∀ e, e ∈ expenses w → userId e = user_id req →
               date e = clock w - 2592000000 →
               e ∈ transactions (last30DaysExpenses s))
       ∧ (∀ e, date e ≤ clock w - 2592000000 - 1 →
               e ∉ transactions (last30DaysExpenses s)).
Proof.
  eexists. split; [apply getDashboardData_run|].
  cbn [last30DaysExpenses transactions].
  assert (∀ e : Expense.t,
            e ∈ sort_date_desc (by_user_since (user_id req) (clock w - days 30) (expenses w))
            ↔ e ∈ expenses w ∧ userId e = user_id req ∧ clock w - 2592000000 ≤ date e)
    as Hin.
  { intros e. unfold sort_date_desc, by_user_since.
    rewrite list_elem_of_Array_sort, list_elem_of_filter.
    change (days 30) with 2592000000. tauto. }
  split; [|split; [exact Hin|split]].
  - unfold sort_date_desc, by_user_since. by rewrite Array_sort_Permutation.
  - intros e He Hu Hd. apply Hin. repeat split; [done..|lia].
  - intros e Hd [_ [_ Hge]]%Hin. lia.
Qed.

(** ** Reading twice *)

(** C6: the dashboard writes nothing, so a second call for the same
    owner at the same clock reading returns the very same response. *)
Theorem C6_two_runs_agree (req : Request unit) (w : World) :
  ∃ r, (await first := getDashboardData req in
        await second := getDashboardData req in
        ret (first, second)) w
       = (Returned (r, r), w).
Proof.
  eexists. unfold bind. rewrite !getDashboardData_run. reflexivity.
Qed.

(** ** Reads see one owner only *)

(** Another user's document, wherever it is inserted or removed, does
    not show in what the owner's filter selects. *)
Lemma by_user_other `{Model D} (uid : ObjectId) (d : D) (l1 l2 : list D) :
  userId d ≠ uid → by_user uid (l1 ++ d :: l2) = by_user uid (l1 ++ l2).
Proof.
  intros Hne. unfold by_user. by rewrite !filter_app, filter_cons_False.
Qed.

(** C7: what the summary, the two lists and the two sums return for an
    owner is fixed by the clock and by that owner's own documents;
    whatever other users hold makes no difference. *)
Theorem C7_reads_scoped_to_owner (req : Request unit) (w1 w2 : World) :
  clock w1 = clock w2 →
  by_user (user_id req) (incomes w1) = by_user (user_id req) (incomes w2) →
  by_user (user_id req) (expenses w1) = by_user (user_id req) (expenses w2) →
  fst (getDashboardData req w1) = fst (getDashboardData req w2)
  ∧ fst (getAllIncome req w1) = fst (getAllIncome req w2)
  ∧ fst (getAllExpense req w1) = fst (getAllExpense req w2)
  ∧ fst (aggregate_total (D:=Income.t) (user_id req) w1)
    = fst (aggregate_total (D:=Income.t) (user_id req) w2)
  ∧ fst (aggregate_total (D:=Expense.t) (user_id req) w1)
    = fst (aggregate_total (D:=Expense.t) (user_id req) w2).
Proof.
  intros Hc Hi He. rewrite !getDashboardData_run. cbn [fst].
  rewrite !(by_user_since_by_user (D:=Income.t)), !(by_user_since_by_user (D:=Expense.t)).
  unfold getAllIncome, getAllExpense, aggregate_total, try_, bind, exec, ret.
  cbn [fst collection IncomeModel ExpenseModel].
  by rewrite Hc, Hi, He.
Qed.

Lemma C7_reads_scoped_to_owner_witness :
  fst (getDashboardData (get_as alice) alice_books)
  = fst (getDashboardData (get_as alice) alice_and_bob_books)
  ∧ fst (getAllIncome (get_as alice) alice_books)
    = fst (getAllIncome (get_as alice) alice_and_bob_books)
  ∧ fst (getAllExpense (get_as alice) alice_books)
    = fst (getAllExpense (get_as alice) alice_and_bob_books).
Proof.
  destruct (C7_reads_scoped_to_owner (get_as alice) alice_books alice_and_bob_books)
    as (Hd & Hi & He & _); [reflexivity..|].
  repeat split; assumption.
Defined.

(** ** Deleting *)

(** A delete whose path ends in the text of an ObjectId. *)
Lemma deleteIncome_run (req : Request unit) (id : ObjectId) (w : World) :
  params_id req = IsObjectId id →
  deleteIncome req w
  = (Returned (res_message 200 "Income deleted successfully"),
     set_collection (remove_by_id id (incomes w)) w).
Proof. intros Hid. unfold deleteIncome, try_, bind. by rewrite Hid. Qed.

Lemma deleteExpense_run (req : Request unit) (id : ObjectId) (w : World) :
  params_id req = IsObjectId id →
  deleteExpense req w
  = (Returned (res_message 200 "Expense deleted successfully"),
     set_collection (remove_by_id id (expenses w)) w).
Proof. intros Hid. unfold deleteExpense, try_, bind. by rewrite Hid. Qed.

(** A delete whose path ends in any other text. *)
Lemma delete_not_an_id (req : Request unit) (segment : string) (w : World) :
  params_id req = NotObjectId segment →
  deleteIncome req w = (Thrown "CastError", w)
  ∧ deleteExpense req w = (Thrown "CastError", w).
Proof. intros Hid. unfold deleteIncome, deleteExpense, try_, bind. by rewrite Hid. Qed.

(** C8, as the code has it: for an id that is an ObjectId, whoever
    calls, the document with that id is gone after the delete and every
    other document stays; when no document has that id nothing changes,
    and the answer is the same success message. For an id that is no
    ObjectId the query throws a cast error: no success message is sent
    and nothing is removed. *)
Theorem C8_delete_ignores_owner (req : Request unit) (w : World) :
  NoDup (_id <$> incomes w) → NoDup (_id <$> expenses w) →
  (∀ id, params_id req = IsObjectId id →
     (∃ w', deleteIncome req w
            = (Returned (res_message 200 "Income deleted successfully"), w')
            ∧ expenses w' = expenses w
            ∧ (∀ d, d ∈ incomes w' ↔ d ∈ incomes w ∧ _id d ≠ id)
            ∧ ((∀ d, d ∈ incomes w → _id d ≠ id) → w' = w))
     ∧ (∃ w', deleteExpense req w
              = (Returned (res_message 200 "Expense deleted successfully"), w')
              ∧ incomes w' = incomes w
              ∧ (∀ d, d ∈ expenses w' ↔ d ∈ expenses w ∧ _id d ≠ id)
              ∧ ((∀ d, d ∈ expenses w → _id d ≠ id) → w' = w)))
  ∧ (∀ segment, params_id req = NotObjectId segment →
       deleteIncome req w = (Thrown "CastError", w)
       ∧ deleteExpense req w = (Thrown "CastError", w)).
Proof.
  intros Hi He. split; [|intros segment; apply delete_not_an_id].
  intros id Hid. split; eexists.
  - split; [by apply deleteIncome_run|]. split; [done|]. split.
    + intros d. by apply (list_elem_of_remove_by_id (D:=Income.t)).
    + intros Habs. cbn. rewrite (remove_by_id_absent (D:=Income.t)) by done.
      by destruct w.
  - split; [by apply deleteExpense_run|]. split; [done|]. split.
    + intros d. by apply (list_elem_of_remove_by_id (D:=Expense.t)).
    + intros Habs. cbn. rewrite (remove_by_id_absent (D:=Expense.t)) by done.
      by destruct w.
Qed.

(** Bob deletes Alice's salary and her rent. *)
Lemma C8_delete_ignores_owner_witness :
  (∃ w', deleteIncome (delete_as bob 1) alice_books
         = (Returned (res_message 200 "Income deleted successfully"), w')
         ∧ (income_on 1 alice "Salary" 5000 99 ∉ incomes w')
         ∧ income_on 2 alice "Freelance" 1500 80 ∈ incomes w')
  ∧ (∃ w', deleteExpense (delete_as bob 3) alice_books
           = (Returned (res_message 200 "Expense deleted successfully"), w')
           ∧ expense_on 3 alice "Rent" 1200 98 ∉ expenses w').
Proof.
  destruct (C8_delete_ignores_owner (delete_as bob 1) alice_books) as [Hone _];
    [apply (bool_decide_unpack _); by vm_compute..|].
  destruct (Hone 1%N eq_refl) as [(wi & Hri & _ & Hii & _) _].
  destruct (C8_delete_ignores_owner (delete_as bob 3) alice_books) as [Hthree _];
    [apply (bool_decide_unpack _); by vm_compute..|].
  destruct (Hthree 3%N eq_refl) as [_ (we & Hre & _ & Hie & _)].
  split.
  - exists wi. split; [exact Hri|]. split.
    + rewrite Hii. intros [_ Hne]. by apply Hne.
    + apply Hii. split; [|done]. apply list_elem_of_In. simpl. auto.
  - exists we. split; [exact Hre|].
    rewrite Hie. intros [_ Hne]. by apply Hne.
Defined.

(** C8, as stated, fails: the path /income/abc names no record, and
    the delete is not a silent success: the cast of the id throws, and
    the success message is never sent. *)
Lemma C8_malformed_id_counterexample :
  (∀ d, d ∈ incomes alice_books →
        IsObjectId (_id d) ≠ params_id (delete_segment bob "abc"))
  ∧ deleteIncome (delete_segment bob "abc") alice_books
    = (Thrown "CastError", alice_books)
  ∧ fst (deleteIncome (delete_segment bob "abc") alice_books)
    ≠ Returned (res_message 200 "Income deleted successfully").
Proof. repeat split; done. Qed.

(** ** Creating *)

(** Take the request apart and decide the guard of a create
    controller with the hypothesis on top of the goal. *)
Ltac decide_guard :=
  let Hg := fresh "Hg" in
  intros [uid pid [icon label amount date]]; cbn; intros Hg;
  unfold addIncome, addExpense, try_, try_catch; cbn [body user_id];
  rewrite <- !negb_andb, Hg; clear Hg; cbn [negb].

(** Run what follows the guard: build the document and save it. *)
Ltac build_and_save :=
  unfold bind, new_Model, save, throw, ret; cbn.

Section CreateFacts.
Variable Date_parse : string → JSDate.
Variable castNumber : string → option Z.

(** The guard of [addIncome]: a falsy source, amount or date. *)
Lemma addIncome_guard (w : World) (req : Request IncomeBody.t) :
  truthy (IncomeBody.source (body req)) && truthy (IncomeBody.amount (body req))
    && truthy (IncomeBody.date (body req)) = false →
  addIncome Date_parse castNumber req w
  = (Returned (res_message 400 "All fields are required"), w).
Proof. revert req. decide_guard. reflexivity. Qed.

Lemma addExpense_guard (w : World) (req : Request ExpenseBody.t) :
  truthy (ExpenseBody.category (body req)) && truthy (ExpenseBody.amount (body req))
    && truthy (ExpenseBody.date (body req)) = false →
  addExpense Date_parse castNumber req w
  = (Returned (res_message 400 "All fields are required"), w).
Proof. revert req. decide_guard. reflexivity. Qed.

(** Past the guard the answer is never the missing-fields message: it
    is the stored document, or the error the save throws. *)
Lemma addIncome_past_guard (w : World) (req : Request IncomeBody.t) :
  truthy (IncomeBody.source (body req)) && truthy (IncomeBody.amount (body req))
    && truthy (IncomeBody.date (body req)) = true →
  fst (addIncome Date_parse castNumber req w)
  ≠ Returned (res_message 400 "All fields are required").
Proof.
  revert req. decide_guard. build_and_save.
  destruct label as [l|], (amount ≫= cast_amount castNumber) as [a|],
    (new_Date Date_parse date) as [d|]; cbn; try discriminate.
  destruct (truthy l); cbn; discriminate.
Qed.

Lemma addExpense_past_guard (w : World) (req : Request ExpenseBody.t) :
  truthy (ExpenseBody.category (body req)) && truthy (ExpenseBody.amount (body req))
    && truthy (ExpenseBody.date (body req)) = true →
  fst (addExpense Date_parse castNumber req w)
  ≠ Returned (res_message 400 "All fields are required").
Proof.
  revert req. decide_guard. build_and_save.
  destruct label as [l|], (amount ≫= cast_amount castNumber) as [a|],
    (new_Date Date_parse date) as [d|]; cbn; try discriminate.
  destruct (truthy l); cbn; discriminate.
Qed.

Lemma truthy_string (s : string) : s ≠ "" → truthy s = true.
Proof. intros Hs. unfold truthy, string_truthy. by destruct (String.eqb_spec s ""). Qed.

Lemma truthy_string_Some (s : string) : s ≠ "" → truthy (Some s) = true.
Proof. apply truthy_string. Qed.

Lemma truthy_number_Some (a : Z) : a ≠ 0 → truthy (Some (AmountNumber a)) = true.
Proof.
  intros Ha. unfold truthy, optional_truthy, truthy, amount_truthy, truthy, number_truthy.
  by destruct (Z.eqb_spec a 0).
Qed.

(** A complete body whose amount casts and whose date parses is stored:
    the label and the icon as sent, the amount as cast. *)
Lemma addIncome_stores_cast (uid : ObjectId) (pid : IdParam) icon (s : string)
    (amount : JsonAmount) (a : Z) (d : string) (t : Z) (w : World) :
  s ≠ "" → truthy amount = true → cast_amount castNumber amount = Some a →
  d ≠ "" → Date_parse d = Some t →
  let doc := Income.mk (nextId w) uid icon s a t (clock w) (clock w) in
  addIncome Date_parse castNumber
    {| user_id := uid; params_id := pid;
       body := IncomeBody.mk icon (Some s) (Some amount) (Some d) |} w
  = (Returned (res_json 200 doc),
     {| incomes := incomes w ++ [doc]; expenses := expenses w; clock := clock w;
        nextId := N.succ (nextId w) |}).
Proof.
  intros Hs Hamount Ha Hd Ht doc.
  unfold addIncome, try_. cbn [body user_id].
  rewrite !truthy_string_Some by done.
  change (truthy (Some amount)) with (truthy amount). rewrite Hamount. cbn [negb orb].
  build_and_save. rewrite Ha, Ht. cbn. by rewrite (truthy_string s Hs).
Qed.

Lemma addExpense_stores_cast (uid : ObjectId) (pid : IdParam) icon (s : string)
    (amount : JsonAmount) (a : Z) (d : string) (t : Z) (w : World) :
  s ≠ "" → truthy amount = true → cast_amount castNumber amount = Some a →
  d ≠ "" → Date_parse d = Some t →
  let doc := Expense.mk (nextId w) uid icon s a t (clock w) (clock w) in
  addExpense Date_parse castNumber
    {| user_id := uid; params_id := pid;
       body := ExpenseBody.mk icon (Some s) (Some amount) (Some d) |} w
  = (Returned (res_json 200 doc),
     {| incomes := incomes w; expenses := expenses w ++ [doc]; clock := clock w;
        nextId := N.succ (nextId w) |}).
Proof.
  intros Hs Hamount Ha Hd Ht doc.
  unfold addExpense, try_catch. cbn [body user_id].
  rewrite !truthy_string_Some by done.
  change (truthy (Some amount)) with (truthy amount). rewrite Hamount. cbn [negb orb].
  build_and_save. rewrite Ha, Ht. cbn. by rewrite (truthy_string s Hs).
Qed.

(** A complete body with a number and a date that parses is stored as
    sent. *)
Lemma addIncome_stores (uid : ObjectId) (pid : IdParam) icon (s : string) (a : Z)
    (d : string) (t : Z) (w : World) :
  s ≠ "" → a ≠ 0 → d ≠ "" → Date_parse d = Some t →
  let doc := Income.mk (nextId w) uid icon s a t (clock w) (clock w) in
  addIncome Date_parse castNumber
    {| user_id := uid; params_id := pid;
       body := IncomeBody.mk icon (Some s) (Some (AmountNumber a)) (Some d) |} w
  = (Returned (res_json 200 doc),
     {| incomes := incomes w ++ [doc]; expenses := expenses w; clock := clock w;
        nextId := N.succ (nextId w) |}).
Proof.
  intros Hs Ha Hd Ht. apply addIncome_stores_cast; try done.
  by apply truthy_number_Some.
Qed.

Lemma addExpense_stores (uid : ObjectId) (pid : IdParam) icon (s : string) (a : Z)
    (d : string) (t : Z) (w : World) :
  s ≠ "" → a ≠ 0 → d ≠ "" → Date_parse d = Some t →
  let doc := Expense.mk (nextId w) uid icon s a t (clock w) (clock w) in
  addExpense Date_parse castNumber
    {| user_id := uid; params_id := pid;
       body := ExpenseBody.mk icon (Some s) (Some (AmountNumber a)) (Some d) |} w
  = (Returned (res_json 200 doc),
     {| incomes := incomes w; expenses := expenses w ++ [doc]; clock := clock w;
        nextId := N.succ (nextId w) |}).
Proof.
  intros Hs Ha Hd Ht. apply addExpense_stores_cast; try done.
  by apply truthy_number_Some.
Qed.

(** A complete body whose amount does not cast, or whose date text is
    no date, passes the guard and fails in [save]: nothing is stored.
    [addExpense] catches the error and answers 500; the source of
    [addIncome] shows no handler, and the error is its outcome. *)
Lemma addIncome_save_throws (uid : ObjectId) (pid : IdParam) icon (s : string)
    (amount : JsonAmount) (d : string) (w : World) :
  s ≠ "" → truthy amount = true → d ≠ "" →
  cast_amount castNumber amount = None ∨ Date_parse d = None →
  addIncome Date_parse castNumber
    {| user_id := uid; params_id := pid;
       body := IncomeBody.mk icon (Some s) (Some amount) (Some d) |} w
  = (Thrown "ValidationError", issue_id w).
Proof.
  intros Hs Hamount Hd Hbad.
  unfold addIncome, try_. cbn [body user_id].
  rewrite !truthy_string_Some by done.
  change (truthy (Some amount)) with (truthy amount). rewrite Hamount. cbn [negb orb].
  build_and_save.
  destruct Hbad as [-> | ->]; [done|]. by destruct (cast_amount castNumber amount).
Qed.

Lemma addExpense_save_throws (uid : ObjectId) (pid : IdParam) icon (s : string)
    (amount : JsonAmount) (d : string) (w : World) :
  s ≠ "" → truthy amount = true → d ≠ "" →
  cast_amount castNumber amount = None ∨ Date_parse d = None →
  addExpense Date_parse castNumber
    {| user_id := uid; params_id := pid;
       body := ExpenseBody.mk icon (Some s) (Some amount) (Some d) |} w
  = (Returned (res_message 500 "Server Error"), issue_id w).
Proof.
  intros Hs Hamount Hd Hbad.
  unfold addExpense, try_catch. cbn [body user_id].
  rewrite !truthy_string_Some by done.
  change (truthy (Some amount)) with (truthy amount). rewrite Hamount. cbn [negb orb].
  build_and_save.
  destruct Hbad as [-> | ->]; [done|]. by destruct (cast_amount castNumber amount).
Qed.
End CreateFacts.

(** C9, as the code has it: a create request without a date never
    reaches the schema default. The guard of the controller answers 400
    "All fields are required" and stores nothing; the default
    [Date.now] is taken only by a document built with no date at all,
    which neither controller builds. *)
Theorem C9_missing_date_is_rejected (Date_parse : string → JSDate)
    (castNumber : string → option Z) (w : World) :
  (∀ req : Request IncomeBody.t,
     IncomeBody.date (body req) = None →
     addIncome Date_parse castNumber req w
     = (Returned (res_message 400 "All fields are required"), w))
  ∧ (∀ req : Request ExpenseBody.t,
       ExpenseBody.date (body req) = None →
       addExpense Date_parse castNumber req w
       = (Returned (res_message 400 "All fields are required"), w))
  ∧ (∀ uid icon label amount,
       ∃ doc w', new_Model castNumber uid icon label amount None w = (Returned doc, w')
                 ∧ draft_date doc = Some (clock w)).
Proof.
  split; [|split].
  - intros req Hd. apply addIncome_guard. rewrite Hd. apply andb_false_r.
  - intros req Hd. apply addExpense_guard. rewrite Hd. apply andb_false_r.
  - intros uid icon label amount. by eexists _, _.
Qed.

Lemma C9_missing_date_is_rejected_witness :
  addIncome sample_parse sample_cast income_without_date alice_books
  = (Returned (res_message 400 "All fields are required"), alice_books)
  ∧ addExpense sample_parse sample_cast expense_without_date alice_books
    = (Returned (res_message 400 "All fields are required"), alice_books).
Proof.
  destruct (C9_missing_date_is_rejected sample_parse sample_cast alice_books)
    as (Hi & He & _).
  split; [apply Hi | apply He]; reflexivity.
Defined.

(** C9, as stated, fails: the request without a date is not stored with
    the creation time, it is turned down. *)
Lemma C9_default_date_counterexample :
  IncomeBody.date (body income_without_date) = None
  ∧ addIncome sample_parse sample_cast income_without_date alice_books
    = (Returned (res_message 400 "All fields are required"), alice_books)
  ∧ ¬ ∃ doc w',
        addIncome sample_parse sample_cast income_without_date alice_books
        = (Returned (res_json 200 doc), w')
        ∧ doc ∈ incomes w' ∧ date doc = clock alice_books.
Proof.
  repeat split.
  intros (doc & w' & Hrun & _). discriminate Hrun.
Qed.

(** C10, as the code has it: the create controllers answer "All fields
    are required" exactly when source/category, amount or date is falsy,
    and look at nothing else before they build the document. A negative
    amount passes and is stored as sent when the date text is a date;
    the amount 0 is falsy and is turned down with that message. A date
    text that is no date is truthy all the same: the request passes the
    guard, the save fails, and nothing is stored. *)
Theorem C10_create_checks_truthiness_only (Date_parse : string → JSDate)
    (castNumber : string → option Z) (w : World) :
  (∀ req : Request IncomeBody.t,
     fst (addIncome Date_parse castNumber req w)
     = Returned (res_message 400 "All fields are required")
     ↔ truthy (IncomeBody.source (body req)) && truthy (IncomeBody.amount (body req))
         && truthy (IncomeBody.date (body req)) = false)
  ∧ (∀ uid pid icon (s : string) (a : Z) (d : string) (t : Z),
       s ≠ "" → a < 0 → d ≠ "" → Date_parse d = Some t →
       let doc := Income.mk (nextId w) uid icon s a t (clock w) (clock w) in
       addIncome Date_parse castNumber
         {| user_id := uid; params_id := pid;
            body := IncomeBody.mk icon (Some s) (Some (AmountNumber a)) (Some d) |} w
       = (Returned (res_json 200 doc),
          {| incomes := incomes w ++ [doc]; expenses := expenses w;
             clock := clock w; nextId := N.succ (nextId w) |}))
  ∧ (∀ req : Request IncomeBody.t,
       IncomeBody.amount (body req) = Some (AmountNumber 0) →
       addIncome Date_parse castNumber req w
       = (Returned (res_message 400 "All fields are required"), w))
  ∧ (∀ req : Request ExpenseBody.t,
       fst (addExpense Date_parse castNumber req w)
       = Returned (res_message 400 "All fields are required")
       ↔ truthy (ExpenseBody.category (body req)) && truthy (ExpenseBody.amount (body req))
           && truthy (ExpenseBody.date (body req)) = false)
  ∧ (∀ uid pid icon (s : string) (a : Z) (d : string) (t : Z),
       s ≠ "" → a < 0 → d ≠ "" → Date_parse d = Some t →
       let doc := Expense.mk (nextId w) uid icon s a t (clock w) (clock w) in
       addExpense Date_parse castNumber
         {| user_id := uid; params_id := pid;
            body := ExpenseBody.mk icon (Some s) (Some (AmountNumber a)) (Some d) |} w
       = (Returned (res_json 200 doc),
          {| incomes := incomes w; expenses := expenses w ++ [doc];
             clock := clock w; nextId := N.succ (nextId w) |}))
  ∧ (∀ req : Request ExpenseBody.t,
       ExpenseBody.amount (body req) = Some (AmountNumber 0) →
       addExpense Date_parse castNumber req w
       = (Returned (res_message 400 "All fields are required"), w))
  ∧ (∀ uid pid icon (s : string) (a : Z) (d : string),
       s ≠ "" → a < 0 → d ≠ "" → Date_parse d = None →
       (∃ w', addIncome Date_parse castNumber
                {| user_id := uid; params_id := pid;
                   body := IncomeBody.mk icon (Some s) (Some (AmountNumber a)) (Some d) |} w
              = (Thrown "ValidationError", w')
              ∧ incomes w' = incomes w ∧ expenses w' = expenses w)
       ∧ (∃ w', addExpense Date_parse castNumber
                  {| user_id := uid; params_id := pid;
                     body := ExpenseBody.mk icon (Some s) (Some (AmountNumber a))
                               (Some d) |} w
                = (Returned (res_message 500 "Server Error"), w')
                ∧ incomes w' = incomes w ∧ expenses w' = expenses w)).
Proof.
  repeat apply conj.
  - intros req. split.
    + intros Hr.
      destruct (truthy (IncomeBody.source (body req)) && truthy (IncomeBody.amount (body req))
                && truthy (IncomeBody.date (body req))) eqn:Hg; [|done].
      by apply (addIncome_past_guard Date_parse castNumber w req) in Hg.
    + intros Hg. by rewrite addIncome_guard.
  - intros uid pid icon s a d t Hs Ha Hd Ht. apply addIncome_stores; [done|lia|done..].
  - intros req Ha. apply addIncome_guard. rewrite Ha.
    by rewrite andb_false_r.
  - intros req. split.
    + intros Hr.
      destruct (truthy (ExpenseBody.category (body req)) && truthy (ExpenseBody.amount (body req))
                && truthy (ExpenseBody.date (body req))) eqn:Hg; [|done].
      by apply (addExpense_past_guard Date_parse castNumber w req) in Hg.
    + intros Hg. by rewrite addExpense_guard.
  - intros uid pid icon s a d t Hs Ha Hd Ht. apply addExpense_stores; [done|lia|done..].
  - intros req Ha. apply addExpense_guard. rewrite Ha.
    by rewrite andb_false_r.
  - intros uid pid icon s a d Hs Ha Hd Ht. split; eexists.
    + split; [apply addIncome_save_throws; auto|done]. apply truthy_number_Some. lia.
    + split; [apply addExpense_save_throws; auto|done]. apply truthy_number_Some. lia.
Qed.

(** Alice posts a refund of -250 dated 2025-01-15, then an income of 0. *)
Lemma C10_create_checks_truthiness_only_witness :
  (∃ doc w',
     addIncome sample_parse sample_cast
       {| user_id := alice; params_id := NotObjectId "";
          body := IncomeBody.mk None (Some "Refund") (Some (AmountNumber (-250)))
                    (Some "2025-01-15") |}
       alice_books
     = (Returned (res_json 200 doc), w')
     ∧ amount doc = -250 ∧ incomes w' = incomes alice_books ++ [doc])
  ∧ addIncome sample_parse sample_cast
      {| user_id := alice; params_id := NotObjectId "";
         body := IncomeBody.mk None (Some "Gift") (Some (AmountNumber 0))
                   (Some "2025-01-15") |}
      alice_books
    = (Returned (res_message 400 "All fields are required"), alice_books).
Proof.
  destruct (C10_create_checks_truthiness_only sample_parse sample_cast alice_books)
    as (_ & Hneg & Hzero & _).
  split.
  - eexists _, _. split.
    + apply (Hneg alice (NotObjectId "") None "Refund" (-250) "2025-01-15" 1736899200000);
        [discriminate | lia | discriminate | reflexivity].
    + split; reflexivity.
  - apply Hzero. reflexivity.
Defined.

(** C10, as stated, fails: a refund of -250 with a category and the
    date text "tomorrow" has a strictly negative numeric amount and its
    other fields present, and it is not accepted: the save fails on the
    date, [addExpense] answers 500 and no record is stored. The same
    request to [addIncome] is not accepted either. *)
Lemma C10_present_date_counterexample :
  ExpenseBody.amount (body refund_dated_tomorrow) = Some (AmountNumber (-250))
  ∧ truthy (ExpenseBody.category (body refund_dated_tomorrow))
    && truthy (ExpenseBody.amount (body refund_dated_tomorrow))
    && truthy (ExpenseBody.date (body refund_dated_tomorrow)) = true
  ∧ addExpense sample_parse sample_cast refund_dated_tomorrow alice_books
    = (Returned (res_message 500 "Server Error"), issue_id alice_books)
  ∧ expenses (issue_id alice_books) = expenses alice_books
  ∧ (¬ ∃ doc w', addExpense sample_parse sample_cast refund_dated_tomorrow alice_books
                 = (Returned (res_json 200 doc), w'))
  ∧ incomes (snd (addIncome sample_parse sample_cast income_refund_dated_tomorrow
                    alice_books))
    = incomes alice_books
  ∧ ¬ ∃ doc w', addIncome sample_parse sample_cast income_refund_dated_tomorrow alice_books
                = (Returned (res_json 200 doc), w').
Proof.
  repeat split.
  - intros (doc & w' & Hrun). discriminate Hrun.
  - intros (doc & w' & Hrun). discriminate Hrun.
Qed.

(** * Further properties of the backend *)

(** ** Sums *)

Section SumFacts.
Context `{Model D}.
Implicit Types (l : list D).

Lemma foldl_sum_amounts l : foldl (λ s x, s + amount x) 0 l = sum_amounts l.
Proof.
  induction l as [|d l IH]; [done|].
  change (foldl (λ s x, s + amount x) (0 + amount d) l = amount d + sum_amounts l).
  rewrite foldl_sum_shift, IH. lia.
Qed.

Lemma sum_amounts_Permutation l1 l2 : l1 ≡ₚ l2 → sum_amounts l1 = sum_amounts l2.
Proof.
  induction 1 as [|x l1 l2 _ IH|x y l|l1 l2 l3 _ IH1 _ IH2]; simpl; lia.
Qed.

Lemma sum_amounts_app l1 l2 : sum_amounts (l1 ++ l2) = sum_amounts l1 + sum_amounts l2.
Proof. induction l1 as [|d l1 IH]; simpl; lia. Qed.

Lemma sum_amounts_sort l : sum_amounts (sort_date_desc l) = sum_amounts l.
Proof. apply sum_amounts_Permutation, Array_sort_Permutation. Qed.

Lemma by_user_app uid l1 l2 : by_user uid (l1 ++ l2) = by_user uid l1 ++ by_user uid l2.
Proof. apply filter_app. Qed.

Lemma abs_sum_nonneg l : 0 ≤ abs_sum l.
Proof. induction l as [|d l IH]; simpl; lia. Qed.

Lemma sum_amounts_abs_sum l : Z.abs (sum_amounts l) ≤ abs_sum l.
Proof. induction l as [|d l IH]; simpl; lia. Qed.

Lemma abs_sum_app l1 l2 : abs_sum (l1 ++ l2) = abs_sum l1 + abs_sum l2.
Proof. induction l1 as [|d l1 IH]; simpl; lia. Qed.

Lemma abs_sum_filter (P : D → Prop) `{∀ d, Decision (P d)} l :
  abs_sum (filter P l) ≤ abs_sum l.
Proof.
  induction l as [|d l IH]; [done|]. rewrite filter_cons.
  destruct (decide (P d)); simpl; lia.
Qed.

Lemma abs_sum_since uid cutoff l : abs_sum (by_user_since uid cutoff l) ≤ abs_sum (by_user uid l).
Proof.
  rewrite by_user_since_by_user. apply abs_sum_filter.
Qed.
End SumFacts.

(** ** Listing *)

(** X1: the list routes answer 200 with exactly the caller's documents
    (each once, nobody else's), newest first, and change nothing. *)
Theorem X1_lists_are_the_owners_newest_first (req : Request unit) (w : World) :
  (∃ l, getAllIncome req w = (Returned (res_json 200 l), w)
        ∧ l ≡ₚ filter (λ d, Income.userId d = user_id req) (incomes w)
        ∧ newest_first Income.date l)
  ∧ (∃ l, getAllExpense req w = (Returned (res_json 200 l), w)
          ∧ l ≡ₚ filter (λ d, Expense.userId d = user_id req) (expenses w)
          ∧ newest_first Expense.date l).
Proof.
  split; eexists; (split; [reflexivity|]); split.
  - apply Array_sort_Permutation.
  - apply (Array_sort_newest_first Income.date).
  - apply Array_sort_Permutation.
  - apply (Array_sort_newest_first Expense.date).
Qed.

(** ** What the dashboard numbers are *)

(** X2: for an owner whose books are safe (integer amounts whose
    absolute values add up to at most [Number.MAX_SAFE_INTEGER], so that
    no sum is rounded), the four sums of the summary are the sums over
    the records they stand for: all of the owner's incomes, all of the
    owner's expenses, the owner's incomes of the last 60 days
    (5 184 000 000 ms) and the owner's expenses of the last 30 days; the
    60-day list holds exactly those incomes; and the four sums and the
    balance are themselves within [Number.MAX_SAFE_INTEGER]. *)
Theorem X2_dashboard_sums (req : Request unit) (w : World) :
  safe_books (user_id req) w →
  ∃ s, getDashboardData req w = (Returned (res_json 200 s), w)
       ∧ totalIncome s
         = sum_amounts (filter (λ d, Income.userId d = user_id req) (incomes w))
       ∧ totalExpenses s
         = sum_amounts (filter (λ d, Expense.userId d = user_id req) (expenses w))
       ∧ total (last60DaysIncome s)
         = sum_amounts (filter (λ d, Income.userId d = user_id req
                                     ∧ clock w - 5184000000 ≤ Income.date d) (incomes w))
       ∧ total (last30DaysExpenses s)
         = sum_amounts (filter (λ d, Expense.userId d = user_id req
                                     ∧ clock w - 2592000000 ≤ Expense.date d) (expenses w))
       ∧ (∀ d, d ∈ transactions (last60DaysIncome s)
               ↔ d ∈ incomes w ∧ Income.userId d = user_id req
                 ∧ clock w - 5184000000 ≤ Income.date d)
       ∧ Z.abs (totalIncome s) ≤ MAX_SAFE_INTEGER
       ∧ Z.abs (totalExpenses s) ≤ MAX_SAFE_INTEGER
       ∧ Z.abs (totalBalance s) ≤ MAX_SAFE_INTEGER
       ∧ Z.abs (total (last60DaysIncome s)) ≤ MAX_SAFE_INTEGER
       ∧ Z.abs (total (last30DaysExpenses s)) ≤ MAX_SAFE_INTEGER.
Proof.
  intros Hsafe. unfold safe_books in Hsafe.
  pose proof (abs_sum_nonneg (D:=Income.t) (by_user (user_id req) (incomes w))) as Hi0.
  pose proof (abs_sum_nonneg (D:=Expense.t) (by_user (user_id req) (expenses w))) as He0.
  pose proof (sum_amounts_abs_sum (D:=Income.t) (by_user (user_id req) (incomes w))) as Hi.
  pose proof (sum_amounts_abs_sum (D:=Expense.t) (by_user (user_id req) (expenses w))) as He.
  pose proof (abs_sum_since (D:=Income.t) (user_id req) (clock w - 5184000000) (incomes w))
    as Hi60.
  pose proof (abs_sum_since (D:=Expense.t) (user_id req) (clock w - 2592000000) (expenses w))
    as He30.
  pose proof (sum_amounts_abs_sum (D:=Income.t)
                (by_user_since (user_id req) (clock w - 5184000000) (incomes w))) as Hs60.
  pose proof (sum_amounts_abs_sum (D:=Expense.t)
                (by_user_since (user_id req) (clock w - 2592000000) (expenses w))) as Hs30.
  eexists. split; [apply getDashboardData_run|].
  cbn [totalIncome totalExpenses totalBalance last60DaysIncome last30DaysExpenses total
       transactions].
  rewrite !(js_or_group_total (D:=Income.t)), !(js_or_group_total (D:=Expense.t)).
  rewrite !(foldl_sum_amounts (D:=Income.t)), !(foldl_sum_amounts (D:=Expense.t)).
  rewrite !(sum_amounts_sort (D:=Income.t)), !(sum_amounts_sort (D:=Expense.t)).
  split; [done|]. split; [done|]. split; [done|]. split; [done|]. split.
  { intros d. unfold sort_date_desc, by_user_since.
    rewrite list_elem_of_Array_sort, list_elem_of_filter. tauto. }
  unfold by_user, by_user_since, days in *.
  cbn [userId date IncomeModel ExpenseModel] in *.
  change (60 * 24 * 60 * 60 * 1000) with 5184000000.
  change (30 * 24 * 60 * 60 * 1000) with 2592000000.
  repeat split; lia.
Qed.

Lemma X2_dashboard_sums_witness :
  ∃ s, getDashboardData (get_as alice) alice_books
       = (Returned (res_json 200 s), alice_books)
       ∧ totalIncome s = 6500 ∧ totalExpenses s = 1540
       ∧ total (last60DaysIncome s) = 6500 ∧ total (last30DaysExpenses s) = 1240.
Proof.
  destruct (X2_dashboard_sums (get_as alice) alice_books)
    as (s & Hrun & Hi & He & Hi60 & He30 & _).
  - unfold safe_books. vm_compute. discriminate.
  - exists s. split; [exact Hrun|].
    split; [exact Hi|]. split; [exact He|]. split; [exact Hi60|exact He30].
Defined.

(** ** Recent activity holds the newest records *)

Lemma newest_first_take_drop {A} (key : A → Z) (n : nat) (l : list A) x y :
  newest_first key l → x ∈ take n l → y ∈ drop n l → key y ≤ key x.
Proof.
  intros Hs Hx Hy. rewrite <- (take_drop n l) in Hs.
  by apply (StronglySorted_app_1_elem_of _ _ _ x y) in Hs.
Qed.

Lemma IncomeTxn_in_merge (ri : list Income.t) (re : list Expense.t) cmp i :
  IncomeTxn i ∈ Array_sort cmp (map IncomeTxn ri ++ map ExpenseTxn re) ↔ i ∈ ri.
Proof.
  rewrite list_elem_of_Array_sort, elem_of_app, !list_elem_of_fmap. split.
  - intros [(x & [= ->] & Hx)|(x & [=] & _)]. exact Hx.
  - intros Hi. left. by exists i.
Qed.

Lemma ExpenseTxn_in_merge (ri : list Income.t) (re : list Expense.t) cmp e :
  ExpenseTxn e ∈ Array_sort cmp (map IncomeTxn ri ++ map ExpenseTxn re) ↔ e ∈ re.
Proof.
  rewrite list_elem_of_Array_sort, elem_of_app, !list_elem_of_fmap. split.
  - intros [(x & [=] & _)|(x & [= ->] & Hx)]. exact Hx.
  - intros He. right. by exists e.
Qed.

(** X3: the incomes shown in the recent activity are the owner's newest
    ones: the owner's incomes split into the (at most five) shown and the
    rest, and nothing in the rest is newer than anything shown. The
    same holds for the expenses. *)
Theorem X3_recent_are_the_newest (req : Request unit) (w : World) :
  ∃ s, getDashboardData req w = (Returned (res_json 200 s), w)
       ∧ (∃ shown rest : list Income.t,
            shown ++ rest ≡ₚ filter (λ d, Income.userId d = user_id req) (incomes w)
            ∧ (length shown ≤ 5)%nat
            ∧ (∀ d, IncomeTxn d ∈ recentTransactions s ↔ d ∈ shown)
            ∧ (∀ d d', d ∈ shown → d' ∈ rest → Income.date d' ≤ Income.date d))
       ∧ (∃ shown rest : list Expense.t,
            shown ++ rest ≡ₚ filter (λ d, Expense.userId d = user_id req) (expenses w)
            ∧ (length shown ≤ 5)%nat
            ∧ (∀ d, ExpenseTxn d ∈ recentTransactions s ↔ d ∈ shown)
            ∧ (∀ d d', d ∈ shown → d' ∈ rest → Expense.date d' ≤ Expense.date d)).
Proof.
  eexists. split; [apply getDashboardData_run|]. cbn [recentTransactions]. split.
  - exists (take 5 (sort_date_desc (by_user (user_id req) (incomes w)))),
           (drop 5 (sort_date_desc (by_user (user_id req) (incomes w)))).
    split; [|split; [|split]].
    + rewrite take_drop. apply Array_sort_Permutation.
    + rewrite length_take. lia.
    + intros d. apply IncomeTxn_in_merge.
    + intros d d'. apply (newest_first_take_drop Income.date).
      apply (Array_sort_newest_first Income.date).
  - exists (take 5 (sort_date_desc (by_user (user_id req) (expenses w)))),
           (drop 5 (sort_date_desc (by_user (user_id req) (expenses w)))).
    split; [|split; [|split]].
    + rewrite take_drop. apply Array_sort_Permutation.
    + rewrite length_take. lia.
    + intros d. apply ExpenseTxn_in_merge.
    + intros d d'. apply (newest_first_take_drop Expense.date).
      apply (Array_sort_newest_first Expense.date).
Qed.

(** ** Every outcome of a create request *)

Section CreateOutcomes.
Variable Date_parse : string → JSDate.
Variable castNumber : string → option Z.

Lemma truthy_Some_string (s : string) : truthy (Some s) = true → s ≠ "".
Proof.
  unfold truthy, optional_truthy, truthy, string_truthy.
  by destruct (String.eqb_spec s "").
Qed.

(** All three fields truthy: what the body then holds. *)
Lemma truthy_fields (label : option string) (amount : option JsonAmount)
    (date : option string) :
  truthy label && truthy amount && truthy date = true →
  ∃ s a d, label = Some s ∧ amount = Some a ∧ date = Some d
           ∧ s ≠ "" ∧ truthy a = true ∧ d ≠ "".
Proof.
  intros [[Hl Ha]%andb_prop Hd]%andb_prop.
  destruct label as [s|], amount as [a|], date as [d|]; try discriminate.
  exists s, a, d. repeat split; auto using truthy_Some_string.
Qed.

(** The three ways [addIncome] can end: turned down by the guard, an
    error thrown by the save, or the document stored. *)
Lemma addIncome_outcomes (req : Request IncomeBody.t) (w : World) :
  addIncome Date_parse castNumber req w
  = (Returned (res_message 400 "All fields are required"), w)
  ∨ addIncome Date_parse castNumber req w = (Thrown "ValidationError", issue_id w)
  ∨ ∃ (s : string) (a t : Z),
      s ≠ ""
      ∧ addIncome Date_parse castNumber req w
        = (Returned (res_json 200
             (Income.mk (nextId w) (user_id req) (IncomeBody.icon (body req)) s a t
                (clock w) (clock w))),
           set_collection
             (incomes w ++ [Income.mk (nextId w) (user_id req) (IncomeBody.icon (body req))
                              s a t (clock w) (clock w)])
             (issue_id w)).
Proof.
  destruct (truthy (IncomeBody.source (body req)) && truthy (IncomeBody.amount (body req))
            && truthy (IncomeBody.date (body req))) eqn:Hg.
  - destruct req as [uid pid [icon label amount date]]. cbn in Hg.
    apply truthy_fields in Hg as (s & j & d & -> & -> & -> & Hs & Hj & Hd).
    destruct (cast_amount castNumber j) as [a|] eqn:Ha;
      [destruct (Date_parse d) as [t|] eqn:Ht|].
    + right; right. exists s, a, t. split; [done|].
      by apply addIncome_stores_cast.
    + right; left. apply addIncome_save_throws; auto.
    + right; left. apply addIncome_save_throws; auto.
  - left. by apply addIncome_guard.
Qed.

(** The three ways [addExpense] can end: its handler turns the error of
    the save into the answer 500. *)
Lemma addExpense_outcomes (req : Request ExpenseBody.t) (w : World) :
  addExpense Date_parse castNumber req w
  = (Returned (res_message 400 "All fields are required"), w)
  ∨ addExpense Date_parse castNumber req w
    = (Returned (res_message 500 "Server Error"), issue_id w)
  ∨ ∃ (s : string) (a t : Z),
      s ≠ ""
      ∧ addExpense Date_parse castNumber req w
        = (Returned (res_json 200
             (Expense.mk (nextId w) (user_id req) (ExpenseBody.icon (body req)) s a t
                (clock w) (clock w))),
           set_collection
             (expenses w ++ [Expense.mk (nextId w) (user_id req)
                               (ExpenseBody.icon (body req)) s a t (clock w) (clock w)])
             (issue_id w)).
Proof.
  destruct (truthy (ExpenseBody.category (body req)) && truthy (ExpenseBody.amount (body req))
            && truthy (ExpenseBody.date (body req))) eqn:Hg.
  - destruct req as [uid pid [icon label amount date]]. cbn in Hg.
    apply truthy_fields in Hg as (s & j & d & -> & -> & -> & Hs & Hj & Hd).
    destruct (cast_amount castNumber j) as [a|] eqn:Ha;
      [destruct (Date_parse d) as [t|] eqn:Ht|].
    + right; right. exists s, a, t. split; [done|].
      by apply addExpense_stores_cast.
    + right; left. apply addExpense_save_throws; auto.
    + right; left. apply addExpense_save_throws; auto.
  - left. by apply addExpense_guard.
Qed.
End CreateOutcomes.

(** ** The invariant of the store *)

Section RemoveFacts.
Context `{Model D}.
Implicit Types (l : list D).

Lemma remove_by_id_subseteq id l d : d ∈ remove_by_id id l → d ∈ l.
Proof.
  induction l as [|x l IH]; simpl; [done|].
  case_decide; rewrite ?elem_of_cons; intuition.
Qed.

Lemma remove_by_id_NoDup id l : NoDup (_id <$> l) → NoDup (_id <$> remove_by_id id l).
Proof.
  induction l as [|x l IH]; simpl; [done|].
  rewrite NoDup_cons. intros [Hx Hl]. case_decide; [done|].
  rewrite fmap_cons, NoDup_cons. split; [|by apply IH].
  intros (d & Hd & Hin)%list_elem_of_fmap. apply Hx.
  rewrite Hd. apply list_elem_of_fmap_2. by eapply remove_by_id_subseteq.
Qed.

(** A document just created carries an id no stored document has. *)
Lemma remove_by_id_last id l d :
  (∀ x, x ∈ l → _id x ≠ id) → _id d = id → remove_by_id id (l ++ [d]) = l.
Proof.
  intros Hl Hd. induction l as [|x l IH]; simpl.
  - by rewrite decide_True.
  - rewrite decide_False by (apply Hl; left). f_equal. apply IH.
    intros y Hy. apply Hl. by right.
Qed.

Lemma remove_by_id_twice id l :
  NoDup (_id <$> l) → remove_by_id id (remove_by_id id l) = remove_by_id id l.
Proof.
  intros Hnd. apply remove_by_id_absent.
  intros d Hd. by apply (list_elem_of_remove_by_id id l d Hnd) in Hd as [_ ?].
Qed.
End RemoveFacts.

Lemma consistent_issue_id (w : World) : consistent w → consistent (issue_id w).
Proof.
  intros [Hi He Hii Hei Hfi Hfe]. split; cbn; try done.
  - intros d Hd. specialize (Hii d Hd). lia.
  - intros d Hd. specialize (Hei d Hd). lia.
Qed.

Lemma consistent_store_income (w : World) uid icon (s : string) (a t : Z) :
  consistent w → s ≠ "" →
  consistent
    (set_collection
       (incomes w ++ [Income.mk (nextId w) uid icon s a t (clock w) (clock w)])
       (issue_id w)).
Proof.
  intros [Hi He Hii Hei Hfi Hfe] Hs. split; cbn.
  - rewrite fmap_app. apply NoDup_app. split; [done|]. split; [|apply NoDup_singleton].
    intros i (d & -> & Hd)%list_elem_of_fmap [= Heq]%list_elem_of_singleton.
    specialize (Hii d Hd). cbn in Heq. lia.
  - done.
  - intros d [Hd| ->%list_elem_of_singleton]%elem_of_app; cbn; [|lia].
    specialize (Hii d Hd). lia.
  - intros d Hd. specialize (Hei d Hd). lia.
  - intros d [Hd| ->%list_elem_of_singleton]%elem_of_app; cbn; auto.
  - done.
Qed.

Lemma consistent_store_expense (w : World) uid icon (s : string) (a t : Z) :
  consistent w → s ≠ "" →
  consistent
    (set_collection
       (expenses w ++ [Expense.mk (nextId w) uid icon s a t (clock w) (clock w)])
       (issue_id w)).
Proof.
  intros [Hi He Hii Hei Hfi Hfe] Hs. split; cbn.
  - done.
  - rewrite fmap_app. apply NoDup_app. split; [done|]. split; [|apply NoDup_singleton].
    intros i (d & -> & Hd)%list_elem_of_fmap [= Heq]%list_elem_of_singleton.
    specialize (Hei d Hd). cbn in Heq. lia.
  - intros d Hd. specialize (Hii d Hd). lia.
  - intros d [Hd| ->%list_elem_of_singleton]%elem_of_app; cbn; [|lia].
    specialize (Hei d Hd). lia.
  - done.
  - intros d [Hd| ->%list_elem_of_singleton]%elem_of_app; cbn; auto.
Qed.

Lemma consistent_remove_income (w : World) id :
  consistent w → consistent (set_collection (remove_by_id id (incomes w)) w).
Proof.
  intros [Hi He Hii Hei Hfi Hfe]. split; cbn; try done.
  - exact (remove_by_id_NoDup (D:=Income.t) id (incomes w) Hi).
  - intros d Hd. apply Hii. by eapply (remove_by_id_subseteq (D:=Income.t)).
  - intros d Hd. apply Hfi. by eapply (remove_by_id_subseteq (D:=Income.t)).
Qed.

Lemma consistent_remove_expense (w : World) id :
  consistent w → consistent (set_collection (remove_by_id id (expenses w)) w).
Proof.
  intros [Hi He Hii Hei Hfi Hfe]. split; cbn; try done.
  - exact (remove_by_id_NoDup (D:=Expense.t) id (expenses w) He).
  - intros d Hd. apply Hei. by eapply (remove_by_id_subseteq (D:=Expense.t)).
  - intros d Hd. apply Hfe. by eapply (remove_by_id_subseteq (D:=Expense.t)).
Qed.

Lemma consistent_after (Date_parse : string → JSDate) (castNumber : string → option Z)
    (c : Call) (w : World) :
  consistent w → consistent (after Date_parse castNumber c w).
Proof.
  intros Hw. destruct c as [req|req|req|req|req|req|req|req|req|now]; cbn [after];
    try exact Hw.
  - destruct (addIncome_outcomes Date_parse castNumber req w)
      as [->|[->|(s & a & t & Hs & ->)]];
      cbn [snd]; auto using consistent_issue_id, consistent_store_income.
  - destruct (addExpense_outcomes Date_parse castNumber req w)
      as [->|[->|(s & a & t & Hs & ->)]];
      cbn [snd]; auto using consistent_issue_id, consistent_store_expense.
  - destruct (params_id req) as [id|segment] eqn:Hid.
    + rewrite (deleteIncome_run req id) by done. by apply consistent_remove_income.
    + by rewrite (proj1 (delete_not_an_id req segment w Hid)).
  - destruct (params_id req) as [id|segment] eqn:Hid.
    + rewrite (deleteExpense_run req id) by done. by apply consistent_remove_expense.
    + by rewrite (proj2 (delete_not_an_id req segment w Hid)).
  - by destruct Hw.
Qed.

(** X4: whatever requests the API serves, starting from the empty
    store, the store stays consistent: ids are unique within each
    collection and below the generator, and no stored record has an
    empty source/category. The requests include amounts sent as text,
    texts that are no number or no date, and delete paths that are no
    ObjectId. *)
Theorem X4_store_stays_consistent (Date_parse : string → JSDate)
    (castNumber : string → option Z) (calls : list Call) (now : Z) :
  consistent (serve Date_parse castNumber calls (fresh_world now)).
Proof.
  assert (consistent (fresh_world now)) as Hw.
  { split; cbn; try apply NoDup_nil_2; intros d Hd; by apply elem_of_nil in Hd. }
  revert Hw. generalize (fresh_world now). unfold serve.
  induction calls as [|c calls IH]; intros w Hw; cbn [foldl]; [done|].
  apply IH. by apply consistent_after.
Qed.

(** An amount sent as the text "0" is truthy: it passes the guard and
    is stored as the number 0. *)
Example text_zero_is_stored :
  ∃ doc w',
    addExpense sample_parse sample_cast
      {| user_id := alice; params_id := NotObjectId "";
         body := ExpenseBody.mk None (Some "Gift") (Some (AmountText "0"))
                   (Some "2025-01-15") |}
      alice_books
    = (Returned (res_json 200 doc), w')
    ∧ Expense.amount doc = 0 ∧ doc ∈ expenses w'.
Proof.
  eexists _, _. split; [reflexivity|]. split; [reflexivity|].
  apply list_elem_of_In. simpl. auto.
Qed.

(** ** What a call can and cannot do to the store *)

(** X5: no route edits a stored record. An income found after a call
    was stored before it, or this very call created it, for its caller,
    with the next id and the clock as its creation time; and an income
    stored before a call is still stored after it unless the call is the
    delete of its id. The same holds for the expenses. *)
Theorem X5_calls_never_edit (Date_parse : string → JSDate)
    (castNumber : string → option Z) (c : Call) (w : World) :
  (∀ d, d ∈ incomes (after Date_parse castNumber c w) →
        d ∈ incomes w
        ∨ ∃ req, c = PostIncome req ∧ Income._id d = nextId w
                 ∧ Income.userId d = user_id req ∧ Income.createdAt d = clock w)
  ∧ (∀ d, d ∈ incomes w →
          d ∈ incomes (after Date_parse castNumber c w)
          ∨ ∃ req, c = DeleteIncome req ∧ params_id req = IsObjectId (Income._id d))
  ∧ (∀ d, d ∈ expenses (after Date_parse castNumber c w) →
          d ∈ expenses w
          ∨ ∃ req, c = PostExpense req ∧ Expense._id d = nextId w
                   ∧ Expense.userId d = user_id req ∧ Expense.createdAt d = clock w)
  ∧ (∀ d, d ∈ expenses w →
          d ∈ expenses (after Date_parse castNumber c w)
          ∨ ∃ req, c = DeleteExpense req ∧ params_id req = IsObjectId (Expense._id d)).
Proof.
  destruct c as [req|req|req|req|req|req|req|req|req|now]; cbn [after];
    try (repeat split; intros d Hd; by left).
  - destruct (addIncome_outcomes Date_parse castNumber req w)
      as [->|[->|(s & a & t & Hs & ->)]];
      cbn; try (repeat split; intros d Hd; by left).
    split; [|split; [|split]]; intros d Hd; try by left.
    + apply elem_of_app in Hd as [Hd| ->%list_elem_of_singleton]; [by left|right].
      by exists req.
    + left. apply elem_of_app. by left.
  - destruct (addExpense_outcomes Date_parse castNumber req w)
      as [->|[->|(s & a & t & Hs & ->)]];
      cbn; try (repeat split; intros d Hd; by left).
    split; [|split; [|split]]; intros d Hd; try by left.
    + apply elem_of_app in Hd as [Hd| ->%list_elem_of_singleton]; [by left|right].
      by exists req.
    + left. apply elem_of_app. by left.
  - destruct (params_id req) as [id|segment] eqn:Hid;
      [|rewrite (proj1 (delete_not_an_id req segment w Hid));
        repeat split; intros d Hd; by left].
    rewrite (deleteIncome_run req id) by done.
    cbn. split; [|split; [|split]]; intros d Hd; try by left.
    + left. by eapply (remove_by_id_subseteq (D:=Income.t)).
    + destruct (decide (Income._id d = id)) as [Heq|Hne].
      * right. exists req. by rewrite Heq.
      * left. clear -Hd Hne. induction (incomes w) as [|x l IH]; [done|]. simpl.
        apply elem_of_cons in Hd as [->|Hd].
        -- rewrite decide_False by done. by left.
        -- case_decide; [done|]. right. by apply IH.
  - destruct (params_id req) as [id|segment] eqn:Hid;
      [|rewrite (proj2 (delete_not_an_id req segment w Hid));
        repeat split; intros d Hd; by left].
    rewrite (deleteExpense_run req id) by done.
    cbn. split; [|split; [|split]]; intros d Hd; try by left.
    + left. by eapply (remove_by_id_subseteq (D:=Expense.t)).
    + destruct (decide (Expense._id d = id)) as [Heq|Hne].
      * right. exists req. by rewrite Heq.
      * left. clear -Hd Hne. induction (expenses w) as [|x l IH]; [done|]. simpl.
        apply elem_of_cons in Hd as [->|Hd].
        -- rewrite decide_False by done. by left.
        -- case_decide; [done|]. right. by apply IH.
Qed.

(** ** Create, then read *)

(** A document of another user at the end changes no filter of [uid]. *)
Lemma by_user_snoc_other `{Model D} (uid : ObjectId) (d : D) (l : list D) :
  userId d ≠ uid → by_user uid (l ++ [d]) = by_user uid l.
Proof.
  intros Hne. unfold by_user. rewrite filter_app, filter_cons_False by done.
  by rewrite filter_nil, app_nil_r.
Qed.

Lemma by_user_snoc_own `{Model D} (uid : ObjectId) (d : D) (l : list D) :
  userId d = uid → by_user uid (l ++ [d]) = by_user uid l ++ [d].
Proof.
  intros Heq. unfold by_user. by rewrite filter_app, filter_cons_True.
Qed.

(** The reads of [req] on two worlds that agree on the clock and on the
    caller's documents. *)
Lemma reads_agree (req : Request unit) (w1 w2 : World) :
  clock w1 = clock w2 →
  by_user (user_id req) (incomes w1) = by_user (user_id req) (incomes w2) →
  by_user (user_id req) (expenses w1) = by_user (user_id req) (expenses w2) →
  fst (getDashboardData req w1) = fst (getDashboardData req w2)
  ∧ fst (getAllIncome req w1) = fst (getAllIncome req w2)
  ∧ fst (getAllExpense req w1) = fst (getAllExpense req w2).
Proof.
  intros Hc Hi He. rewrite !getDashboardData_run. cbn [fst].
  rewrite !(by_user_since_by_user (D:=Income.t)), !(by_user_since_by_user (D:=Expense.t)).
  unfold getAllIncome, getAllExpense, try_, bind, exec, ret.
  cbn [fst collection IncomeModel ExpenseModel].
  by rewrite Hc, Hi, He.
Qed.

(** X6: an income the API accepted shows in the next list of its
    owner, which has grown by exactly one entry; the lists and the
    dashboard of every other user are what they were. The same holds
    for an expense. *)
Theorem X6_created_record_is_listed (Date_parse : string → JSDate)
    (castNumber : string → option Z) (uid : ObjectId)
    icon (s : string) (a : Z) (d : string) (t : Z) (w : World) :
  s ≠ "" → a ≠ 0 → d ≠ "" → Date_parse d = Some t →
  (∃ doc w' l,
     addIncome Date_parse castNumber (post_income uid icon s a d) w
     = (Returned (res_json 200 doc), w')
     ∧ getAllIncome (get_as uid) w' = (Returned (res_json 200 l), w')
     ∧ doc ∈ l
     ∧ Income.source doc = s ∧ Income.amount doc = a ∧ Income.date doc = t
     ∧ length l = S (count_of Income.t uid w)
     ∧ ∀ other, other ≠ uid →
         fst (getAllIncome (get_as other) w') = fst (getAllIncome (get_as other) w)
         ∧ fst (getDashboardData (get_as other) w')
           = fst (getDashboardData (get_as other) w))
  ∧ (∃ doc w' l,
       addExpense Date_parse castNumber (post_expense uid icon s a d) w
       = (Returned (res_json 200 doc), w')
       ∧ getAllExpense (get_as uid) w' = (Returned (res_json 200 l), w')
       ∧ doc ∈ l
       ∧ Expense.category doc = s ∧ Expense.amount doc = a ∧ Expense.date doc = t
       ∧ length l = S (count_of Expense.t uid w)
       ∧ ∀ other, other ≠ uid →
           fst (getAllExpense (get_as other) w') = fst (getAllExpense (get_as other) w)
           ∧ fst (getDashboardData (get_as other) w')
             = fst (getDashboardData (get_as other) w)).
Proof.
  intros Hs Ha Hd Ht. split.
  - eexists _, _, _. split; [by apply addIncome_stores|].
    split; [reflexivity|]. cbn [collection IncomeModel incomes user_id get_as].
    rewrite (by_user_snoc_own (D:=Income.t)) by done.
    split; [|split; [done|split; [done|split; [done|split]]]].
    + apply list_elem_of_Array_sort, elem_of_app. right. by left.
    + rewrite length_sort_date_desc, length_app. unfold count_of.
      cbn [collection IncomeModel ExpenseModel length]. lia.
    + intros other Hne.
      edestruct (reads_agree (get_as other)) as (Hdash & Hinc & _);
        [| | |split; [exact Hinc|exact Hdash]];
        cbn [user_id get_as incomes expenses clock]; [done| |done].
      apply (by_user_snoc_other (D:=Income.t)). cbn. congruence.
  - eexists _, _, _. split; [by apply addExpense_stores|].
    split; [reflexivity|]. cbn [collection ExpenseModel expenses user_id get_as].
    rewrite (by_user_snoc_own (D:=Expense.t)) by done.
    split; [|split; [done|split; [done|split; [done|split]]]].
    + apply list_elem_of_Array_sort, elem_of_app. right. by left.
    + rewrite length_sort_date_desc, length_app. unfold count_of.
      cbn [collection IncomeModel ExpenseModel length]. lia.
    + intros other Hne.
      edestruct (reads_agree (get_as other)) as (Hdash & _ & Hexp);
        [| | |split; [exact Hexp|exact Hdash]];
        cbn [user_id get_as incomes expenses clock]; [done|done|].
      apply (by_user_snoc_other (D:=Expense.t)). cbn. congruence.
Qed.

Lemma X6_created_record_is_listed_witness :
  ∃ doc w' l,
    addIncome sample_parse sample_cast (post_income bob None "Salary" 4000 "2025-01-15") alice_books
    = (Returned (res_json 200 doc), w')
    ∧ getAllIncome (get_as bob) w' = (Returned (res_json 200 l), w')
    ∧ doc ∈ l
    ∧ fst (getDashboardData (get_as alice) w')
      = fst (getDashboardData (get_as alice) alice_books).
Proof.
  destruct (X6_created_record_is_listed sample_parse sample_cast bob None "Salary" 4000 "2025-01-15"
              1736899200000 alice_books)
    as [(doc & w' & l & Hadd & Hlist & Hin & _ & _ & _ & _ & Hother) _];
    [discriminate | lia | discriminate | reflexivity |].
  exists doc, w', l. repeat split; try assumption.
  apply (Hother alice). discriminate.
Defined.

(** ** Create, then the dashboard *)

Lemma dashboard_totals (req : Request unit) (w : World) :
  ∃ s, getDashboardData req w = (Returned (res_json 200 s), w)
       ∧ totalIncome s = sum_amounts (by_user (user_id req) (incomes w))
       ∧ totalExpenses s = sum_amounts (by_user (user_id req) (expenses w))
       ∧ totalBalance s = totalIncome s - totalExpenses s.
Proof.
  eexists. split; [apply getDashboardData_run|].
  cbn [totalIncome totalExpenses totalBalance]. split; [|split; [|done]].
  - rewrite (js_or_group_total (D:=Income.t)). apply (foldl_sum_amounts (D:=Income.t)).
  - rewrite (js_or_group_total (D:=Expense.t)). apply (foldl_sum_amounts (D:=Expense.t)).
Qed.

(** X7: for an owner whose books stay safe with the new amount
    (integer amounts whose absolute values, the new one included, add up
    to at most [Number.MAX_SAFE_INTEGER], so that no sum is rounded), an
    accepted income of amount [a] raises the owner's [totalIncome] and
    [totalBalance] by [a] and leaves [totalExpenses] alone; an accepted
    expense of amount [a] raises [totalExpenses] by [a] and lowers
    [totalBalance] by [a]. *)
Theorem X7_create_moves_the_totals (Date_parse : string → JSDate)
    (castNumber : string → option Z) (uid : ObjectId)
    icon (s : string) (a : Z) (d : string) (t : Z) (w : World) :
  abs_sum (by_user uid (incomes w)) + abs_sum (by_user uid (expenses w)) + Z.abs a
  ≤ MAX_SAFE_INTEGER →
  s ≠ "" → a ≠ 0 → d ≠ "" → Date_parse d = Some t →
  ∃ before after_income after_expense wi we,
    getDashboardData (get_as uid) w = (Returned (res_json 200 before), w)
    ∧ snd (addIncome Date_parse castNumber (post_income uid icon s a d) w) = wi
    ∧ getDashboardData (get_as uid) wi = (Returned (res_json 200 after_income), wi)
    ∧ safe_books uid wi
    ∧ totalIncome after_income = totalIncome before + a
    ∧ totalExpenses after_income = totalExpenses before
    ∧ totalBalance after_income = totalBalance before + a
    ∧ snd (addExpense Date_parse castNumber (post_expense uid icon s a d) w) = we
    ∧ getDashboardData (get_as uid) we = (Returned (res_json 200 after_expense), we)
    ∧ safe_books uid we
    ∧ totalIncome after_expense = totalIncome before
    ∧ totalExpenses after_expense = totalExpenses before + a
    ∧ totalBalance after_expense = totalBalance before - a.
Proof.
  intros Hsafe Hs Ha Hd Ht.
  destruct (dashboard_totals (get_as uid) w) as (s0 & Hr0 & Hi0 & He0 & Hb0).
  unfold post_income, post_expense.
  rewrite (addIncome_stores Date_parse castNumber uid (NotObjectId "") icon s a d t w
             Hs Ha Hd Ht).
  rewrite (addExpense_stores Date_parse castNumber uid (NotObjectId "") icon s a d t w
             Hs Ha Hd Ht).
  cbn [snd].
  pose (wi := {| incomes := incomes w
                          ++ [Income.mk (nextId w) uid icon s a t (clock w) (clock w)];
                 expenses := expenses w; clock := clock w;
                 nextId := N.succ (nextId w) |}).
  pose (we := {| incomes := incomes w;
                 expenses := expenses w
                          ++ [Expense.mk (nextId w) uid icon s a t (clock w) (clock w)];
                 clock := clock w; nextId := N.succ (nextId w) |}).
  destruct (dashboard_totals (get_as uid) wi) as (s1 & Hr1 & Hi1 & He1 & Hb1).
  destruct (dashboard_totals (get_as uid) we) as (s2 & Hr2 & Hi2 & He2 & Hb2).
  cbn [wi we incomes expenses user_id get_as] in Hi0, He0, Hi1, He1, Hi2, He2.
  rewrite (by_user_snoc_own (D:=Income.t)), (sum_amounts_app (D:=Income.t)) in Hi1 by done.
  rewrite (by_user_snoc_own (D:=Expense.t)), (sum_amounts_app (D:=Expense.t)) in He2 by done.
  cbn in Hi1, He2.
  assert (safe_books uid wi) as Hwi.
  { unfold safe_books. cbn [wi incomes expenses].
    rewrite (by_user_snoc_own (D:=Income.t)), (abs_sum_app (D:=Income.t)) by done.
    cbn. lia. }
  assert (safe_books uid we) as Hwe.
  { unfold safe_books. cbn [we incomes expenses].
    rewrite (by_user_snoc_own (D:=Expense.t)), (abs_sum_app (D:=Expense.t)) by done.
    cbn. lia. }
  exists s0, s1, s2, wi, we.
  split; [exact Hr0|]. split; [reflexivity|]. split; [exact Hr1|]. split; [exact Hwi|].
  split; [lia|]. split; [lia|]. split; [lia|].
  split; [reflexivity|]. split; [exact Hr2|]. split; [exact Hwe|]. lia.
Qed.

Lemma X7_create_moves_the_totals_witness :
  ∃ before after_income wi,
    getDashboardData (get_as alice) alice_books = (Returned (res_json 200 before), alice_books)
    ∧ snd (addIncome sample_parse sample_cast
             (post_income alice None "Bonus" 700 "2025-01-15") alice_books) = wi
    ∧ getDashboardData (get_as alice) wi = (Returned (res_json 200 after_income), wi)
    ∧ totalBalance after_income = totalBalance before + 700.
Proof.
  destruct (X7_create_moves_the_totals sample_parse sample_cast alice None "Bonus" 700
              "2025-01-15" 1736899200000 alice_books)
    as (s0 & s1 & s2 & wi & we & H0 & Hwi & H1 & _ & _ & _ & Hb & _);
    [vm_compute; discriminate | discriminate | lia | discriminate | reflexivity |].
  exists s0, s1, wi. repeat split; assumption.
Defined.

(** ** Create, then delete *)

(** X8: deleting a record that was just created, by the id the create
    answered with, gives back the collections as they were before the
    create, whoever sends the delete; all it leaves is the used id. *)
Theorem X8_delete_undoes_create (Date_parse : string → JSDate)
    (castNumber : string → option Z) (uid caller : ObjectId)
    icon (s : string) (a : Z) (d : string) (t : Z) (w : World) :
  Forall (λ x, (Income._id x < nextId w)%N) (incomes w) →
  Forall (λ x, (Expense._id x < nextId w)%N) (expenses w) →
  s ≠ "" → a ≠ 0 → d ≠ "" → Date_parse d = Some t →
  (∃ doc w',
     addIncome Date_parse castNumber (post_income uid icon s a d) w
     = (Returned (res_json 200 doc), w')
     ∧ snd (deleteIncome (delete_as caller (Income._id doc)) w') = issue_id w)
  ∧ (∃ doc w',
       addExpense Date_parse castNumber (post_expense uid icon s a d) w
       = (Returned (res_json 200 doc), w')
       ∧ snd (deleteExpense (delete_as caller (Expense._id doc)) w') = issue_id w).
Proof.
  intros Hi He Hs Ha Hd Ht. split.
  - eexists _, _. split; [by apply addIncome_stores|].
    rewrite (deleteIncome_run _ (nextId w)) by reflexivity. cbn.
    rewrite (remove_by_id_last (D:=Income.t)); [done| |done].
    intros x Hx. rewrite Forall_forall in Hi. specialize (Hi x Hx). cbn. lia.
  - eexists _, _. split; [by apply addExpense_stores|].
    rewrite (deleteExpense_run _ (nextId w)) by reflexivity. cbn.
    rewrite (remove_by_id_last (D:=Expense.t)); [done| |done].
    intros x Hx. rewrite Forall_forall in He. specialize (He x Hx). cbn. lia.
Qed.

Lemma X8_delete_undoes_create_witness :
  ∃ doc w',
    addIncome sample_parse sample_cast (post_income alice None "Bonus" 700 "2025-01-15") alice_books
    = (Returned (res_json 200 doc), w')
    ∧ snd (deleteIncome (delete_as bob (Income._id doc)) w') = issue_id alice_books.
Proof.
  destruct (X8_delete_undoes_create sample_parse sample_cast alice bob None "Bonus" 700 "2025-01-15"
              1736899200000 alice_books) as [Hinc _];
    [repeat constructor | repeat constructor | discriminate | lia | discriminate
    | reflexivity |].
  exact Hinc.
Defined.

(** X9: a second delete of the same path does what the first did and
    changes nothing more. For an id that is an ObjectId both are
    answered with the success message, and the second finds nothing to
    remove; for a path that is no ObjectId both throw the cast error and
    the store is never touched. *)
Theorem X9_delete_twice (req : Request unit) (w : World) :
  NoDup (_id <$> incomes w) → NoDup (_id <$> expenses w) →
  deleteIncome req (snd (deleteIncome req w))
  = (fst (deleteIncome req w), snd (deleteIncome req w))
  ∧ deleteExpense req (snd (deleteExpense req w))
    = (fst (deleteExpense req w), snd (deleteExpense req w))
  ∧ (∀ id, params_id req = IsObjectId id →
       fst (deleteIncome req w) = Returned (res_message 200 "Income deleted successfully")
       ∧ fst (deleteExpense req w)
         = Returned (res_message 200 "Expense deleted successfully"))
  ∧ (∀ segment, params_id req = NotObjectId segment →
       deleteIncome req w = (Thrown "CastError", w)
       ∧ deleteExpense req w = (Thrown "CastError", w)).
Proof.
  intros Hi He.
  split; [|split; [|split]]; [| | |intros segment; apply delete_not_an_id].
  - destruct (params_id req) as [id|segment] eqn:Hid.
    + rewrite !(deleteIncome_run req id) by done. cbn.
      by rewrite (remove_by_id_twice (D:=Income.t)).
    + by rewrite !(proj1 (delete_not_an_id req segment _ Hid)).
  - destruct (params_id req) as [id|segment] eqn:Hid.
    + rewrite !(deleteExpense_run req id) by done. cbn.
      by rewrite (remove_by_id_twice (D:=Expense.t)).
    + by rewrite !(proj2 (delete_not_an_id req segment _ Hid)).
  - intros id Hid.
    by rewrite (deleteIncome_run req id), (deleteExpense_run req id).
Qed.

Lemma X9_delete_twice_witness :
  deleteIncome (delete_as bob 1) (snd (deleteIncome (delete_as bob 1) alice_books))
  = (Returned (res_message 200 "Income deleted successfully"),
     snd (deleteIncome (delete_as bob 1) alice_books))
  ∧ deleteIncome (delete_segment bob "abc")
      (snd (deleteIncome (delete_segment bob "abc") alice_books))
    = (Thrown "CastError", alice_books).
Proof.
  destruct (X9_delete_twice (delete_as bob 1) alice_books) as (Hsame & _ & Hok & _);
    [apply (bool_decide_unpack _); by vm_compute..|].
  destruct (X9_delete_twice (delete_segment bob "abc") alice_books)
    as (Hagain & _ & _ & Hbad);
    [apply (bool_decide_unpack _); by vm_compute..|].
  split.
  - rewrite Hsame. by rewrite (proj1 (Hok 1%N eq_refl)).
  - rewrite Hagain. by rewrite (proj1 (Hbad "abc" eq_refl)).
Defined.

(** ** A date that is no date *)

(** X10: a create request whose three fields are all truthy, but whose
    date text is no date or whose amount is a text that is no number,
    passes the guard and fails in [save]: nothing is stored, and the id
    the document was built with is used up. [addExpense] catches the
    error and answers 500 "Server Error"; in [addIncome] the error
    reaches a handler that the source does not show. *)
Theorem X10_unparsable_date_is_a_server_error (Date_parse : string → JSDate)
    (castNumber : string → option Z) (uid : ObjectId) icon (s : string)
    (amount : JsonAmount) (d : string) (w : World) :
  s ≠ "" → truthy amount = true → d ≠ "" →
  cast_amount castNumber amount = None ∨ Date_parse d = None →
  (∃ w', addExpense Date_parse castNumber
           {| user_id := uid; params_id := NotObjectId "";
              body := ExpenseBody.mk icon (Some s) (Some amount) (Some d) |} w
         = (Returned (res_message 500 "Server Error"), w')
         ∧ incomes w' = incomes w ∧ expenses w' = expenses w
         ∧ nextId w' = N.succ (nextId w))
  ∧ (∃ error w', addIncome Date_parse castNumber
                   {| user_id := uid; params_id := NotObjectId "";
                      body := IncomeBody.mk icon (Some s) (Some amount) (Some d) |} w
                 = (Thrown error, w')
                 ∧ incomes w' = incomes w ∧ expenses w' = expenses w
                 ∧ nextId w' = N.succ (nextId w)).
Proof.
  intros Hs Ha Hd Hbad. split.
  - eexists. split; [by apply addExpense_save_throws|done].
  - eexists _, _. split; [by apply addIncome_save_throws|done].
Qed.

Lemma X10_unparsable_date_is_a_server_error_witness :
  (∃ w', addExpense sample_parse sample_cast expense_dated_tomorrow alice_books
         = (Returned (res_message 500 "Server Error"), w')
         ∧ incomes w' = incomes alice_books ∧ expenses w' = expenses alice_books)
  ∧ (∃ w', addExpense sample_parse sample_cast
             {| user_id := alice; params_id := NotObjectId "";
                body := ExpenseBody.mk None (Some "Rent") (Some (AmountText "a lot"))
                          (Some "2025-01-15") |} alice_books
           = (Returned (res_message 500 "Server Error"), w')
           ∧ expenses w' = expenses alice_books).
Proof.
  destruct (X10_unparsable_date_is_a_server_error sample_parse sample_cast alice None
              "Rent" (AmountNumber 1200) "tomorrow" alice_books)
    as [(w1 & Hrun1 & Hi1 & He1 & _) _];
    [discriminate | reflexivity | discriminate | by right |].
  destruct (X10_unparsable_date_is_a_server_error sample_parse sample_cast alice None
              "Rent" (AmountText "a lot") "2025-01-15" alice_books)
    as [(w2 & Hrun2 & _ & He2 & _) _];
    [discriminate | reflexivity | discriminate | by left |].
  split.
  - exists w1. split; [exact Hrun1|]. split; [exact Hi1|exact He1].
  - exists w2. split; [exact Hrun2|exact He2].
Defined.

(** ** The export *)

Lemma newest_first_fmap {A B} (f : A → B) (key : B → Z) (l : list A) :
  newest_first (key ∘ f) l → newest_first key (f <$> l).
Proof.
  unfold newest_first. induction 1 as [|x l Hl IH Hx]; cbn; constructor; [done|].
  by apply Forall_fmap.
Qed.

(** X11: the sheet a download sends has one row per document of the
    caller, in the order of the list route (newest first), each row
    carrying the source/category, amount and date of its document; the
    store is left as it was. *)
Theorem X11_export_follows_the_list (req : Request unit) (w : World) :
  (∃ l wb,
     getAllIncome req w = (Returned (res_json 200 l), w)
     ∧ downloadIncomeExcel req w = (Returned (res_json 200 wb), w)
     ∧ sheet_rows wb
       = (λ d, {| Source := Income.source d; Amount := Income.amount d;
                  Date := Income.date d |}) <$> l
     ∧ length (sheet_rows wb) = count_of Income.t (user_id req) w
     ∧ newest_first Date (sheet_rows wb))
  ∧ (∃ l wb,
       getAllExpense req w = (Returned (res_json 200 l), w)
       ∧ downloadExpenseExcel req w = (Returned (res_json 200 wb), w)
       ∧ sheet_rows wb
         = (λ d, {| Source := Expense.category d; Amount := Expense.amount d;
                    Date := Expense.date d |}) <$> l
       ∧ length (sheet_rows wb) = count_of Expense.t (user_id req) w
       ∧ newest_first Date (sheet_rows wb)).
Proof.
  split; eexists _, _; (split; [reflexivity|]); (split; [reflexivity|]);
    cbn [sheet_rows]; (split; [reflexivity|]); split.
  - by rewrite length_map, length_sort_date_desc.
  - apply newest_first_fmap. apply (Array_sort_newest_first Income.date).
  - by rewrite length_map, length_sort_date_desc.
  - apply newest_first_fmap. apply (Array_sort_newest_first Expense.date).
Qed.

(** * The categorization service *)

Section AiFacts.
Variable hf : string → list string → Outcome HfResult.

(** Every way [categorizeExpense] can end, by what the classifier did. *)
Lemma categorizeExpense_run (description : string) (w : World) :
  categorizeExpense hf description w
  = (Returned
       match hf description EXPENSE_CATEGORIES with
       | Returned (HfArray (first :: rest)) =>
           if truthy (label first) then
             {| category := Some (label first);
                confidence := Some (score first);
                allPredictions :=
                  Some (map (λ r, Alternative.mk (label r) (Some (score r)))
                          (take 3 (first :: rest)));
                error := None |}
           else {| category := Some "Other"; confidence := Some 0%Q;
                   allPredictions := None;
                   error := Some "Unexpected AI response structure" |}
       | Returned (HfLegacy labels scores) =>
           {| category := head labels;
              confidence := head scores;
              allPredictions :=
                Some (imap (λ i label, Alternative.mk label (scores !! i)) (take 3 labels));
              error := None |}
       | Returned (HfArray []) | Returned HfOther =>
           {| category := Some "Other"; confidence := Some 0%Q;
              allPredictions := None;
              error := Some "Unexpected AI response structure" |}
       | Thrown e =>
           {| category := Some "Other"; confidence := Some 0%Q;
              allPredictions := None; error := Some e |}
       end, w).
Proof.
  unfold categorizeExpense, try_catch, bind, zeroShotClassification.
  destruct (hf description EXPENSE_CATEGORIES) as [[[|first rest]|labels scores|]|e];
    try reflexivity.
  by destruct (truthy (label first)).
Qed.

(** X12: [categorizeExpense] never fails, whatever the classifier does:
    it returns an answer and touches no record. The answer lists at most
    three alternatives, and when it lists any, the first one is the
    answer itself (same category, same confidence). An answer that
    carries an error is the fallback: category "Other", confidence 0, no
    alternatives; that is what a rejected call (with the message of its
    error), an empty array, an array whose first label is empty, and an
    unknown shape (all three with "Unexpected AI response structure")
    come to. An array whose first label is not empty gives that label
    and its score with the first three predictions as alternatives and
    no error, and the old format gives its first label and score. *)
Theorem X12_categorizeExpense_never_fails (description : string) (w : World) :
  ∃ c, categorizeExpense hf description w = (Returned c, w)
       ∧ (∀ l, allPredictions c = Some l → (length l ≤ 3)%nat)
       ∧ (∀ p l, allPredictions c = Some (p :: l) →
                 category c = Some (Alternative.category p)
                 ∧ confidence c = Alternative.confidence p)
       ∧ (∀ e, error c = Some e →
               category c = Some "Other" ∧ confidence c = Some 0%Q
               ∧ allPredictions c = None)
       ∧ (error c = None →
          (∃ first rest, hf description EXPENSE_CATEGORIES = Returned (HfArray (first :: rest))
                         ∧ label first ≠ "")
          ∨ ∃ labels scores,
              hf description EXPENSE_CATEGORIES = Returned (HfLegacy labels scores))
       ∧ (∀ e, hf description EXPENSE_CATEGORIES = Thrown e → error c = Some e)
       ∧ (hf description EXPENSE_CATEGORIES = Returned (HfArray [])
          ∨ hf description EXPENSE_CATEGORIES = Returned HfOther
          ∨ (∃ first rest,
               hf description EXPENSE_CATEGORIES = Returned (HfArray (first :: rest))
               ∧ label first = "") →
          error c = Some "Unexpected AI response structure")
       ∧ (∀ first rest,
            hf description EXPENSE_CATEGORIES = Returned (HfArray (first :: rest)) →
            label first ≠ "" →
            c = {| category := Some (label first);
                   confidence := Some (score first);
                   allPredictions :=
                     Some (map (λ r, Alternative.mk (label r) (Some (score r)))
                             (take 3 (first :: rest)));
                   error := None |})
       ∧ (∀ labels scores,
            hf description EXPENSE_CATEGORIES = Returned (HfLegacy labels scores) →
            error c = None ∧ category c = head labels ∧ confidence c = head scores).
Proof.
  eexists. split; [apply categorizeExpense_run|].
  destruct (hf description EXPENSE_CATEGORIES) as [[[|first rest]|labels scores|]|e];
    cbn [allPredictions category confidence error].
  - repeat split; intros; simplify_eq; try done.
    all: repeat match goal with
                | H : _ ∨ _ |- _ => destruct H
                | H : ∃ _, _ |- _ => destruct H
                | H : _ ∧ _ |- _ => destruct H
                end; simplify_eq; done.
  - destruct (truthy (label first)) eqn:Hl;
      cbn [allPredictions category confidence error].
    + assert (label first ≠ "") as Hne by (by apply truthy_Some_string).
      split; [|split; [|split; [|split; [|split; [|split; [|split]]]]]];
        try (intros; simplify_eq; done).
      * intros l [= <-]. cbn [length]. rewrite length_map, length_take. lia.
      * intros p l [= <- _]. done.
      * intros _. left. by exists first, rest.
      * intros [?|[?|(f & r & [= -> ->] & Hempty)]]; done.
    + assert (label first = "") as Hempty.
      { unfold truthy, string_truthy in Hl. apply negb_false_iff in Hl.
        by apply String.eqb_eq. }
      split; [|split; [|split; [|split; [|split; [|split; [|split]]]]]];
        try (intros; simplify_eq; done).
  - split; [|split; [|split; [|split; [|split; [|split; [|split]]]]]];
      try (intros; simplify_eq; done).
    + intros l [= <-]. rewrite length_imap, length_take. lia.
    + intros p l. destruct labels as [|l0 labels]; [done|].
      intros [= <- _]. split; [done|]. by destruct scores.
    + intros _. right. by exists labels, scores.
    + intros [?|[?|(f & r & ? & _)]]; done.
  - repeat split; intros; simplify_eq; try done.
    all: repeat match goal with
                | H : _ ∨ _ |- _ => destruct H
                | H : ∃ _, _ |- _ => destruct H
                | H : _ ∧ _ |- _ => destruct H
                end; simplify_eq; done.
  - repeat split; intros; simplify_eq; try done.
    all: repeat match goal with
                | H : _ ∨ _ |- _ => destruct H
                | H : ∃ _, _ |- _ => destruct H
                | H : _ ∧ _ |- _ => destruct H
                end; simplify_eq; done.
Qed.

(** X13: the route answers 400 "Description required" when the body has
    no description or an empty one, and otherwise 200 with what
    [categorizeExpense] returned; it never answers 500, since the
    service turns its own failures into the fallback. *)
Theorem X13_ai_categorize_route (req : Request (option string)) (w : World) :
  ∃ r, ai_categorize hf req w = (Returned r, w)
       ∧ status r ≠ 500%nat
       ∧ (truthy (body req) = false → r = res_message 400 "Description required")
       ∧ (∀ d, body req = Some d → d ≠ "" →
               ∃ c, categorizeExpense hf d w = (Returned c, w) ∧ r = res_json 200 c).
Proof.
  unfold ai_categorize, try_catch, bind. destruct (truthy (body req)) eqn:Ht; cbn [negb].
  - rewrite categorizeExpense_run. eexists. split; [reflexivity|].
    split; [cbn; discriminate|]. split; [done|].
    intros d Hd Hne. rewrite Hd. cbn [default]. rewrite categorizeExpense_run.
    eexists. split; reflexivity.
  - eexists. split; [reflexivity|]. split; [cbn; discriminate|]. split; [done|].
    intros d Hd Hne. rewrite Hd in Ht. by rewrite truthy_string_Some in Ht.
Qed.
End AiFacts.

(** * The expense form and the suggestion *)

Section FormFacts.
Variable post : string → option (Response Categorization).

(** The hook past its guard. *)
Lemma hook_categorizeExpense_long (description : string) (st : Hook.state) :
  (5 < String.length description)%nat → (3 ≤ String.length (trim description))%nat →
  hook_categorizeExpense post description st
  = match resolves (post description) with
    | Some p => (Some (response_data p), Hook.mk false None)
    | None =>
        (None,
         Hook.mk false
           (Some (js_or (response_message (post description)) "Categorization failed")))
    end.
Proof.
  intros Hlen Htrim. unfold hook_categorizeExpense.
  assert (truthy description = true) as ->.
  { apply truthy_string. intros ->. cbn in Hlen. lia. }
  cbn [negb orb].
  by destruct (Nat.ltb_spec (String.length (trim description)) 3); [lia|].
Qed.

(** X14: what [handleDescriptionChange] leaves in the form. It never
    touches amount, date or icon. For a description of more than five
    characters (at least three once trimmed) whose reply carries a
    category: with a confidence above 0.7 the category is filled in and
    shown as the suggestion, and the [expense] written last is the one
    of the render the handler belongs to with only its category
    replaced, so the description just typed is not in it; with any other
    confidence, or none, the category is only suggested. The category is
    changed in no other case, and then the description is the typed
    one. *)
Theorem X14_autofill_needs_confidence (rendered : FormState) (value : string) :
  let before := expense rendered in
  let after := expense (handleDescriptionChange post rendered value) in
  ExpenseForm.amount after = ExpenseForm.amount before
  ∧ ExpenseForm.date after = ExpenseForm.date before
  ∧ ExpenseForm.icon after = ExpenseForm.icon before
  ∧ ((ExpenseForm.category after = ExpenseForm.category before
      ∧ ExpenseForm.description after = value)
     ∨ (∃ p (c : string) (q : Q),
          (5 < String.length value)%nat
          ∧ (3 ≤ String.length (trim value))%nat
          ∧ resolves (post value) = Some p
          ∧ category (response_data p) = Some c ∧ c ≠ ""
          ∧ confidence (response_data p) = Some q ∧ (7 # 10 < q)%Q
          ∧ ExpenseForm.category after = c
          ∧ ExpenseForm.description after = ExpenseForm.description before
          ∧ suggestedCategory (handleDescriptionChange post rendered value) = c))
  ∧ (∀ p (c : string),
       (5 < String.length value)%nat → (3 ≤ String.length (trim value))%nat →
       resolves (post value) = Some p →
       category (response_data p) = Some c → c ≠ "" →
       (∀ q, confidence (response_data p) = Some q → (7 # 10 < q)%Q →
             handleDescriptionChange post rendered value
             = {| expense :=
                    ExpenseForm.mk c (ExpenseForm.amount before) (ExpenseForm.date before)
                      (ExpenseForm.icon before) (ExpenseForm.description before);
                  suggestedCategory := c;
                  hook := Hook.mk false None |})
       ∧ ((∀ q, confidence (response_data p) = Some q → (q <= 7 # 10)%Q) →
          handleDescriptionChange post rendered value
          = {| expense :=
                 ExpenseForm.mk (ExpenseForm.category before) (ExpenseForm.amount before)
                   (ExpenseForm.date before) (ExpenseForm.icon before) value;
               suggestedCategory := c;
               hook := Hook.mk false None |})).
Proof.
  intros before after. subst before after.
  split; [|split; [|split; [|split]]].
  5: {
    intros p c Hlen Htrim Hp Hc Hne. unfold handleDescriptionChange.
    destruct (Nat.ltb_spec 5 (String.length value)) as [_|?]; [|lia].
    rewrite hook_categorizeExpense_long by done. rewrite Hp, Hc.
    cbn [truthy optional_truthy default from_option id]. rewrite (truthy_string c Hne).
    split.
    - intros q Hq Hconf. rewrite Hq.
      destruct (Qlt_le_dec (7 # 10) q) as [_|Hle]; [done|].
      exfalso. by apply (Qlt_not_le _ _ Hconf).
    - intros Hlow. destruct (confidence (response_data p)) as [q|] eqn:Hq; [|done].
      destruct (Qlt_le_dec (7 # 10) q) as [Hconf|_]; [|done].
      exfalso. apply (Qlt_not_le _ _ Hconf). by apply Hlow. }
  all: unfold handleDescriptionChange.
  all: destruct (Nat.ltb_spec 5 (String.length value)) as [Hlen|Hlen]; [|cbn; tauto].
  all: destruct (hook_categorizeExpense post value (hook _)) as [[result|] hook'] eqn:Hhook;
    [|cbn; tauto].
  all: destruct (category result) as [c|] eqn:Hc; cbn [truthy optional_truthy];
    [|cbn; tauto].
  all: destruct (truthy c) eqn:Htc; [|cbn; tauto].
  all: destruct (confidence result) as [q|] eqn:Hq; [|cbn; tauto].
  all: destruct (Qlt_le_dec (7 # 10) q) as [Hconf|Hconf]; [|cbn; tauto].
  1-3: done.
  cbn. right.
  unfold hook_categorizeExpense in Hhook.
  destruct (negb (truthy value)) eqn:Hv; [done|].
  destruct (Nat.ltb_spec (String.length (trim value)) 3) as [?|Htrim]; [done|].
  cbn [orb] in Hhook.
  destruct (resolves (post value)) as [p|] eqn:Hp; [|done].
  injection Hhook as <- <-.
  exists p, c, q. repeat split; try done.
  apply truthy_Some_string. exact Htc.
Qed.
End FormFacts.

(** X15: with this backend behind the form, a classifier that is down
    costs the user nothing but the suggestion: for a description of more
    than five characters (at least three once trimmed) the form keeps the
    typed description, leaves the category alone, suggests "Other" and
    shows no error, since the service answered 200 with its fallback. *)
Theorem X15_classifier_down (hf : string → list string → Outcome HfResult) (w : World)
    (uid : ObjectId) (rendered : FormState) (value e : string) :
  (5 < String.length value)%nat → (3 ≤ String.length (trim value))%nat →
  hf value EXPENSE_CATEGORIES = Thrown e →
  handleDescriptionChange (server_post hf w uid) rendered value
  = {| expense :=
         ExpenseForm.mk (ExpenseForm.category (expense rendered))
           (ExpenseForm.amount (expense rendered)) (ExpenseForm.date (expense rendered))
           (ExpenseForm.icon (expense rendered)) value;
       suggestedCategory := "Other";
       hook := Hook.mk false None |}.
Proof.
  intros Hlen Htrim Hhf. unfold handleDescriptionChange.
  destruct (Nat.ltb_spec 5 (String.length value)) as [_|?]; [|lia].
  rewrite hook_categorizeExpense_long by done.
  assert (value ≠ "") as Hne by (intros ->; cbn in Hlen; lia).
  unfold server_post, ai_categorize, try_catch, bind, categorize_as. cbn [body].
  rewrite truthy_string_Some by done. cbn [negb from_option id].
  by rewrite categorizeExpense_run, Hhf.
Qed.

Lemma X15_classifier_down_witness :
  handleDescriptionChange (server_post sample_hf alice_books alice) empty_form
    "Paid electricity bill"
  = {| expense := ExpenseForm.mk "" "" "" "" "Paid electricity bill";
       suggestedCategory := "Other";
       hook := Hook.mk false None |}.
Proof.
  apply (X15_classifier_down sample_hf alice_books alice empty_form
           "Paid electricity bill" "Service Unavailable");
    [vm_compute; lia | vm_compute; lia | reflexivity].
Defined.

(** The typed letter that the auto-fill drops. *)
Example autofill_drops_the_last_letter :
  handleDescriptionChange (server_post sample_hf alice_books alice) typing_coffee
    "Bought coffee at Starbucks"
  = {| expense := ExpenseForm.mk "Food & Dining" "" "" "" "Bought coffee at Starbuck";
       suggestedCategory := "Food & Dining";
       hook := Hook.mk false None |}.
Proof. reflexivity. Qed.

(** * Accounts *)

Section AuthFacts.
Variable bcrypt_hash : N → string → string.
Variable bcrypt_compare : string → string → bool.
Variable generateToken : ObjectId → Z → string.

Lemma User_findOne_None (email : string) (a : Accounts) :
  User_findOne email a = None ↔ ∀ u, u ∈ users a → User.email u ≠ email.
Proof.
  unfold User_findOne. rewrite fmap_None, list_find_None, Forall_forall. done.
Qed.

Lemma User_findOne_Some (email : string) (a : Accounts) (u : User.t) :
  User_findOne email a = Some u → u ∈ users a ∧ User.email u = email.
Proof.
  unfold User_findOne. intros ([i u'] & Hfind & ->)%fmap_Some.
  apply list_find_Some in Hfind as (Hi & He & _). split; [|done].
  by eapply list_elem_of_lookup_2.
Qed.


(** Every way [registerUser] can end. *)
Lemma registerUser_outcomes (body : RegisterBody.t) (a : Accounts) :
  registerUser bcrypt_hash generateToken body a
  = (res_message 400 "All fields are required", a)
  ∨ registerUser bcrypt_hash generateToken body a
    = (res_message 400 "Email already in use", a)
  ∨ ∃ (n e p : string),
      n ≠ "" ∧ e ≠ "" ∧ p ≠ "" ∧ User_findOne e a = None
      ∧ RegisterBody.fullName body = Some n ∧ RegisterBody.email body = Some e
      ∧ RegisterBody.password body = Some p
      ∧ registerUser bcrypt_hash generateToken body a
        = let user :=
            User.mk (nextUserId a) n e (bcrypt_hash (nextSalt a) p)
              (RegisterBody.profileImageUrl body) (accounts_clock a) (accounts_clock a) in
          (res_json 201
             (Session.mk (nextUserId a) user
                (generateToken (nextUserId a) (accounts_clock a))),
           {| users := users a ++ [user];
              nextUserId := N.succ (nextUserId a);
              accounts_clock := accounts_clock a;
              nextSalt := N.succ (nextSalt a) |}).
Proof.
  destruct body as [fullName email password profileImageUrl]. unfold registerUser.
  destruct (truthy fullName && truthy email && truthy password) eqn:Hg.
  - apply andb_prop in Hg as [[Hn He]%andb_prop Hp].
    destruct fullName as [n|], email as [e|], password as [p|]; try discriminate.
    rewrite Hn, He, Hp. cbn [negb orb from_option id].
    destruct (User_findOne e a) as [existing|] eqn:Hfind; [by right; left|].
    right; right. exists n, e, p.
    repeat split; auto using truthy_Some_string.
  - left. by rewrite <- !negb_andb, Hg.
Qed.

Lemma accounts_ok_after (c : AuthCall) (a : Accounts) :
  accounts_ok a → accounts_ok (auth_after bcrypt_hash bcrypt_compare generateToken c a).
Proof.
  intros Ha. destruct c as [body|[email password]]; cbn [auth_after].
  - destruct (registerUser_outcomes body a)
      as [->|[->|(n & e & p & Hn & He & Hp & Hfree & _ & _ & _ & ->)]]; [done..|].
    destruct Ha as [Hemails Hids Hissued Hfields].
    pose proof (proj1 (User_findOne_None e a) Hfree) as Hfree'. split; cbn.
    + rewrite fmap_app. apply NoDup_app. split; [done|]. split; [|apply NoDup_singleton].
      intros x (u & -> & Hu)%list_elem_of_fmap [= Heq]%list_elem_of_singleton.
      by apply (Hfree' u).
    + rewrite fmap_app. apply NoDup_app. split; [done|]. split; [|apply NoDup_singleton].
      intros x (u & -> & Hu)%list_elem_of_fmap [= Heq]%list_elem_of_singleton.
      specialize (Hissued u Hu). cbn in Heq. lia.
    + intros u [Hu| ->%list_elem_of_singleton]%elem_of_app; cbn; [|lia].
      specialize (Hissued u Hu). lia.
    + intros u [Hu| ->%list_elem_of_singleton]%elem_of_app; cbn; auto.
  - unfold loginUser. destruct (User_findOne email a) as [u|]; [|done].
    by destruct (negb (comparePassword bcrypt_compare u password)).
Qed.

(** X16: however many registrations and logins are served, starting
    with no user, no two users ever share an email or an id, and every
    user has a name and an email. *)
Theorem X16_emails_stay_unique (calls : list AuthCall) (now : Z) :
  accounts_ok (auth_serve bcrypt_hash bcrypt_compare generateToken calls (no_accounts now)).
Proof.
  assert (accounts_ok (no_accounts now)) as Ha.
  { split; cbn; try apply NoDup_nil_2; intros u Hu; by apply elem_of_nil in Hu. }
  revert Ha. generalize (no_accounts now). unfold auth_serve.
  induction calls as [|c calls IH]; intros a Ha; cbn [foldl]; [done|].
  apply IH. by apply accounts_ok_after.
Qed.


End AuthFacts.


(** * The add forms *)

(** Membership in an explicit list of effects. *)
Ltac in_effects :=
  rewrite ?elem_of_cons, ?elem_of_nil; intuition (simplify_eq; done).

(** The form was refused: a single error toast, nothing sent. *)
Ltac refused :=
  split; [|split; [|split]];
  [ split; [intros (b & Hb); revert Hb; in_effects | tauto]
  | intros b; in_effects
  | intros (b & Hb); revert Hb; in_effects
  | intros m; in_effects ].

Section AddHandlerFacts.
Variable Number_ : string → option Q.

Lemma amount_refused_false (amount : string) :
  amount_refused Number_ amount = false
  ↔ amount ≠ "" ∧ ∃ q, Number_ amount = Some q ∧ (0 < q)%Q.
Proof.
  unfold amount_refused. rewrite orb_false_iff, negb_false_iff. split.
  - intros [Ht Hn]. split; [by apply truthy_Some_string|].
    destruct (Number_ amount) as [q|]; [|done]. exists q. split; [done|].
    apply Qnot_le_lt. intros Hle%Qle_bool_iff. congruence.
  - intros [Hne (q & -> & Hq)]. split; [by apply truthy_string|].
    destruct (Qle_bool q 0) eqn:Hle; [|done].
    apply Qle_bool_iff in Hle. by apply Qle_not_lt in Hle.
Qed.

(** X18: what the add handlers do with a form. The request is sent
    exactly when the trimmed source (category) is not empty and the
    amount is a text that converts to a number above 0; the date plays no
    part in that. With an empty date the handler raises "Date is
    required." and sends the request all the same, with the empty date in
    it. What is sent is the form as typed. The success toast comes only
    after a request that resolved. *)
Theorem X18_add_handlers (post_income : IncomeForm.t → bool)
    (post_expense : ExpenseFormFields.t → bool) :
  (∀ income : IncomeForm.t,
     let effects := handleAddIncome Number_ post_income income in
     ((∃ body, Post body ∈ effects)
      ↔ trim (IncomeForm.source income) ≠ ""
        ∧ IncomeForm.amount income ≠ ""
        ∧ ∃ q, Number_ (IncomeForm.amount income) = Some q ∧ (0 < q)%Q)
     ∧ (∀ body, Post body ∈ effects → body = income)
     ∧ ((∃ body, Post body ∈ effects) → IncomeForm.date income = "" →
        ∃ rest, effects = ToastError "Date is required." :: Post income :: rest)
     ∧ (∀ m, ToastSuccess m ∈ effects → post_income income = true))
  ∧ (∀ expense : ExpenseFormFields.t,
       let effects := handleAddExpense Number_ post_expense expense in
       ((∃ body, Post body ∈ effects)
        ↔ trim (ExpenseFormFields.category expense) ≠ ""
          ∧ ExpenseFormFields.amount expense ≠ ""
          ∧ ∃ q, Number_ (ExpenseFormFields.amount expense) = Some q ∧ (0 < q)%Q)
       ∧ (∀ body, Post body ∈ effects → body = expense)
       ∧ ((∃ body, Post body ∈ effects) → ExpenseFormFields.date expense = "" →
          ∃ rest, effects = ToastError "Date is required." :: Post expense :: rest)
       ∧ (∀ m, ToastSuccess m ∈ effects → post_expense expense = true)).
Proof.
  split.
  - intros [source amount date icon] effects. subst effects.
    unfold handleAddIncome. cbn [IncomeForm.source IncomeForm.amount IncomeForm.date].
    destruct (truthy (trim source)) eqn:Hs; cbn [negb].
    + apply truthy_Some_string in Hs.
      destruct (amount_refused Number_ amount) eqn:Ha.
      * assert (¬ (amount ≠ "" ∧ ∃ q, Number_ amount = Some q ∧ (0 < q)%Q)) as Hno.
        { rewrite <- amount_refused_false. congruence. }
        refused.
      * apply amount_refused_false in Ha.
        split; [|split; [|split]].
        -- split; [tauto|]. intros _. eexists. apply elem_of_app. right. by left.
        -- intros body. destruct (truthy date), (post_income _); cbn; in_effects.
        -- intros _ ->. cbn. eauto.
        -- intros m. destruct (truthy date), (post_income _); cbn; in_effects.
    + assert (trim source = "") as Hempty.
      { unfold truthy, string_truthy in Hs. by destruct (String.eqb_spec (trim source) ""). }
      refused.
  - intros [category amount date icon] effects. subst effects.
    unfold handleAddExpense.
    cbn [ExpenseFormFields.category ExpenseFormFields.amount ExpenseFormFields.date].
    destruct (truthy (trim category)) eqn:Hs; cbn [negb].
    + apply truthy_Some_string in Hs.
      destruct (amount_refused Number_ amount) eqn:Ha.
      * assert (¬ (amount ≠ "" ∧ ∃ q, Number_ amount = Some q ∧ (0 < q)%Q)) as Hno.
        { rewrite <- amount_refused_false. congruence. }
        refused.
      * apply amount_refused_false in Ha.
        split; [|split; [|split]].
        -- split; [tauto|]. intros _. eexists. apply elem_of_app. right. by left.
        -- intros body. destruct (truthy date), (post_expense _); cbn; in_effects.
        -- intros _ ->. cbn. eauto.
        -- intros m. destruct (truthy date), (post_expense _); cbn; in_effects.
    + assert (trim category = "") as Hempty.
      { unfold truthy, string_truthy in Hs.
        by destruct (String.eqb_spec (trim category) ""). }
      refused.
Qed.
End AddHandlerFacts.

Lemma X18_add_handlers_witness :
  handleAddIncome sample_Number (λ _, false) (IncomeForm.mk "Salary" "5000" "" "")
  = [ToastError "Date is required."; Post (IncomeForm.mk "Salary" "5000" "" "");
     ConsoleError].
Proof.
  destruct (X18_add_handlers sample_Number (λ _, false) (λ _, false)) as [Hincome _].
  destruct (Hincome (IncomeForm.mk "Salary" "5000" "" "")) as (Hsent & _ & Hdate & _).
  destruct Hdate as (rest & Heq); [|reflexivity|].
  - apply Hsent. split; [vm_compute; discriminate|]. split; [discriminate|].
    exists (5000 # 1). split; reflexivity.
  - rewrite Heq. f_equal. f_equal. by injection Heq as <-.
Defined.

(** * The charts *)

Lemma Array_sort_ext {A} (cmp1 cmp2 : A → A → Z) (l : list A) :
  (∀ a b, cmp1 a b = cmp2 a b) → Array_sort cmp1 l = Array_sort cmp2 l.
Proof.
  intros Hext. induction l as [|x l IH]; [done|].
  cbn. fold (Array_sort cmp1 l) (Array_sort cmp2 l). rewrite IH.
  generalize (Array_sort cmp2 l). intros k.
  induction k as [|y k IHk]; [done|]. cbn. by rewrite Hext, IHk.
Qed.

Lemma Array_sort_oldest_first {A} (key : A → Z) (l : list A) :
  oldest_first key (Array_sort (λ a b, key a - key b) l).
Proof.
  rewrite (Array_sort_ext _ (λ a b, (λ x, - key x) b - (λ x, - key x) a))
    by (intros; lia).
  pose proof (Array_sort_newest_first (λ x, - key x) l) as Hs.
  unfold oldest_first, newest_first in *.
  induction Hs as [|x k Hk IH Hx]; constructor; [done|].
  eapply Forall_impl; [exact Hx|]. cbn. intros; lia.
Qed.

(** X19: the chart of a page shows one point per record the list route
    returned, oldest first, each point carrying the amount and the
    source (category) of its record and its date as "Do MMM"; so the
    income chart shows exactly the incomes of the signed-in user in the
    order of their dates, and the expense chart the expenses. *)
Theorem X19_charts_are_chronological (format_Do_MMM : Z → string) (req : Request unit)
    (w : World) :
  (∃ l sorted,
     getAllIncome req w = (Returned (res_json 200 l), w)
     ∧ prepareIncomeBarChartData format_Do_MMM l
       = (λ d, IncomePoint.mk (format_Do_MMM (Income.date d)) (Income.amount d)
                 (Income.source d)) <$> sorted
     ∧ sorted ≡ₚ filter (λ d, Income.userId d = user_id req) (incomes w)
     ∧ oldest_first Income.date sorted)
  ∧ (∃ l sorted,
       getAllExpense req w = (Returned (res_json 200 l), w)
       ∧ prepareExpenseLineChartData format_Do_MMM l
         = (λ d, ExpensePoint.mk (format_Do_MMM (Expense.date d)) (Expense.amount d)
                   (Expense.category d)) <$> sorted
       ∧ sorted ≡ₚ filter (λ d, Expense.userId d = user_id req) (expenses w)
       ∧ oldest_first Expense.date sorted).
Proof.
  split; eexists _, _; (split; [reflexivity|]); (split; [reflexivity|]); split.
  - rewrite Array_sort_Permutation. apply Array_sort_Permutation.
  - apply Array_sort_oldest_first.
  - rewrite Array_sort_Permutation. apply Array_sort_Permutation.
  - apply Array_sort_oldest_first.
Qed.

(** * The avatar *)

Lemma String_split_nonempty (sep : ascii) (s : string) : String_split sep s ≠ [].
Proof.
  induction s as [|c s IH]; cbn [String_split]; [done|].
  destruct (Ascii.eqb c sep); [done|]. by destruct (String_split sep s).
Qed.

Lemma append_String (c : ascii) (w s : string) : String c w +:+ s = String c (w +:+ s).
Proof. reflexivity. Qed.

(** A piece in front of a separator is the first piece. *)
Lemma String_split_word (sep : ascii) (w rest : string) :
  free_of sep w = true →
  String_split sep (w +:+ String sep rest) = w :: String_split sep rest.
Proof.
  induction w as [|c w IH].
  - intros _. change ("" +:+ String sep rest) with (String sep rest).
    cbn [String_split]. by rewrite Ascii.eqb_refl.
  - rewrite append_String. cbn [String_split free_of].
    intros [Hc Hw]%andb_prop. apply negb_true_iff in Hc. rewrite Hc.
    by rewrite IH.
Qed.

Lemma String_split_single (sep : ascii) (w : string) :
  free_of sep w = true → String_split sep w = [w].
Proof.
  induction w as [|c w IH]; cbn [String_split free_of]; [done|].
  intros [Hc Hw]%andb_prop. apply negb_true_iff in Hc. rewrite Hc.
  by rewrite IH.
Qed.

(** X20: the initials of a name. A single word gives its first letter
    and two or more words, separated by single spaces, give the first
    letters of the first two, in upper case. An empty piece among the
    first two has no first letter and contributes the text UNDEFINED: so
    does a name that ends in a space after its only word, a name that
    starts with a space, and a doubled space after the first word. The
    two first letters are ASCII characters. *)
Theorem X20_getInitials (c1 c2 : ascii) (w1 w2 rest : string) :
  (nat_of_ascii c1 < 128)%nat → (nat_of_ascii c2 < 128)%nat →
  no_space (String c1 w1) = true → no_space (String c2 w2) = true →
  getInitials "" = ""
  ∧ getInitials (String c1 w1) = String (upper_ascii c1) ""
  ∧ getInitials (String c1 w1 +:+ " " +:+ String c2 w2)
    = String (upper_ascii c1) (String (upper_ascii c2) "")
  ∧ getInitials (String c1 w1 +:+ " " +:+ String c2 w2 +:+ " " +:+ rest)
    = String (upper_ascii c1) (String (upper_ascii c2) "")
  ∧ getInitials (String c1 w1 +:+ " ") = String (upper_ascii c1) "UNDEFINED"
  ∧ getInitials (String c1 w1 +:+ "  " +:+ rest) = String (upper_ascii c1) "UNDEFINED"
  ∧ getInitials (" " +:+ String c1 w1) = "UNDEFINED" +:+ String (upper_ascii c1) "".
Proof.
  intros _ _ H1 H2.
  assert (∀ s, truthy (String c1 s) = true) as Ht1 by done.
  split; [done|]. unfold getInitials.
  split; [|split; [|split; [|split; [|split]]]].
  - rewrite Ht1, (String_split_single " ") by done. done.
  - change (String c1 w1 +:+ " " +:+ String c2 w2)
      with (String c1 (w1 +:+ " " +:+ String c2 w2)).
    rewrite Ht1.
    change (String c1 (w1 +:+ " " +:+ String c2 w2))
      with (String c1 w1 +:+ String " " (String c2 w2)).
    rewrite (String_split_word " "), (String_split_single " ") by done. done.
  - change (String c1 w1 +:+ " " +:+ String c2 w2 +:+ " " +:+ rest)
      with (String c1 (w1 +:+ " " +:+ String c2 w2 +:+ " " +:+ rest)).
    rewrite Ht1.
    change (String c1 (w1 +:+ " " +:+ String c2 w2 +:+ " " +:+ rest))
      with (String c1 w1 +:+ String " " (String c2 w2 +:+ String " " rest)).
    rewrite !(String_split_word " ") by done.
    pose proof (String_split_nonempty " " rest). by destruct (String_split " " rest).
  - change (String c1 w1 +:+ " ") with (String c1 (w1 +:+ " ")).
    rewrite Ht1.
    change (String c1 (w1 +:+ " ")) with (String c1 w1 +:+ String " " "").
    rewrite (String_split_word " ") by done. done.
  - change (String c1 w1 +:+ "  " +:+ rest) with (String c1 (w1 +:+ "  " +:+ rest)).
    rewrite Ht1.
    change (String c1 (w1 +:+ "  " +:+ rest))
      with (String c1 w1 +:+ String " " (String " " rest)).
    rewrite (String_split_word " ") by done. cbn.
    pose proof (String_split_nonempty " " rest). by destruct (String_split " " rest).
  - change (" " +:+ String c1 w1) with (String " " (String c1 w1)).
    change (truthy (String " " (String c1 w1))) with true.
    change (String_split " " (String " " (String c1 w1)))
      with ("" :: String_split " " (String c1 w1)).
    rewrite (String_split_single " " (String c1 w1)) by done. done.
Qed.

Lemma X20_getInitials_witness :
  getInitials "John Doe" = "JD" ∧ getInitials "John " = "JUNDEFINED".
Proof.
  destruct (X20_getInitials "J" "D" "ohn" "oe" "") as (_ & _ & Htwo & _ & Hend & _);
    [vm_compute; lia | vm_compute; lia | reflexivity | reflexivity |].
  split; [exact Htwo | exact Hend].
Defined.

(** * The thousands separator *)

Lemma append_empty (s : string) : s +:+ "" = s.
Proof. induction s as [|c s IH]; [done|]. by rewrite append_String, IH. Qed.

Lemma length_append (s t : string) :
  String.length (s +:+ t) = (String.length s + String.length t)%nat.
Proof.
  induction s as [|c s IH]; [done|].
  rewrite append_String. cbn [String.length]. by rewrite IH.
Qed.

Lemma all_digits_append (s t : string) :
  all_digits (s +:+ t) = all_digits s && all_digits t.
Proof.
  induction s as [|c s IH]; [done|]. rewrite append_String. cbn [all_digits].
  by rewrite IH, andb_assoc.
Qed.

(** A digit is a word character, and it is not the point. *)
Lemma digit_facts (c : ascii) :
  is_digit c = true → is_word c = true ∧ Ascii.eqb c "." = false.
Proof. destruct c as [[] [] [] [] [] [] [] []]; vm_compute; try discriminate; done. Qed.

Lemma all_digits_free_of_point (s : string) :
  all_digits s = true → free_of "." s = true.
Proof.
  induction s as [|c s IH]; cbn [all_digits free_of]; [done|].
  intros [Hc Hs]%andb_prop. destruct (digit_facts _ Hc) as [_ ->]. by rewrite IH.
Qed.

(** In front of digits only, the lookahead succeeds exactly when their
    number is a multiple of three and not zero. *)
Lemma threes_follow_length (n : nat) (s : string) :
  (String.length s ≤ n)%nat → all_digits s = true →
  threes_follow s
  = (negb (String.length s =? 0) && (String.length s mod 3 =? 0))%nat.
Proof.
  revert s. induction n as [n IH] using lt_wf_ind. intros s Hn Hs.
  destruct s as [|a [|b [|c rest]]]; try done.
  cbn [all_digits] in Hs.
  apply andb_prop in Hs as [Ha [Hb [Hc Hrest]%andb_prop]%andb_prop].
  cbn [threes_follow String.length]. rewrite Ha, Hb, Hc. cbn [andb negb Nat.eqb].
  replace (S (S (S (String.length rest)))) with (String.length rest + 1 * 3)%nat by lia.
  rewrite Nat.Div0.mod_add.
  destruct rest as [|d rest']; [done|].
  rewrite (IH (String.length (String d rest'))); [|cbn [String.length] in *; lia|lia|done].
  cbn [all_digits] in Hrest. apply andb_prop in Hrest as [Hd _].
  cbn [first_char from_option]. rewrite Hd. done.
Qed.

(** Behind a digit, fewer than three characters get no comma. *)
Lemma replace_from_short (d : ascii) (s : string) :
  (String.length s < 3)%nat → replace_from (Some d) s = s.
Proof.
  destruct s as [|a [|b [|c rest]]]; cbn [String.length]; try lia; intros _.
  - cbn. by rewrite andb_false_r.
  - cbn. by rewrite !andb_false_r.
  - cbn. by rewrite !andb_false_r.
Qed.

(** Behind a digit, three more digits at the end add one comma in front
    of them and move no other. *)
Lemma replace_from_group (d : ascii) (s : string) (a b c : ascii) :
  is_digit d = true → all_digits s = true →
  all_digits (String a (String b (String c ""))) = true →
  replace_from (Some d) (s +:+ String a (String b (String c "")))
  = replace_from (Some d) s +:+ "," +:+ String a (String b (String c "")).
Proof.
  intros Hd Hs Hg. revert d Hd. induction s as [|x s IH]; intros d Hd.
  - cbn [all_digits] in Hg.
    apply andb_prop in Hg as [Ha [Hb [Hc _]%andb_prop]%andb_prop].
    destruct (digit_facts _ Hd) as [Hwd _]. destruct (digit_facts _ Ha) as [Hwa _].
    change ("" +:+ String a (String b (String c "")))
      with (String a (String b (String c ""))).
    cbn [replace_from first_char threes_follow].
    unfold not_word_boundary. cbn [from_option].
    rewrite Ha, Hb, Hc, Hwd, Hwa. cbn [Bool.eqb andb negb orb].
    rewrite !andb_false_r. done.
  - cbn [all_digits] in Hs. apply andb_prop in Hs as [Hx Hs].
    rewrite append_String. cbn [replace_from first_char].
    rewrite (IH Hs x Hx).
    rewrite <- append_String.
    rewrite (threes_follow_length _
               (String x s +:+ String a (String b (String c ""))) (le_n _)),
            (threes_follow_length _ (String x s) (le_n _)).
    + rewrite length_append. cbn [String.length].
      replace (S (String.length s) + 3)%nat
        with (S (String.length s) + 1 * 3)%nat by lia.
      rewrite Nat.Div0.mod_add.
      replace (S (String.length s) + 1 * 3 =? 0)%nat with false
        by (symmetry; apply Nat.eqb_neq; lia).
      cbn [Nat.eqb].
      by destruct (_ && _).
    + cbn [all_digits]. by rewrite Hx, Hs.
    + rewrite all_digits_append. cbn [all_digits] in *. by rewrite Hx, Hs, Hg.
Qed.

Lemma split_last_three (s : string) :
  (3 ≤ String.length s)%nat →
  ∃ s' a b c, s = s' +:+ String a (String b (String c "")).
Proof.
  induction s as [|x s IH]; cbn [String.length]; [lia|]. intros Hlen.
  destruct (decide (3 ≤ String.length s)%nat) as [Hs|Hs].
  - destruct (IH Hs) as (s' & a & b & c & ->). by exists (String x s'), a, b, c.
  - destruct s as [|a [|b [|c rest]]]; cbn [String.length] in *; try lia.
    by exists "", x, a, b.
Qed.

(** The commas that go into digits behind their first one group them in
    threes from the right. *)
Lemma grouped_digits (n : nat) (c : ascii) (s : string) :
  (String.length s ≤ n)%nat → all_digits (String c s) = true →
  grouped (String c s) (String c (replace_from (Some c) s)).
Proof.
  revert s. induction n as [n IH] using lt_wf_ind. intros s Hn Hcs.
  destruct (decide (String.length s < 3)%nat) as [Hshort|Hlong].
  - rewrite replace_from_short by done. apply grouped_first. cbn [String.length]. lia.
  - destruct (split_last_three s) as (s' & x & y & z & ->); [lia|].
    cbn [all_digits] in Hcs. apply andb_prop in Hcs as [Hc Hs].
    rewrite all_digits_append in Hs. apply andb_prop in Hs as [Hs' Hg].
    rewrite replace_from_group by done.
    rewrite <- !append_String.
    apply grouped_next.
    rewrite length_append in Hn. cbn [String.length] in Hn.
    apply (IH (String.length s')); [lia|lia|].
    cbn [all_digits]. by rewrite Hc, Hs'.
Qed.

(** No comma goes in front of the first digit. *)
Lemma insert_commas_digits (c : ascii) (s : string) :
  is_digit c = true →
  insert_commas (String c s) = String c (replace_from (Some c) s).
Proof.
  intros Hc. destruct (digit_facts _ Hc) as [Hw _].
  unfold insert_commas. cbn [replace_from first_char].
  unfold not_word_boundary. cbn [from_option]. by rewrite Hw.
Qed.

(** Nor between a minus sign and the first digit. *)
Lemma insert_commas_minus (c : ascii) (s : string) :
  is_digit c = true →
  insert_commas (String "-" (String c s))
  = String "-" (String c (replace_from (Some c) s)).
Proof.
  intros Hc. destruct (digit_facts _ Hc) as [Hw _].
  unfold insert_commas. cbn [replace_from first_char].
  unfold not_word_boundary. cbn [from_option].
  rewrite Hw. change (is_word "-") with false. cbn [Bool.eqb andb].
  replace (threes_follow (String "-" (String c s))) with false; [done|].
  by destruct s as [|? ?].
Qed.

(** The separator on a number in fixed notation. *)
Lemma separator_fixed {Num : Type} (isNaN : Num → bool) (toString : Num → string)
    (num : Num) (negative : bool) (c : ascii) (whole frac : string) :
  isNaN num = false →
  all_digits (String c whole) = true → all_digits frac = true →
  toString num = fixed_text negative (String c whole) frac →
  addThousandsSeparator isNaN toString (Some num)
  = fixed_text negative (String c (replace_from (Some c) whole)) frac.
Proof.
  intros HNaN Hwhole Hfrac Htext.
  unfold addThousandsSeparator. rewrite HNaN, Htext. unfold fixed_text.
  pose proof (all_digits_free_of_point _ Hwhole) as Hfree.
  pose proof Hwhole as Hc. cbn [all_digits] in Hc. apply andb_prop in Hc as [Hc _].
  destruct frac as [|f frac]; cbn [String.eqb].
  - rewrite !append_empty. destruct negative.
    + change ("-" +:+ String c whole) with (String "-" (String c whole)).
      rewrite (String_split_single "."); [|exact Hfree].
      cbn [head]. change (truthy (@None string)) with false. cbn match.
      by rewrite insert_commas_minus.
    + change ("" +:+ String c whole) with (String c whole).
      rewrite (String_split_single ".") by done.
      cbn [head]. change (truthy (@None string)) with false. cbn match.
      by rewrite insert_commas_digits.
  - pose proof (all_digits_free_of_point _ Hfrac) as Hfree'.
    destruct negative.
    + change ("-" +:+ String c whole +:+ "." +:+ String f frac)
        with (String "-" (String c whole) +:+ String "." (String f frac)).
      rewrite (String_split_word "."); [|exact Hfree].
      rewrite (String_split_single ".") by done.
      cbn [head default]. change (truthy (Some (String f frac))) with true. cbn match.
      by rewrite insert_commas_minus.
    + change ("" +:+ String c whole +:+ "." +:+ String f frac)
        with (String c whole +:+ String "." (String f frac)).
      rewrite (String_split_word ".") by done.
      rewrite (String_split_single ".") by done.
      cbn [head default]. change (truthy (Some (String f frac))) with true. cbn match.
      by rewrite insert_commas_digits.
Qed.

(** The decimal digits of a positive number: there is at least one, and
    all are digits. *)
Lemma all_digits_uint (d : Decimal.uint) :
  all_digits (DecimalString.NilEmpty.string_of_uint d) = true.
Proof. induction d; simpl; auto. Qed.

Lemma string_of_uint_shape (d : Decimal.uint) :
  d ≠ Decimal.Nil →
  ∃ c s, DecimalString.NilZero.string_of_uint d = String c s
         ∧ all_digits (String c s) = true.
Proof.
  intros Hnil. pose proof (all_digits_uint d) as Hd.
  destruct d; [done|..]; cbn [DecimalString.NilZero.string_of_uint]; eauto.
Qed.

Lemma Integer_toString_shape (n : Z) :
  ∃ c s, Integer_toString (Z.abs n) = String c s
         ∧ all_digits (String c s) = true
         ∧ Integer_toString n = (if n <? 0 then "-" else "") +:+ String c s.
Proof.
  destruct n as [|p|p]; cbn [Z.abs Z.ltb Z.compare].
  - by exists "0"%char, "".
  - destruct (string_of_uint_shape (Pos.to_uint p)) as (c & s & Hp & Hd);
      [apply DecimalPos.Unsigned.to_uint_nonnil|].
    exists c, s. unfold Integer_toString.
    cbn [Z.to_int DecimalString.NilZero.string_of_int]. by rewrite Hp.
  - destruct (string_of_uint_shape (Pos.to_uint p)) as (c & s & Hp & Hd);
      [apply DecimalPos.Unsigned.to_uint_nonnil|].
    exists c, s. unfold Integer_toString.
    cbn [Z.to_int DecimalString.NilZero.string_of_int]. by rewrite Hp.
Qed.

(** X21: a number that prints in fixed notation, as an optional minus
    sign, the digits of the whole part and an optional point with the
    digits of the fraction, is shown with the same sign and fraction and
    with the whole part grouped: a comma in front of every three digits
    counted from the right end of the whole part, none in front of the
    first digit and none in the fraction. *)
Theorem X21_thousands_separator {Num : Type} (isNaN : Num → bool)
    (toString : Num → string) (num : Num) (negative : bool) (whole frac : string) :
  isNaN num = false →
  whole ≠ "" → all_digits whole = true → all_digits frac = true →
  toString num = fixed_text negative whole frac →
  ∃ shown,
    grouped whole shown
    ∧ addThousandsSeparator isNaN toString (Some num) = fixed_text negative shown frac.
Proof.
  intros HNaN Hne Hwhole Hfrac Htext. destruct whole as [|c whole]; [done|].
  exists (String c (replace_from (Some c) whole)). split.
  - by apply (grouped_digits (String.length whole)).
  - by apply separator_fixed.
Qed.

Lemma X21_thousands_separator_witness :
  ∃ shown,
    grouped "1234567" shown
    ∧ addThousandsSeparator (λ _ : string, false) (λ text, text) (Some "-1234567.25")
      = fixed_text true shown "25".
Proof.
  apply (X21_thousands_separator (λ _ : string, false) (λ text, text)
           "-1234567.25" true "1234567" "25");
    [reflexivity | discriminate | reflexivity | reflexivity | reflexivity].
Defined.

Example separator_examples :
  addThousandsSeparator (λ _, false) Integer_toString (Some 5300) = "5,300"
  ∧ addThousandsSeparator (λ _, false) Integer_toString (Some (-1234567)) = "-1,234,567"
  ∧ addThousandsSeparator (λ _, false) Integer_toString (Some 999) = "999"
  ∧ addThousandsSeparator (λ _ : string, false) (λ text, text) (Some "1234.5678")
    = "1,234.5678"
  ∧ addThousandsSeparator (λ _, true) Integer_toString (Some 5300) = ""
  ∧ addThousandsSeparator (λ _, false) Integer_toString None = "".
Proof. repeat split; reflexivity. Qed.

(** X22: an integer is shown as its decimal digits in groups of three
    from the right, after a minus sign when it is negative: the sign is
    no digit, so no comma follows it. *)
Theorem X22_integers_are_grouped (n : Z) :
  Z.abs n ≤ MAX_SAFE_INTEGER →
  ∃ shown,
    all_digits (Integer_toString (Z.abs n)) = true
    ∧ grouped (Integer_toString (Z.abs n)) shown
    ∧ addThousandsSeparator (λ _, false) Integer_toString (Some n)
      = (if n <? 0 then "-" else "") +:+ shown.
Proof.
  intros _. destruct (Integer_toString_shape n) as (c & s & Habs & Hdigits & Hn).
  exists (String c (replace_from (Some c) s)). rewrite Habs.
  split; [done|]. split; [by apply (grouped_digits (String.length s))|].
  rewrite (separator_fixed (λ _, false) Integer_toString n (n <? 0) c s "");
    [|done|done|done|].
  - unfold fixed_text. cbn [String.eqb]. by rewrite append_empty.
  - rewrite Hn. unfold fixed_text. cbn [String.eqb]. by rewrite append_empty.
Qed.

Lemma X22_integers_are_grouped_witness :
  ∃ shown,
    all_digits "1234567" = true
    ∧ grouped "1234567" shown
    ∧ addThousandsSeparator (λ _, false) Integer_toString (Some (-1234567))
      = "-" +:+ shown.
Proof.
  apply (X22_integers_are_grouped (-1234567)). vm_compute. discriminate.
Defined.

(** * The address check *)

(** What the greedy repetition accepts: some first characters of the
    class, one at least, in front of a rest the continuation accepts. *)
Lemma repeat_class_spec (class : ascii → bool) (k : string → bool) (s : string) :
  repeat_class class k s = true
  ↔ ∃ c s1 s2, s = String c s1 +:+ s2
               ∧ all_in class (String c s1) = true ∧ k s2 = true.
Proof.
  split.
  - induction s as [|c s IH]; cbn [repeat_class]; [done|].
    intros [Hc [Hmore|Hk]%orb_prop]%andb_prop.
    + destruct (IH Hmore) as (c' & s1 & s2 & -> & Hall & Hk).
      exists c, (String c' s1), s2. split; [done|]. split; [|done].
      cbn [all_in] in *. by rewrite Hc, Hall.
    + exists c, "", s. split; [done|]. split; [|done].
      cbn [all_in]. by rewrite Hc.
  - intros (c & s1 & s2 & -> & Hall & Hk). revert c Hall.
    induction s1 as [|c' s1 IH]; intros c Hall;
      cbn [all_in] in Hall; apply andb_prop in Hall as [Hc Hall];
      rewrite append_String; cbn [repeat_class]; rewrite Hc; cbn [andb].
    + change ("" +:+ s2) with s2. rewrite Hk. apply orb_true_r.
    + by rewrite (IH c' Hall).
Qed.

Lemma all_in_append (class : ascii → bool) (s t : string) :
  all_in class (s +:+ t) = all_in class s && all_in class t.
Proof.
  induction s as [|c s IH]; [done|]. rewrite append_String. cbn [all_in].
  by rewrite IH, andb_assoc.
Qed.

Lemma occurrences_append (c : ascii) (s t : string) :
  occurrences c (s +:+ t) = (occurrences c s + occurrences c t)%nat.
Proof.
  induction s as [|c' s IH]; [done|]. rewrite append_String. cbn [occurrences].
  rewrite IH. lia.
Qed.

Lemma not_space_or_at_facts (s : string) :
  all_in not_space_or_at s = true →
  occurrences "@" s = 0%nat ∧ all_in (λ c, negb (is_white_space c)) s = true.
Proof.
  induction s as [|c s IH]; cbn [all_in occurrences]; [done|].
  intros [Hc Hs]%andb_prop. destruct (IH Hs) as [-> ->].
  unfold not_space_or_at in Hc. apply negb_true_iff, orb_false_elim in Hc as [-> ->].
  done.
Qed.

Lemma nonempty_String (s : string) : s ≠ "" → ∃ c s', s = String c s'.
Proof. destruct s as [|c s']; [done|]. by exists c, s'. Qed.

(** X23: [validateEmail] accepts exactly the texts of the form
    name@domain.ending whose three parts are not empty and hold neither
    white space nor an at sign. So an accepted address has exactly one at
    sign and no white space; the parts may hold points, also at their
    ends and in a row. *)
Theorem X23_validateEmail (email : string) :
  (validateEmail email = true
   ↔ ∃ name domain ending,
       email = name +:+ "@" +:+ domain +:+ "." +:+ ending
       ∧ name ≠ "" ∧ domain ≠ "" ∧ ending ≠ ""
       ∧ all_in not_space_or_at name = true
       ∧ all_in not_space_or_at domain = true
       ∧ all_in not_space_or_at ending = true)
  ∧ (validateEmail email = true →
     occurrences "@" email = 1%nat
     ∧ all_in (λ c, negb (is_white_space c)) email = true).
Proof.
  assert (validateEmail email = true
          ↔ ∃ name domain ending,
              email = name +:+ "@" +:+ domain +:+ "." +:+ ending
              ∧ name ≠ "" ∧ domain ≠ "" ∧ ending ≠ ""
              ∧ all_in not_space_or_at name = true
              ∧ all_in not_space_or_at domain = true
              ∧ all_in not_space_or_at ending = true) as Hiff.
  { unfold validateEmail, test_anchored, email_regex. cbn [matcher]. split.
    - intros (c1 & n & rest1 & -> & Hn & H1)%repeat_class_spec.
      destruct rest1 as [|at_ rest1]; [done|].
      apply andb_prop in H1 as [->%Ascii.eqb_eq H1].
      apply repeat_class_spec in H1 as (c2 & d & rest2 & -> & Hd & H2).
      destruct rest2 as [|pt rest2]; [done|].
      apply andb_prop in H2 as [->%Ascii.eqb_eq H2].
      apply repeat_class_spec in H2 as (c3 & e & rest3 & -> & He & ->%String.eqb_eq).
      exists (String c1 n), (String c2 d), (String c3 e).
      rewrite append_empty. done.
    - intros (name & domain & ending & -> & Hn & Hd & He & Hname & Hdomain & Hending).
      destruct (nonempty_String _ Hn) as (c1 & n & ->).
      destruct (nonempty_String _ Hd) as (c2 & d & ->).
      destruct (nonempty_String _ He) as (c3 & e & ->).
      apply repeat_class_spec. exists c1, n, ("@" +:+ String c2 d +:+ "." +:+ String c3 e).
      split; [done|]. split; [done|].
      change ("@" +:+ String c2 d +:+ "." +:+ String c3 e)
        with (String "@" (String c2 d +:+ "." +:+ String c3 e)).
      cbn [Ascii.eqb Bool.eqb andb].
      apply repeat_class_spec. exists c2, d, ("." +:+ String c3 e).
      split; [done|]. split; [done|].
      change ("." +:+ String c3 e) with (String "." (String c3 e)).
      cbn [Ascii.eqb Bool.eqb andb].
      apply repeat_class_spec. exists c3, e, "".
      split; [by rewrite append_empty|]. done. }
  split; [exact Hiff|].
  intros (name & domain & ending & -> & _ & _ & _ & Hname & Hdomain & Hending)%Hiff.
  destruct (not_space_or_at_facts _ Hname) as [Hn1 Hn2].
  destruct (not_space_or_at_facts _ Hdomain) as [Hd1 Hd2].
  destruct (not_space_or_at_facts _ Hending) as [He1 He2].
  rewrite !occurrences_append, !all_in_append, Hn1, Hn2, Hd1, Hd2, He1, He2.
  done.
Qed.

Example validateEmail_examples :
  validateEmail "mahir@timetoprogram.com" = true
  ∧ validateEmail "a@b..c" = true
  ∧ validateEmail "a@b" = false
  ∧ validateEmail "a@.c" = false
  ∧ validateEmail "a@b." = false
  ∧ validateEmail "a b@c.d" = false
  ∧ validateEmail "a@b@c.d" = false
  ∧ validateEmail "" = false.
Proof. repeat split; reflexivity. Qed.

(** * The login form *)

(** The form in front of the login route, by what the route finds. *)
Lemma handleLogin_route (bcrypt_compare : string → string → bool)
    (generateToken : ObjectId → Z → string) (a : Accounts) (email password : string) :
  validateEmail email = true → password ≠ "" →
  handleLogin (login_route bcrypt_compare generateToken a) email password
  = SetError "" :: PostLogin (LoginBody.mk email password) ::
      match User_findOne email a with
      | Some user =>
          if comparePassword bcrypt_compare user password then
            if truthy (generateToken (User._id user) (accounts_clock a)) then
              [StoreToken (generateToken (User._id user) (accounts_clock a)); UpdateUser user;
               Navigate "/dashboard"]
            else []
          else [SetError "Invalid credentials"]
      | None => [SetError "Invalid credentials"]
      end.
Proof.
  intros Hvalid Hpassword. unfold handleLogin. rewrite Hvalid. cbn [negb].
  replace (truthy password) with true by (by destruct password).
  cbn [negb]. do 2 f_equal.
  unfold login_route, loginUser.
  destruct (User_findOne email a) as [user|]; [|done].
  destruct (comparePassword bcrypt_compare user password); [|done].
  cbn [negb fst resolves res_json status payload Session.token Session.user].
  done.
Qed.

(** X24: the login form in front of the login route. An address that
    [validateEmail] rejects, or an empty password, ends in an error
    message and no request. Otherwise one request is sent: for the
    password of the account with that address, the token is stored, the
    user is kept and the dashboard opens; for any other password, or no
    such account, the message of the route is shown. A token is stored
    for matching credentials only. *)
Theorem X24_login_form (bcrypt_compare : string → string → bool)
    (generateToken : ObjectId → Z → string) (a : Accounts) (email password : string) :
  (∀ id now, generateToken id now ≠ "") →
  let effects := handleLogin (login_route bcrypt_compare generateToken a) email password in
  (validateEmail email = false →
   effects = [SetError "Please enter a valid email address."])
  ∧ (validateEmail email = true → password = "" →
     effects = [SetError "Please enter the password"])
  ∧ (validateEmail email = true → password ≠ "" →
     ∀ user, User_findOne email a = Some user →
       comparePassword bcrypt_compare user password = true →
       effects = [SetError ""; PostLogin (LoginBody.mk email password);
                  StoreToken (generateToken (User._id user) (accounts_clock a)); UpdateUser user;
                  Navigate "/dashboard"])
  ∧ (validateEmail email = true → password ≠ "" →
     (∀ user, User_findOne email a = Some user →
        comparePassword bcrypt_compare user password = false) →
     effects = [SetError ""; PostLogin (LoginBody.mk email password);
                SetError "Invalid credentials"])
  ∧ (∀ token, StoreToken token ∈ effects →
     ∃ user, User_findOne email a = Some user
             ∧ comparePassword bcrypt_compare user password = true
             ∧ token = generateToken (User._id user) (accounts_clock a)).
Proof.
  intros Htoken effects. subst effects.
  assert (∀ id now, truthy (generateToken id now) = true) as Htruthy.
  { intros id now. specialize (Htoken id now). by destruct (generateToken id now). }
  split; [|split; [|split; [|split]]].
  - intros Hvalid. unfold handleLogin. by rewrite Hvalid.
  - intros Hvalid ->. unfold handleLogin. by rewrite Hvalid.
  - intros Hvalid Hpassword user Hfound Hmatch.
    rewrite handleLogin_route, Hfound, Hmatch, Htruthy by done. done.
  - intros Hvalid Hpassword Hwrong.
    rewrite handleLogin_route by done.
    destruct (User_findOne email a) as [user|]; [|done].
    by rewrite (Hwrong user eq_refl).
  - intros token Hin.
    destruct (validateEmail email) eqn:Hvalid;
      [|unfold handleLogin in Hin; rewrite Hvalid in Hin; cbn [negb] in Hin;
        apply list_elem_of_singleton in Hin; discriminate].
    destruct (decide (password = "")) as [->|Hpassword];
      [unfold handleLogin in Hin; rewrite Hvalid in Hin; cbn in Hin;
       apply list_elem_of_singleton in Hin; discriminate|].
    rewrite handleLogin_route in Hin by done.
    apply elem_of_cons in Hin as [?|Hin]; [discriminate|].
    apply elem_of_cons in Hin as [?|Hin]; [discriminate|].
    destruct (User_findOne email a) as [user|];
      [|apply list_elem_of_singleton in Hin; discriminate].
    destruct (comparePassword bcrypt_compare user password) eqn:Hmatch;
      [|apply list_elem_of_singleton in Hin; discriminate].
    rewrite Htruthy in Hin.
    apply elem_of_cons in Hin as [Heq|Hin].
    + injection Heq as ->. by exists user.
    + apply elem_of_cons in Hin as [?|Hin]; [discriminate|].
      apply list_elem_of_singleton in Hin; discriminate.
Qed.

Lemma X24_login_form_witness :
  (∀ id now, sample_token id now ≠ "")
  ∧ ∃ user,
      handleLogin
        (login_route sample_compare sample_token
           (auth_after sample_hash sample_compare sample_token (Register mahir)
              (no_accounts 0)))
        "mahir@timetoprogram.com" "test@321"
      = [SetError ""; PostLogin (LoginBody.mk "mahir@timetoprogram.com" "test@321");
         StoreToken (sample_token (User._id user) 0); UpdateUser user;
         Navigate "/dashboard"]
      ∧ User.fullName user = "Mahir Islam".
Proof.
  assert (∀ id now, sample_token id now ≠ "") as Htoken by done.
  split; [exact Htoken|].
  destruct (X24_login_form sample_compare sample_token
              (auth_after sample_hash sample_compare sample_token (Register mahir)
                 (no_accounts 0))
              "mahir@timetoprogram.com" "test@321" Htoken)
    as (_ & _ & Hgood & _).
  eexists. split.
  - apply Hgood; [reflexivity | discriminate | reflexivity | reflexivity].
  - reflexivity.
Defined.

(** An account whose address the form rejects can be registered at the
    route, and the form then never sends its login. *)
Example registered_but_locked_out :
  let body := RegisterBody.mk (Some "A") (Some "a@b") (Some "secret") None in
  let accounts :=
    auth_after sample_hash sample_compare sample_token (Register body) (no_accounts 0) in
  length (users accounts) = 1%nat
  ∧ handleLogin (login_route sample_compare sample_token accounts) "a@b" "secret"
    = [SetError "Please enter a valid email address."].
Proof. split; reflexivity. Qed.
